(** * snss: a shallow embedding of [snss.lib.node] and [snss.lib.protocol]

    The two library modules are translated function by function.  Python
    objects with identity (classes, protocol instances, weak sets) live in
    explicit stores; methods that mutate [self] or a class attribute are
    written in a state-and-exception monad, so that a mutation made before
    an exception is raised stays visible, as it does in Python. *)

From Stdlib Require Import ZArith String List.
From Stdlib.Strings Require Import Byte.
From stdpp Require Import base option list functions gmap strings.

Local Open Scope Z_scope.
Local Open Scope string_scope.
Local Open Scope list_scope.

(** ** Python values, exceptions, and the monad of methods *)

(** The values stored in record fields, used as tags, set as function
    flags, and threaded through a handler chain. *)
Inductive pyvalue : Type :=
| VNone
| VBool (b : bool)
| VInt (n : Z)
| VStr (s : string)
| VBytes (b : list byte).

(** [x is None] *)
Definition is_None (v : pyvalue) : bool :=
  match v with VNone => true | _ => false end.

(** [bool(x)] *)
Definition truthy (v : pyvalue) : bool :=
  match v with
  | VNone => false
  | VBool b => b
  | VInt n => negb (Z.eqb n 0)
  | VStr s => negb (String.eqb s "")
  | VBytes b => match b with [] => false | _ :: _ => true end
  end.

Fixpoint bytes_eqb (a b : list byte) : bool :=
  match a, b with
  | [], [] => true
  | x :: a', y :: b' => Byte.eqb x y && bytes_eqb a' b'
  | _, _ => false
  end.

(** [x == y], as a dict uses it to compare keys ([True == 1] holds). *)
Definition py_eqb (x y : pyvalue) : bool :=
  match x, y with
  | VNone, VNone => true
  | VBool a, VBool b => Bool.eqb a b
  | VBool a, VInt n | VInt n, VBool a => Z.eqb (Z.b2z a) n
  | VInt m, VInt n => Z.eqb m n
  | VStr s, VStr t => String.eqb s t
  | VBytes a, VBytes b => bytes_eqb a b
  | _, _ => false
  end.

(** A Python object that is used as a class-valued attribute, a dict key
    or a registrar: a class, an instance of a class, or the sentinel
    [ALL_NODES = type('_all_nodes_symbol', (), {})()], an object with
    no attribute of its own. *)
Inductive pyobj : Type :=
| PyClass (name : string)
| PyInstance (cls : string) (id : nat)
| ALL_NODES.

#[global] Instance pyobj_eq_dec : EqDecision pyobj.
Proof. solve_decision. Defined.

(** The text of an exception.  [MsgSwitch key case_key context] is the
    f-string of [Tree.switch]:
    [f'{key} not implemented for {case_key} (context: {context})']. *)
Inductive message : Type :=
| Msg (s : string)
| MsgSwitch (key : pyvalue) (case_key : string) (context : pyvalue).

Inductive exn : Type :=
| TypeError (m : message)
| KeyError (m : message)
| AttributeError (m : message)
| ValueError (m : message)
| NotImplementedError (m : message)
| RecursionError
| OtherException (name : string)
| KeyboardInterrupt
| SystemExit.

(** [isinstance(e, Exception)]: what [except Exception] catches. *)
Definition isinstance_Exception (e : exn) : bool :=
  match e with
  | KeyboardInterrupt | SystemExit => false
  | _ => true
  end.

Inductive res (A : Type) : Type :=
| Ok (a : A)
| Raise (e : exn).
Arguments Ok {A} a.
Arguments Raise {A} e.

(** A method on a mutable state [S]: the state survives an exception. *)
Definition M (S A : Type) : Type := S -> res A * S.

Definition ret {S A} (a : A) : M S A := fun s => (Ok a, s).
Definition raise {S A} (e : exn) : M S A := fun s => (Raise e, s).
Definition bind {S A B} (m : M S A) (k : A -> M S B) : M S B :=
  fun s => match m s with
           | (Ok a, s') => k a s'
           | (Raise e, s') => (Raise e, s')
           end.
Definition get {S} : M S S := fun s => (Ok s, s).
Definition put {S} (s : S) : M S unit := fun _ => (Ok tt, s).
Definition modify {S} (f : S -> S) : M S unit := fun s => (Ok tt, f s).
Definition lift {S A} (r : res A) : M S A := fun s => (r, s).

Declare Scope py_scope.
Delimit Scope py_scope with py.
Notation "x <- c1 ;; c2" := (bind c1 (fun x => c2))
  (at level 20, c1 at level 99, c2 at level 200, only parsing) : py_scope.
Notation "c1 ;; c2" := (bind c1 (fun _ => c2))
  (at level 100, c2 at level 200, only parsing, right associativity)
  : py_scope.
Local Open Scope py_scope.

(** A dict whose order of insertion is observable, as a list of items.
    [d.get(k)], and [d[k] = v] (an existing key keeps its place). *)
Fixpoint dict_get {K V} (eqb : K -> K -> bool) (d : list (K * V)) (k : K)
  : option V :=
  match d with
  | [] => None
  | (k', v) :: d' => if eqb k' k then Some v else dict_get eqb d' k
  end.

Fixpoint dict_set {K V} (eqb : K -> K -> bool) (d : list (K * V)) (k : K)
  (v : V) : list (K * V) :=
  match d with
  | [] => [(k, v)]
  | (k', v') :: d' =>
      if eqb k' k then (k', v) :: d' else (k', v') :: dict_set eqb d' k v
  end.

(** ** [snss.lib.node]: classes *)

(** The class attributes of a class, as attribute lookup resolves them.
    [is_Node] is [issubclass(cls, Node)], [is_Tree] is
    [issubclass(cls, Tree)]; [registry] names the [WeakSet] object that
    [cls.registry] refers to (two classes may share one). *)
Record NodeClass : Type := {
  is_Node : bool;
  is_Tree : bool;
  case_key : option string;
  data_key : option string;
  default_node : option pyobj;
  has_switch : bool;
  nodes : list (pyvalue * pyobj);
  switch_spec : option (string * pyvalue);
  registry : nat;
}.

Definition set_nodes (d : list (pyvalue * pyobj)) (c : NodeClass) : NodeClass :=
  {| is_Node := is_Node c; is_Tree := is_Tree c; case_key := case_key c;
     data_key := data_key c; default_node := default_node c;
     has_switch := has_switch c; nodes := d;
     switch_spec := switch_spec c; registry := registry c |}.

Definition set_switch_spec (s : option (string * pyvalue)) (c : NodeClass)
  : NodeClass :=
  {| is_Node := is_Node c; is_Tree := is_Tree c; case_key := case_key c;
     data_key := data_key c; default_node := default_node c;
     has_switch := has_switch c; nodes := nodes c;
     switch_spec := s; registry := registry c |}.

Definition set_registry (r : nat) (c : NodeClass) : NodeClass :=
  {| is_Node := is_Node c; is_Tree := is_Tree c; case_key := case_key c;
     data_key := data_key c; default_node := default_node c;
     has_switch := has_switch c; nodes := nodes c;
     switch_spec := switch_spec c; registry := r |}.

(** The classes of the program, by name. *)
Abbreviation class_table := (string -> NodeClass).

(** ** [snss.lib.node.Node] *)

Module Node.

(** An instance: its class, [self._data], [self.buffer] (the cached
    encoding) and [self.origin] (the bytes last decoded from); [VNone]
    is Python's [None].  A key of [_data] is a [str] or [None]. *)
Record t : Type := mk {
  type_ : string;
  _data : gmap (option string) pyvalue;
  buffer : pyvalue;
  origin : pyvalue;
}.

Definition set_data (d : gmap (option string) pyvalue) (self : t) : t :=
  mk (type_ self) d (buffer self) (origin self).
Definition set_buffer (b : pyvalue) (self : t) : t :=
  mk (type_ self) (_data self) b (origin self).
Definition set_origin (o : pyvalue) (self : t) : t :=
  mk (type_ self) (_data self) (buffer self) o.

(** [Node.__init__(self, **data)] *)
Definition __init__ (cls : string) (data : gmap (option string) pyvalue) : t :=
  mk cls data VNone VNone.

(** [cls.from_dict(kwargs)] is [cls( **kwargs)]: a call with a keyword
    that is not a [str] raises [TypeError]. *)
Definition from_dict (cls : string) (kwargs : gmap (option string) pyvalue)
  : res t :=
  match kwargs !! None with
  | Some _ => Raise (TypeError (Msg "keywords must be strings"))
  | None => Ok (__init__ cls kwargs)
  end.

(** [discard_keys]: each key that is in [_data] is deleted. *)
Definition discard_keys (keys : list (option string)) : M t unit :=
  modify (fun self =>
    set_data (fold_left (fun d k => delete k d) keys (_data self)) self).

Definition data (self : t) : gmap (option string) pyvalue := _data self.

Definition update : M t unit :=
  modify (set_buffer VNone);;
  modify (set_origin VNone).

Section Codec.

(** The two abstract methods a concrete schema supplies:
    [self._dump(context)] and [self._read(buffer, context)], the latter
    returning the decoded fields or [None]. *)
Variable _dump : t -> pyvalue -> res pyvalue.
Variable _read : t -> pyvalue -> pyvalue -> res (option (gmap (option string) pyvalue)).

(** The two methods that the code of [Node] calls through [self] and
    that a subclass under [src/] overrides, as the class of the record
    resolves them: [self.update()] ([Command] overrides [update]) and
    [self.read(buffer, context)], called with two positional arguments
    ([Tree] overrides [read]). *)
Variable self_update : M t unit.
Variable self_read : pyvalue -> pyvalue -> M t unit.

(** [self._data.update(changes)]: the changes win; then
    [self.update()]. *)
Definition feed (changes : gmap (option string) pyvalue) : M t unit :=
  modify (fun self => set_data (changes ∪ _data self) self);;
  self_update.

Definition dump (context : pyvalue) : M t pyvalue :=
  self <- get;;
  (if is_None (buffer self)
   then b <- lift (_dump self context);; modify (set_buffer b)
   else ret tt);;
  self <- get;;
  ret (buffer self).

(** Returns [self]: the state after the call. *)
Definition read (buf context : pyvalue) : M t unit :=
  self <- get;;
  data <- lift (_read self buf context);;
  match data with
  | Some d => feed d;; modify (set_origin buf)
  | None => ret tt
  end.

Definition refresh (context : pyvalue) : M t unit :=
  self <- get;;
  if truthy (origin self) then self_read (origin self) context else ret tt.

(** The methods that [Node] defines and a caller can invoke on a
    record; [Update] is [self.update()]. *)
Inductive method : Type :=
| Update
| Feed (changes : gmap (option string) pyvalue)
| DiscardKeys (keys : list (option string))
| Dump (context : pyvalue)
| Read (buf context : pyvalue)
| Refresh (context : pyvalue).

Definition call (m : method) : M t unit :=
  match m with
  | Update => self_update
  | Feed changes => feed changes
  | DiscardKeys keys => discard_keys keys
  | Dump context => dump context;; ret tt
  | Read buf context => read buf context
  | Refresh context => refresh context
  end.

End Codec.

(** [cls.load(buffer, context)] is
    [cls().read(buffer=buffer, context=context)]: [cls_read] is the
    [read] that [cls] resolves, called by keyword on the new instance;
    what it returns is returned. *)
Definition load (cls_read : pyvalue -> pyvalue -> M t t) (cls : string)
  (buf context : pyvalue) : res t * t :=
  cls_read buf context (__init__ cls ∅).

End Node.

(** ** [snss.lib.node.Tree] *)

Module Tree.

(** What [get_switch] returns: the sentinel [MissingSwitchKey], or the
    value stored under the discriminator key. *)
Inductive switch_key : Type :=
| MissingSwitchKey
| Key (v : pyvalue).

(** [cls.case(tag)(node_cls)]: the class attributes it writes. *)
Definition case (cls : string) (tag : pyvalue) (node_cls : string)
  : M class_table pyobj :=
  modify (fun ct : class_table =>
    <[cls := set_nodes
               (dict_set py_eqb (nodes (ct cls)) tag (PyClass node_cls))
               (ct cls)]> ct);;
  modify (fun ct : class_table =>
    <[node_cls := set_switch_spec (Some (cls, tag)) (ct node_cls)]> ct);;
  (* node_cls.on_register(node_cls=cls) *)
  ct <- get;;
  if is_Node (ct node_cls)
  then modify (fun ct : class_table =>
         <[node_cls := set_registry (registry (ct cls)) (ct node_cls)]> ct);;
       ret (PyClass node_cls)
  else raise (AttributeError (Msg "on_register")).

Section Classes.

Variable classes : class_table.
Variable _dump : Node.t -> pyvalue -> res pyvalue.

Definition get_switch (context : pyvalue) : M Node.t switch_key :=
  self <- get;;
  match case_key (classes (Node.type_ self)) with
  | None => ret MissingSwitchKey
  | Some k =>
      match Node._data self !! Some k with
      | Some v => ret (Key v)
      | None => raise (KeyError (Msg k))
      end
  end.

Definition set_switch (key : pyvalue) (context : pyvalue) : M Node.t unit :=
  modify (fun self =>
    Node.set_data
      (<[case_key (classes (Node.type_ self)) := key]> (Node._data self))
      self).

(** [self.case_key or "(no case key)"] *)
Definition case_key_or (c : NodeClass) : string :=
  match case_key c with
  | Some k => if String.eqb k "" then "(no case key)" else k
  | None => "(no case key)"
  end.

(** [None] is Python's [None]. *)
Definition switch (context : pyvalue) : M Node.t (option pyobj) :=
  key <- get_switch context;;
  match key with
  | MissingSwitchKey => ret None
  | Key k =>
      self <- get;;
      let c := classes (Node.type_ self) in
      let node := dict_get py_eqb (nodes c) k in
      match node, default_node c with
      | None, None =>
          raise (NotImplementedError (MsgSwitch k (case_key_or c) context))
      | _, _ => ret node
      end
  end.

(** [dump]: the recursion follows the parent links; [fuel] bounds its
    depth, as the interpreter's recursion limit does. *)
Fixpoint dump (fuel : nat) (context : pyvalue) (standalone : bool)
  : M Node.t pyvalue :=
  match fuel with
  | O => raise RecursionError
  | S fuel' =>
      self <- get;;
      let c := classes (Node.type_ self) in
      let spec :=
        if negb standalone && bool_decide (is_Some (switch_spec c))
           && has_switch c
        then switch_spec c else None in
      b <- Node.dump _dump context;;
      modify (Node.set_buffer b);;
      match spec with
      | Some (tree_cls, switch_key) =>
          self <- get;;
          tree <- lift (Node.from_dict tree_cls
                          {[ case_key c := Node.buffer self ]});;
          lift (fst ((set_switch switch_key context;;
                      dump fuel' context false) tree))
      | None =>
          self <- get;;
          ret (Node.buffer self)
      end
  end.

End Classes.

End Tree.

(** ** [heapq]: the standard library's binary heap on a list *)

Module heapq.

Section Heap.

Context {A : Type}.
(** [x < y], as the items define it. *)
Variable lt : A -> A -> bool.

(** The loop of [_siftdown(heap, startpos, pos)]; [pos] strictly
    decreases, so [pos] iterations are enough. *)
Fixpoint _siftdown_loop (fuel : nat) (heap : list A) (startpos pos : nat)
  (newitem : A) : list A :=
  match fuel with
  | O => <[pos := newitem]> heap
  | S fuel' =>
      if bool_decide (startpos < pos)%nat then
        let parentpos := Nat.shiftr (pos - 1) 1 in
        match heap !! parentpos with
        | Some parent =>
            if lt newitem parent
            then _siftdown_loop fuel' (<[pos := parent]> heap) startpos
                   parentpos newitem
            else <[pos := newitem]> heap
        | None => <[pos := newitem]> heap
        end
      else <[pos := newitem]> heap
  end.

Definition _siftdown (heap : list A) (startpos pos : nat) : list A :=
  match heap !! pos with
  | Some newitem => _siftdown_loop pos heap startpos pos newitem
  | None => heap
  end.

(** [heap.append(item); _siftdown(heap, 0, len(heap) - 1)] *)
Definition heappush (heap : list A) (item : A) : list A :=
  let heap' := heap ++ [item] in
  _siftdown heap' 0 (length heap' - 1).

End Heap.

End heapq.

(** ** [snss.lib.protocol]: [Status], handler functions, [Handler] *)

Inductive Status : Type := DAEMON | NORMAL | IMPORTANT | URGENT.

Definition Status_value (s : Status) : Z :=
  match s with
  | DAEMON => 0
  | NORMAL => 1
  | IMPORTANT => 2
  | URGENT => 3
  end.

(** A function object, with the two attributes that [is_responder] and
    [is_reducer] set on it ([None]: the attribute is absent). *)
Record pyfunction : Type := {
  __name__ : string;
  __responder__ : option pyvalue;
  __reducer__ : option pyvalue;
}.

(** The decorators [is_responder(function)] and [is_reducer(function)]. *)
Definition is_responder (function : pyfunction) : pyfunction :=
  {| __name__ := __name__ function;
     __responder__ := Some (VBool true);
     __reducer__ := __reducer__ function |}.

Definition is_reducer (function : pyfunction) : pyfunction :=
  {| __name__ := __name__ function;
     __responder__ := __responder__ function;
     __reducer__ := Some (VBool true) |}.

(** What a handler's [function] can be: a function, a [Protocol]
    subclass (a child-dispatcher type), or the bound method [p.handle]
    of a protocol instance [p]. *)
Inductive callable : Type :=
| Function (f : pyfunction)
| ProtocolType (cls : string)
| BoundHandle (self : nat).

(** [getattr(function, FLAG)]: only functions carry the flags; a bound
    method looks them up on [Protocol.handle], which has none. *)
Definition getattr_flag (flag : pyfunction -> option pyvalue) (f : callable)
  : option pyvalue :=
  match f with
  | Function pf => flag pf
  | ProtocolType _ | BoundHandle _ => None
  end.

(** An argument of a handler call. *)
Inductive arg : Type :=
| ArgProtocol (p : nat)
| ArgNode (n : Node.t)
| ArgResponder (c : option pyobj)
| ArgValue (v : pyvalue).

Module Handler.

Record t : Type := mk {
  function : callable;
  responder_cls : option pyobj;
  status : Status;
  pass_protocol : bool;
}.

(** [__lt__] and [__eq__] *)
Definition lt (self other : t) : bool :=
  Z.ltb (- Status_value (status self)) (- Status_value (status other)).

Definition eq (self other : t) : bool :=
  Z.eqb (- Status_value (status self)) (- Status_value (status other)).

(** [getattr(self.function, RESPONDER_FLAG, self.responder_cls) is not None] *)
Definition is_responder (self : t) : bool :=
  match getattr_flag __responder__ (function self) with
  | Some v => negb (is_None v)
  | None => bool_decide (is_Some (responder_cls self))
  end.

(** [getattr(self.function, REDUCER_FLAG, False)] *)
Definition is_reducer (self : t) : pyvalue :=
  match getattr_flag __reducer__ (function self) with
  | Some v => v
  | None => VBool false
  end.

(** The list [args] that [__call__] builds. *)
Definition args (self : t) (previous_value : pyvalue) (protocol : nat)
  (node : Node.t) : list arg :=
  (if pass_protocol self then [ArgProtocol protocol] else [])
  ++ [ArgNode node]
  ++ (if is_responder self then [ArgResponder (responder_cls self)] else [])
  ++ (if truthy (is_reducer self) then [ArgValue previous_value] else []).

Section Call.

(** The state the handler functions act on, and what calling a callable
    on a list of arguments does there. *)
Context {W : Type}.
Variable invoke : callable -> list arg -> M W pyvalue.

(** [__call__]: [self.function( *args)] *)
Definition call (self : t) (previous_value : pyvalue) (protocol : nat)
  (node : Node.t) : M W pyvalue :=
  invoke (function self) (args self previous_value protocol node).

End Call.

End Handler.

(** ** [snss.lib.protocol]: [If], the class tables, [Protocol] *)

(** A condition object.  Two conditions are the same dict key when they
    are the same object ([If_id]); [_check] receives the protocol's
    [config] and the node (or [None]). *)
Record If : Type := {
  If_id : nat;
  _check : gmap string pyvalue -> option Node.t -> bool;
  checks_node : bool;
}.

Definition condition_eqb (a b : option If) : bool :=
  match a, b with
  | None, None => true
  | Some x, Some y => Nat.eqb (If_id x) (If_id y)
  | _, _ => false
  end.

Definition pyobj_eqb (a b : pyobj) : bool := bool_decide (a = b).

(** What a keyword of [If.configured] expects of a value: a literal to
    compare with, or a callable to apply. *)
Inductive expected : Type :=
| Literal (v : pyvalue)
| Callable (f : pyvalue -> bool).

(** [_if_check(value, condition)] *)
Definition _if_check (value : pyvalue) (condition : expected) : bool :=
  match condition with
  | Callable f => f value
  | Literal c => py_eqb c value
  end.

(** [If.configured( **config_conditions)]: a fresh condition object (its
    identity is [id]); [protocol.config.get(key)] is [None] for a key
    that is not configured. *)
Definition If_configured (id : nat)
  (config_conditions : list (string * expected)) : If :=
  {| If_id := id;
     _check := fun config _node =>
       forallb (fun item : string * expected =>
                  _if_check (default VNone (config !! fst item)) (snd item))
         config_conditions;
     checks_node := false |}.

(** [self & other] and [self | other]: each is a new condition object,
    built by [__init__], which sets [checks_node] to [False]. *)
Definition If_and (id : nat) (self other : If) : If :=
  {| If_id := id;
     _check := fun config node =>
       _check self config node && _check other config node;
     checks_node := false |}.

Definition If_or (id : nat) (self other : If) : If :=
  {| If_id := id;
     _check := fun config node =>
       _check self config node || _check other config node;
     checks_node := false |}.

(** The dict that [register_handler] stores: [function] is [None] while
    the key is popped. *)
Module Case.

Record t : Type := mk {
  function : option callable;
  responder_cls : option pyobj;
  status : Status;
  pass_protocol : bool;
}.

Definition set_function (f : option callable) (case : t) : t :=
  mk f (responder_cls case) (status case) (pass_protocol case).
Definition set_pass_protocol (b : bool) (case : t) : t :=
  mk (function case) (responder_cls case) (status case) b.

End Case.

(** The class attributes [__init_subclass__] gives a [Protocol] subclass. *)
Record ProtocolClass : Type := {
  _registry : list (pyobj * option If);
  _handlers : list (pyobj * list (option If * list Case.t));
  _children : list string;
}.

Definition set__registry (r : list (pyobj * option If)) (c : ProtocolClass)
  : ProtocolClass :=
  {| _registry := r; _handlers := _handlers c; _children := _children c |}.

Definition set__handlers (h : list (pyobj * list (option If * list Case.t)))
  (c : ProtocolClass) : ProtocolClass :=
  {| _registry := _registry c; _handlers := h; _children := _children c |}.

Definition set__children (l : list string) (c : ProtocolClass)
  : ProtocolClass :=
  {| _registry := _registry c; _handlers := _handlers c; _children := l |}.

(** The dict that the decorator [handles] appends to the list
    [function.__handles__]. *)
Module Relation.

Record t : Type := mk {
  node_cls : pyobj;
  condition : option If;
  responder_cls : option pyobj;
  status : Status;
  pass_protocol : bool;
}.

End Relation.

(** A function object together with its [__handles__] list (empty: the
    attribute is absent). *)
Record decorated : Type := {
  def_ : pyfunction;
  __handles__ : list Relation.t;
}.

(** The module-level decorator [handles(node_cls, condition, responder,
    status, pass_protocol)(function)]. *)
Definition handles (node_cls : pyobj) (condition : option If)
  (responder : option pyobj) (status : Status) (pass_protocol : bool)
  (function : decorated) : decorated :=
  {| def_ := def_ function;
     __handles__ :=
       __handles__ function
       ++ [Relation.mk node_cls condition responder status pass_protocol] |}.

(** What is written to [sys.stderr]. *)
Inductive report : Type :=
| Written (text : string)
| Traceback (e : exn).

Module Protocol.

Local Abbreviation weakset_of c := (registry c).

(** An instance.  [_aborted] is [None] until the attribute is first
    assigned. *)
Record t : Type := mk {
  type_ : string;
  protocol : option nat;
  _config : gmap string pyvalue;
  children : list (string * nat);
  registry : list pyobj;
  _aborted : option bool;
}.

Definition set_config (c : gmap string pyvalue) (p : t) : t :=
  mk (type_ p) (protocol p) c (children p) (registry p) (_aborted p).
Definition set_children (c : list (string * nat)) (p : t) : t :=
  mk (type_ p) (protocol p) (_config p) c (registry p) (_aborted p).
Definition set_registry (r : list pyobj) (p : t) : t :=
  mk (type_ p) (protocol p) (_config p) (children p) r (_aborted p).
Definition set_aborted (a : option bool) (p : t) : t :=
  mk (type_ p) (protocol p) (_config p) (children p) (registry p) a.

Section Dispatcher.

(** The state of the handler functions and the behaviour of the
    callables; the [Node] subclasses of the program. *)
Context {W : Type}.
Variable invoke : callable -> list arg -> M W pyvalue.
Variable node_classes : class_table.

(** The objects the dispatcher reads and writes: the [Protocol]
    subclasses and instances, the [WeakSet] objects, [sys.stderr], the
    handlers' own state, and the record [calls] of the calls made, in
    order (kept for observation only). *)
Record State : Type := mkState {
  classes : gmap string ProtocolClass;
  objects : gmap nat t;
  weaksets : gmap nat (gset nat);
  stderr : list report;
  world : W;
  calls : list (callable * list arg);
}.

Definition set_classes (c : gmap string ProtocolClass) (s : State) : State :=
  mkState c (objects s) (weaksets s) (stderr s) (world s) (calls s).
Definition set_objects (o : gmap nat t) (s : State) : State :=
  mkState (classes s) o (weaksets s) (stderr s) (world s) (calls s).
Definition set_weaksets (w : gmap nat (gset nat)) (s : State) : State :=
  mkState (classes s) (objects s) w (stderr s) (world s) (calls s).
Definition set_stderr (e : list report) (s : State) : State :=
  mkState (classes s) (objects s) (weaksets s) e (world s) (calls s).
Definition set_world (w : W) (s : State) : State :=
  mkState (classes s) (objects s) (weaksets s) (stderr s) w (calls s).
Definition set_calls (c : list (callable * list arg)) (s : State) : State :=
  mkState (classes s) (objects s) (weaksets s) (stderr s) (world s) c.

(** Attribute access on an instance and on its class. *)
Definition get_object (self : nat) : M State t :=
  s <- get;;
  match objects s !! self with
  | Some p => ret p
  | None => raise (OtherException "ReferenceError")
  end.

Definition modify_object (self : nat) (f : t -> t) : M State unit :=
  p <- get_object self;;
  modify (fun s => set_objects (<[self := f p]> (objects s)) s).

Definition get_class (cls : string) : M State ProtocolClass :=
  s <- get;;
  match classes s !! cls with
  | Some c => ret c
  | None => raise (AttributeError (Msg cls))
  end.

Definition modify_class (cls : string) (f : ProtocolClass -> ProtocolClass)
  : M State unit :=
  c <- get_class cls;;
  modify (fun s => set_classes (<[cls := f c]> (classes s)) s).

(** [protocol in node_cls.registry] *)
Definition in_registry (s : State) (protocol : nat) (cls : string) : bool :=
  bool_decide
    (protocol ∈ default ∅ (weaksets s !! weakset_of (node_classes cls))).

(** [Node.on_register(protocol_cls=protocol, add_protocol=...)], looked
    up on [node_cls]: a class or an instance of a [Node] subclass has
    it, any other object raises [AttributeError]. *)
Definition on_register (node_cls : pyobj) (protocol_cls : nat)
  (add_protocol : bool) : M State bool :=
  match node_cls with
  | PyClass c | PyInstance c _ =>
      if is_Node (node_classes c) then
        let r := weakset_of (node_classes c) in
        modify (fun s =>
          let set := default ∅ (weaksets s !! r) in
          set_weaksets
            (<[r := if add_protocol then set ∪ {[protocol_cls]}
                    else set ∖ {[protocol_cls]}]> (weaksets s)) s);;
        ret add_protocol
      else raise (AttributeError (Msg "on_register"))
  | ALL_NODES => raise (AttributeError (Msg "on_register"))
  end.

(** [hasattr(node_cls, 'on_register')] *)
Definition has_on_register (node_cls : pyobj) : bool :=
  match node_cls with
  | PyClass c | PyInstance c _ => is_Node (node_classes c)
  | ALL_NODES => false
  end.

(** [If.check] *)
Definition If_check (condition : option If) (config : gmap string pyvalue)
  (node : option Node.t) : bool :=
  match condition with
  | None => true
  | Some c => _check c config node
  end.

(** *** [configure] and [__init__] *)

(** The loop of [configure] over [self._registry.items()]. *)
Fixpoint configure_registry (self : nat) (items : list (pyobj * option If))
  : M State unit :=
  match items with
  | [] => ret tt
  | (node_cls, condition) :: rest =>
      let abort_on_check_failure := bool_decide (node_cls = ALL_NODES) in
      p <- get_object self;;
      let check := If_check condition (_config p) None in
      if check then
        on_register node_cls self true;;
        configure_registry self rest
      else
        on_register node_cls self false;;
        if abort_on_check_failure
        then modify_object self (set_aborted (Some true))
        else configure_registry self rest
  end.

(** The loop of [configure] over [self._children]; [new] is the call
    [child_cls(self, **self._config)]. *)
Fixpoint configure_children
  (new : string -> option nat -> gmap string pyvalue -> M State nat)
  (self : nat) (child_classes : list string) : M State unit :=
  match child_classes with
  | [] => ret tt
  | child_cls :: rest =>
      p <- get_object self;;
      (match dict_get String.eqb (children p) child_cls with
       | Some _ => ret tt
       | None =>
           child <- new child_cls (Some self) (_config p);;
           modify_object self (fun p =>
             set_children (dict_set String.eqb (children p) child_cls child) p)
       end);;
      configure_children new self rest
  end.

Definition configure_with
  (new : string -> option nat -> gmap string pyvalue -> M State nat)
  (self : nat) (config : gmap string pyvalue) : M State unit :=
  modify_object self (fun p => set_config (config ∪ _config p) p);;
  p <- get_object self;;
  cls <- get_class (type_ p);;
  configure_registry self (_registry cls);;
  configure_children new self (_children cls);;
  modify_object self (set_registry []).

(** [cls(protocol, **config)]: a fresh instance, then [__init__].  The
    constructor recurses through the child classes; [fuel] bounds the
    depth. *)
Fixpoint __init__ (fuel : nat) (cls : string) (protocol : option nat)
  (config : gmap string pyvalue) : M State nat :=
  match fuel with
  | O => raise RecursionError
  | S fuel' =>
      s <- get;;
      let self := fresh (dom (objects s)) in
      modify (fun s =>
        set_objects (<[self := mk cls protocol ∅ [] [] None]> (objects s)) s);;
      configure_with (__init__ fuel') self config;;
      modify_object self (set_aborted (Some false));;
      ret self
  end.

Definition configure (fuel : nat) (self : nat) (config : gmap string pyvalue)
  : M State unit :=
  configure_with (__init__ fuel) self config.

(** *** Registration (class methods: [cls] is the [Protocol] subclass) *)

(** [issubclass(registered, Node)]: the first argument must be a class. *)
Definition issubclass_Node (registered : pyobj) : res bool :=
  match registered with
  | PyClass c => Ok (is_Node (node_classes c))
  | PyInstance _ _ | ALL_NODES =>
      Raise (TypeError (Msg "issubclass() arg 1 must be a class"))
  end.

(** The objects for which [issubclass(registered, Node)] holds. *)
Definition Node_subclass (o : pyobj) : Prop :=
  ∃ name, o = PyClass name ∧ is_Node (node_classes name) = true.

(** [cls.register(registered, condition)] with a [registered] that is
    not [None]. *)
Definition register (cls : string) (registered : pyobj)
  (condition : option If) : M State pyobj :=
  sub <- lift (issubclass_Node registered);;
  if (sub : bool) then
    let checks_node :=
      match condition with
      | Some c => checks_node c
      | None => false
      end in
    if checks_node
    then raise (ValueError
                  (Msg "cannot check node schema in protocol registry filter"))
    else
      modify_class cls (fun c =>
        set__registry (dict_set pyobj_eqb (_registry c) registered condition)
          c);;
      ret registered
  else raise (TypeError
                (Msg "invalid registrar type: expected Node subclass as a Protocol registrar")).

(** [tree.nodes] and [isinstance(node, Tree)]: a class object is an
    instance of its metaclass, not of [Tree]. *)
Definition attr_nodes (o : pyobj) : res (list (pyvalue * pyobj)) :=
  match o with
  | PyClass c | PyInstance c _ =>
      if is_Tree (node_classes c) then Ok (nodes (node_classes c))
      else Raise (AttributeError (Msg "nodes"))
  | ALL_NODES => Raise (AttributeError (Msg "nodes"))
  end.

Definition isinstance_Tree (o : pyobj) : bool :=
  match o with
  | PyInstance c _ => is_Tree (node_classes c)
  | PyClass _ | ALL_NODES => false
  end.

(** The loop of [register_tree] over [tree.nodes.values()]; [again] is
    the recursive call [cls.register_tree(tree, recursive=recursive,
    condition=condition)]. *)
Fixpoint register_tree_loop (again : M State (list pyobj)) (cls : string)
  (recursive : bool) (condition : option If) (values : list pyobj)
  (done : list pyobj) : M State (list pyobj) :=
  match values with
  | [] => ret done
  | node :: rest =>
      sub_nodes <- lift (if recursive && isinstance_Tree node
                         then attr_nodes node else Ok []);;
      (match sub_nodes with
       | _ :: _ => again;; ret tt
       | [] => ret tt
       end);;
      r <- register cls node condition;;
      register_tree_loop again cls recursive condition rest (done ++ [r])
  end.

Fixpoint register_tree (fuel : nat) (cls : string) (tree : pyobj)
  (recursive : bool) (condition : option If) : M State (list pyobj) :=
  match fuel with
  | O => raise RecursionError
  | S fuel' =>
      items <- lift (attr_nodes tree);;
      register_tree_loop (register_tree fuel' cls tree recursive condition)
        cls recursive condition (map snd items) []
  end.

(** [cls._handlers.setdefault(node_cls, {}).setdefault(condition, [])
    .append(dict(...))] *)
Definition register_handler (cls : string) (function : callable)
  (node_cls : pyobj) (responder_cls : option pyobj) (status : Status)
  (condition : option If) (pass_protocol : bool) : M State unit :=
  if bool_decide (responder_cls = Some ALL_NODES)
  then raise (ValueError (Msg "cannot establish relation to all node types"))
  else
    modify_class cls (fun c =>
      let groups := default [] (dict_get pyobj_eqb (_handlers c) node_cls) in
      let cases := default [] (dict_get condition_eqb groups condition) in
      let case := Case.mk (Some function) responder_cls status pass_protocol in
      set__handlers
        (dict_set pyobj_eqb (_handlers c) node_cls
           (dict_set condition_eqb groups condition (cases ++ [case])))
        c).

(** *** Dispatch *)

Definition on_unknown_case (self : nat) (node : Node.t) : M State unit :=
  ret tt.

(** [on_error]: the text written to [report_file], then the traceback
    of the exception being handled. *)
Definition on_error (self : nat) (node : option Node.t) (msg : option string)
  (e : exn) : M State unit :=
  p <- get_object self;;
  let msg :=
    match msg, node with
    | None, Some n => ("handling " ++ Node.type_ n ++ " node")%string
    | _, _ => (type_ p ++ " running")%string
    end in
  modify (fun s =>
    set_stderr
      (stderr s
       ++ [Written ("FATAL: exception caught during " ++ msg ++ ".")%string;
           Traceback e]) s).

(** [handler(protocol=self, node=node, previous_value=value)], run on
    the handlers' state. *)
Definition call (handler : Handler.t) (previous_value : pyvalue)
  (protocol : nat) (node : Node.t) : M State pyvalue :=
  modify (fun s =>
    set_calls
      (calls s ++ [(Handler.function handler,
                    Handler.args handler previous_value protocol node)]) s);;
  fun s =>
    let '(r, w) := Handler.call invoke handler previous_value protocol node
                     (world s) in
    (r, set_world w s).

Definition call_handler (self : nat) (value : pyvalue) (handler : Handler.t)
  (node : Node.t) : M State pyvalue :=
  fun s =>
    match call handler value self node s with
    | (Ok new_value, s') => (Ok new_value, s')
    | (Raise e, s') =>
        if isinstance_Exception e
        then (on_error self (Some node) None e;; ret value) s'
        else (Raise e, s')
    end.

(** The loop of [call_handlers], from the accumulator [value]. *)
Fixpoint call_handlers_from (self : nat) (node : Node.t) (value : pyvalue)
  (handlers : list Handler.t) : M State unit :=
  match handlers with
  | [] => ret tt
  | handler :: rest =>
      value <- call_handler self value handler node;;
      call_handlers_from self node value rest
  end.

Definition call_handlers (self : nat) (node : Node.t)
  (handlers : list Handler.t) : M State unit :=
  call_handlers_from self node VNone handlers.

(** [Handler( **case)] *)
Definition Handler_of (case : Case.t) : res Handler.t :=
  match Case.function case with
  | Some f =>
      Ok (Handler.mk f (Case.responder_cls case) (Case.status case)
            (Case.pass_protocol case))
  | None => Raise (TypeError (Msg "missing required argument: function"))
  end.

(** The loop of [handle] over the dicts [cases] of one condition.  The
    dicts are the stored ones: the loop returns them as it leaves them,
    next to the heap, or to the exception. *)
Fixpoint handle_cases (self_children : list (string * nat))
  (cases : list Case.t) (handlers : list Handler.t)
  : res (list Handler.t) * list Case.t :=
  match cases with
  | [] => (Ok handlers, [])
  | case :: rest =>
      match Case.function case with
      | None => (Raise (KeyError (Msg "function")), case :: rest)
      | Some function =>
          let case := Case.set_function None case in
          let resolved :=
            match function with
            | ProtocolType child_cls =>
                match dict_get String.eqb self_children child_cls with
                | Some child =>
                    Ok (BoundHandle child, Case.set_pass_protocol false case)
                | None => Raise (KeyError (Msg child_cls))
                end
            | _ => Ok (function, case)
            end in
          match resolved with
          | Raise e => (Raise e, case :: rest)
          | Ok (function, case) =>
              let case := Case.set_function (Some function) case in
              match Handler_of case with
              | Raise e => (Raise e, case :: rest)
              | Ok handler =>
                  let '(r, rest') :=
                    handle_cases self_children rest
                      (heapq.heappush Handler.lt handlers handler) in
                  (r, case :: rest')
              end
          end
      end
  end.

(** The loop of [handle] over [conditional_cases.items()]. *)
Fixpoint handle_groups (self : t) (node : Node.t)
  (groups : list (option If * list Case.t)) (handlers : list Handler.t)
  : res (list Handler.t) * list (option If * list Case.t) :=
  match groups with
  | [] => (Ok handlers, [])
  | (condition, cases) :: rest =>
      let check := If_check condition (_config self) (Some node) in
      if check then
        match handle_cases (children self) cases handlers with
        | (Raise e, cases') => (Raise e, (condition, cases') :: rest)
        | (Ok handlers, cases') =>
            let '(r, rest') := handle_groups self node rest handlers in
            (r, (condition, cases') :: rest')
        end
      else
        let '(r, rest') := handle_groups self node rest handlers in
        (r, (condition, cases) :: rest')
  end.

(** One of the two dicts [self._handlers.get(key, {})] of [handle]. *)
Definition handle_key (self : nat) (node : Node.t) (key : pyobj)
  (handlers : list Handler.t) : M State (list Handler.t) :=
  p <- get_object self;;
  cls <- get_class (type_ p);;
  match dict_get pyobj_eqb (_handlers cls) key with
  | None => ret handlers
  | Some groups =>
      let '(r, groups') := handle_groups p node groups handlers in
      modify_class (type_ p) (fun c =>
        set__handlers (dict_set pyobj_eqb (_handlers c) key groups') c);;
      lift r
  end.

Definition handle (self : nat) (node : Node.t) : M State unit :=
  p <- get_object self;;
  match _aborted p with
  | None => raise (AttributeError (Msg "_aborted"))
  | Some true => ret tt
  | Some false =>
      s <- get;;
      if negb (in_registry s self (Node.type_ node))
      then on_unknown_case self node
      else
        handlers <- handle_key self node (PyClass (Node.type_ node)) [];;
        handlers <- handle_key self node ALL_NODES handlers;;
        call_handlers self node handlers
  end.

(** The body of the loop of [handle] over [cases], for one dict: the
    handler it builds and the dict as it leaves it. *)
Definition handle_case (self_children : list (string * nat)) (case : Case.t)
  : res Handler.t * Case.t :=
  match Case.function case with
  | None => (Raise (KeyError (Msg "function")), case)
  | Some function =>
      let case := Case.set_function None case in
      let resolved :=
        match function with
        | ProtocolType child_cls =>
            match dict_get String.eqb self_children child_cls with
            | Some child =>
                Ok (BoundHandle child, Case.set_pass_protocol false case)
            | None => Raise (KeyError (Msg child_cls))
            end
        | _ => Ok (function, case)
        end in
      match resolved with
      | Raise e => (Raise e, case)
      | Ok (function, case) =>
          let case := Case.set_function (Some function) case in
          (Handler_of case, case)
      end
  end.

(** The handlers the loop body builds from a list of dicts. *)
Definition handlers_of (self_children : list (string * nat))
  (cases : list Case.t) : list Handler.t :=
  omap (fun case => match fst (handle_case self_children case) with
                    | Ok handler => Some handler
                    | Raise _ => None
                    end) cases.

(** The dicts of the groups whose condition holds for [node]. *)
Definition passing_cases (self : t) (node : Node.t)
  (groups : list (option If * list Case.t)) : list Case.t :=
  concat (map snd
            (List.filter
               (fun group => If_check (fst group) (_config self) (Some node))
               groups)).

(** A heap list whose first handler has the highest status of all. *)
Definition top_first (heap : list Handler.t) : Prop :=
  ∀ top x, heap !! 0%nat = Some top -> x ∈ heap ->
           (Status_value (Handler.status x)
            <= Status_value (Handler.status top))%Z.

(** [cls._handlers.get(node_cls, {}).get(condition, [])] *)
Definition stored_cases (c : ProtocolClass) (node_cls : pyobj)
  (condition : option If) : list Case.t :=
  default []
    (dict_get condition_eqb
       (default [] (dict_get pyobj_eqb (_handlers c) node_cls)) condition).

(** [register_bidirectional_handler], with a peer type given: the two
    calls of [register_handler], the second with the types swapped. *)
Definition register_bidirectional_handler (cls : string)
  (function : callable) (node_cls responder_cls : pyobj) (status : Status)
  (condition : option If) (pass_protocol : bool) : M State unit :=
  register_handler cls function node_cls (Some responder_cls) status
    condition pass_protocol;;
  register_handler cls function responder_cls (Some node_cls) status
    condition pass_protocol.

(** [submit]: handed to the parent; [fuel] bounds the chain of parents. *)
Fixpoint submit (fuel : nat) (self : nat) (node : Node.t) : M State unit :=
  match fuel with
  | O => raise RecursionError
  | S fuel' =>
      p <- get_object self;;
      match protocol p with
      | None => raise (NotImplementedError (Msg ""))
      | Some parent => submit fuel' parent node
      end
  end.

Fixpoint submit_all (fuel : nat) (self : nat) (nodes : list Node.t)
  : M State unit :=
  match nodes with
  | [] => ret tt
  | node :: rest => submit fuel self node;; submit_all fuel self rest
  end.

(** *** Class creation *)

(** The loop of [__init_subclass__] over [function.__handles__]. *)
Fixpoint register_relations (cls : string) (function : decorated)
  (relations : list Relation.t) : M State unit :=
  match relations with
  | [] => ret tt
  | relation_kwargs :: rest =>
      register_handler cls (Function (def_ function))
        (Relation.node_cls relation_kwargs)
        (Relation.responder_cls relation_kwargs)
        (Relation.status relation_kwargs)
        (Relation.condition relation_kwargs)
        (Relation.pass_protocol relation_kwargs);;
      register_relations cls function rest
  end.

Fixpoint register_members (cls : string) (members : list decorated)
  : M State unit :=
  match members with
  | [] => ret tt
  | function :: rest =>
      register_relations cls function (__handles__ function);;
      register_members cls rest
  end.

(** [__init_subclass__(cls, extends)]: [extends] counts when it names a
    [Protocol] subclass; [members] are the functions among
    [inspect.getmembers(cls)], in that order. *)
Definition __init_subclass__ (cls : string) (extends : option string)
  (members : list decorated) : M State unit :=
  modify (fun s =>
    set_classes
      (<[cls := {| _registry := []; _handlers := []; _children := [] |}]>
         (classes s)) s);;
  s <- get;;
  (match extends with
   | Some e =>
       match classes s !! e with
       | Some ec =>
           modify_class cls (fun c =>
             set__registry
               (fold_left (fun d item => dict_set pyobj_eqb d (fst item)
                                           (snd item))
                  (_registry ec) (_registry c)) c);;
           modify_class e (fun c => set__children (_children c ++ [cls]) c)
       | None => ret tt
       end
   | None => ret tt
   end);;
  register_members cls members.

End Dispatcher.

End Protocol.

(** ** [snss.protocol]: the classes of the session-file reader *)

Module Sessions.

(** A class that is not a [Node] subclass. *)
Definition object_ : NodeClass :=
  {| is_Node := false; is_Tree := false; case_key := None; data_key := None;
     default_node := None; has_switch := false; nodes := [];
     switch_spec := None; registry := 0 |}.

(** [class Command(Tree)]: the attributes a [Tree] subclass starts with,
    and its own [WeakSet]. *)
Definition Command (registry : nat) : NodeClass :=
  {| is_Node := true; is_Tree := true; case_key := None; data_key := None;
     default_node := None; has_switch := true; nodes := [];
     switch_spec := None; registry := registry |}.

Definition TabCommands : NodeClass :=
  {| is_Node := true; is_Tree := true; case_key := None; data_key := None;
     default_node := Some (PyClass "Command"); has_switch := true;
     nodes := []; switch_spec := None; registry := 2 |}.

Definition SessionCommands : NodeClass :=
  {| is_Node := true; is_Tree := true; case_key := Some "type";
     data_key := Some "buffer"; default_node := Some (PyClass "Command");
     has_switch := true; nodes := []; switch_spec := None; registry := 3 |}.

(** The class statements, before the [case] decorators run. *)
Definition declared : class_table :=
  <["Command" := Command 1]>
  (<["TabCommands" := TabCommands]>
  (<["SessionCommands" := SessionCommands]>
  (<["UpdateTabNavigation" := Command 4]>
  (<["IDAndIndex" := Command 5]>
  (<["SetWindowBounds3" := Command 6]>
  (<["TabOrWindowClosed" := Command 7]>
  (<["TabClosed" := Command 8]>
  (<["WindowClosed" := Command 9]>
  (<["SessionStorageAssociated" := Command 10]>
  (<["SetActiveWindow" := Command 11]>
  (<["LastActiveTime" := Command 12]>
  (<["SetWindowWorkspace" := Command 13]>
  (fun _ => object_))))))))))))).

(** The decorators, in the order they are applied (the stacked ones on
    [IDAndIndex] from the bottom up). *)
Definition decorators : M class_table pyobj :=
  Tree.case "SessionCommands" (VInt 6) "UpdateTabNavigation";;
  Tree.case "SessionCommands" (VInt 12) "IDAndIndex";;
  Tree.case "SessionCommands" (VInt 9) "IDAndIndex";;
  Tree.case "SessionCommands" (VInt 8) "IDAndIndex";;
  Tree.case "SessionCommands" (VInt 7) "IDAndIndex";;
  Tree.case "SessionCommands" (VInt 5) "IDAndIndex";;
  Tree.case "SessionCommands" (VInt 2) "IDAndIndex";;
  Tree.case "SessionCommands" (VInt 0) "IDAndIndex";;
  Tree.case "SessionCommands" (VInt 14) "SetWindowBounds3";;
  Tree.case "SessionCommands" (VInt 16) "TabClosed";;
  Tree.case "SessionCommands" (VInt 17) "WindowClosed";;
  Tree.case "SessionCommands" (VInt 19) "SessionStorageAssociated";;
  Tree.case "SessionCommands" (VInt 20) "SetActiveWindow";;
  Tree.case "SessionCommands" (VInt 21) "LastActiveTime";;
  Tree.case "SessionCommands" (VInt 23) "SetWindowWorkspace".

Definition classes : class_table := snd (decorators declared).

(** A [SessionCommands] header whose [type] is not a registered tag. *)
Definition unknown_header : Node.t :=
  Node.__init__ "SessionCommands"
    {[ Some "size" := VInt 4; Some "type" := VInt 99;
       Some "buffer" := VBytes [] ]}.

(** [Command.update]: [super().update()], then
    [self.discard_keys('_io')]. *)
Definition Command_update : M Node.t unit :=
  Node.update;;
  Node.discard_keys [Some "_io"].

(** [class Sessions(Protocol)]: the method decorated with
    [@handles(ALL_NODES)]. *)
Definition on_command : decorated :=
  handles ALL_NODES None None NORMAL true
    {| def_ := {| __name__ := "on_command"; __responder__ := None;
                  __reducer__ := None |};
       __handles__ := [] |}.

(** The state of the handlers: [self.commands] of each instance.
    [on_command(self, command)] is [self.commands.append(command)]; it
    is the only function of the program that is registered. *)
Definition invoke (f : callable) (a : list arg)
  : M (gmap nat (list Node.t)) pyvalue :=
  fun w =>
    match f, a with
    | Function pf, [ArgProtocol self; ArgNode command] =>
        if String.eqb (__name__ pf) "on_command" then
          match w !! self with
          | Some commands => (Ok VNone, <[self := commands ++ [command]]> w)
          | None => (Raise (AttributeError (Msg "commands")), w)
          end
        else (Raise (TypeError (Msg "not a handler of the program")), w)
    | _, _ => (Raise (TypeError (Msg "not a handler of the program")), w)
    end.

(** The class statement and [Sessions.register(SessionCommands)]. *)
Definition program : M (@Protocol.State (gmap nat (list Node.t))) pyobj :=
  Protocol.__init_subclass__ "Sessions" None [on_command];;
  Protocol.register classes "Sessions" (PyClass "SessionCommands") None.

(** [Sessions.__init__]: [super().__init__()], then
    [self.commands = []]. *)
Definition __init__ (fuel : nat)
  : M (@Protocol.State (gmap nat (list Node.t))) nat :=
  self <- Protocol.__init__ classes fuel "Sessions" None ∅;;
  modify (fun s =>
    Protocol.set_world (<[self := []]> (Protocol.world s)) s);;
  ret self.

(** The interpreter after the module has run and [Sessions()] has been
    built. *)
Definition loaded : @Protocol.State (gmap nat (list Node.t)) :=
  snd ((program;; __init__ 1)
         (Protocol.mkState ∅ ∅ ∅ [] ∅ [])).

End Sessions.

(** ** Small programs against the library *)

Module Scenario.

(** The handler functions append their name to a log; [faulty] raises
    after doing so.  A function returns its own name. *)
Definition invoke (f : callable) (a : list arg) : M (list string) pyvalue :=
  fun w =>
    match f with
    | Function pf =>
        if String.eqb (__name__ pf) "faulty"
        then (Raise (OtherException "RuntimeError"), w ++ ["faulty"])
        else (Ok (VStr (__name__ pf)), w ++ [__name__ pf])
    | ProtocolType cls => (Ok VNone, w ++ [cls])
    | BoundHandle p => (Ok VNone, w ++ ["handle"])
    end.

Definition def (name : string) : pyfunction :=
  {| __name__ := name; __responder__ := None; __reducer__ := None |}.

(** [Cmd] is a plain record type; [A], [B] and [C] are trees, with
    [A.case(1)(B)] and [B.case(2)(C)]. *)
Definition node_classes : class_table :=
  snd ((Tree.case "A" (VInt 1) "B";; Tree.case "B" (VInt 2) "C")
         (<["Cmd" := Sessions.Command 1]>
         (<["A" := Sessions.Command 2]>
         (<["B" := Sessions.Command 3]>
         (<["C" := Sessions.Command 4]>
         (fun _ => Sessions.object_)))))).

Definition Cmd : Node.t := Node.__init__ "Cmd" ∅.

(** [class P(Protocol)] and [class Child(Protocol, extends=P)], before
    anything is registered. *)
Definition start : @Protocol.State (list string) :=
  Protocol.mkState
    {[ "P" := {| _registry := []; _handlers := []; _children := ["Child"] |};
       "Child" := {| _registry := []; _handlers := []; _children := [] |} ]}
    ∅ ∅ [] [] [].

(** Three handlers for [Cmd], registered from the lowest priority up,
    then one dispatch. *)
Definition priorities : M (@Protocol.State (list string)) unit :=
  Protocol.register node_classes "P" (PyClass "Cmd") None;;
  Protocol.register_handler "P" (Function (def "daemon")) (PyClass "Cmd")
    None DAEMON None true;;
  Protocol.register_handler "P" (Function (def "normal")) (PyClass "Cmd")
    None NORMAL None true;;
  Protocol.register_handler "P" (Function (def "urgent")) (PyClass "Cmd")
    None URGENT None true;;
  p <- Protocol.__init__ node_classes 2 "P" None ∅;;
  Protocol.handle invoke node_classes p Cmd.

(** A condition that never holds. *)
Definition never : If :=
  {| If_id := 1; _check := fun _ _ => false; checks_node := false |}.

(** An instance is built, the wildcard is then put in the registry
    ([P._registry[ALL_NODES] = never]), and [configure] is called. *)
Definition wildcard : M (@Protocol.State (list string)) nat :=
  p <- Protocol.__init__ node_classes 2 "P" None ∅;;
  Protocol.modify_class "P" (set__registry [(ALL_NODES, Some never)]);;
  Protocol.configure node_classes 2 p ∅;;
  ret p.

(** A handler whose function is the child-dispatcher type. *)
Definition delegation : M (@Protocol.State (list string)) nat :=
  Protocol.register node_classes "P" (PyClass "Cmd") None;;
  Protocol.register_handler "P" (ProtocolType "Child") (PyClass "Cmd")
    None NORMAL None true;;
  Protocol.__init__ node_classes 2 "P" None ∅.

(** A chain in which the second handler raises. *)
Definition chain : list Handler.t :=
  [Handler.mk (Function (is_reducer (def "first"))) None NORMAL true;
   Handler.mk (Function (def "faulty")) None NORMAL true;
   Handler.mk (Function (is_reducer (def "last"))) None NORMAL true].

(** A record with a cached encoding, and a codec whose encoding is the
    number of fields. *)
Definition cached : Node.t :=
  Node.mk "Cmd" {[ Some "a" := VInt 1 ]} (VInt 1) (VBytes []).

Definition count_dump (self : Node.t) (context : pyvalue) : res pyvalue :=
  Ok (VInt (Z.of_nat (size (Node._data self)))).

Definition raw_read (self : Node.t) (buf context : pyvalue)
  : res (option (gmap (option string) pyvalue)) :=
  Ok (Some {[ Some "raw" := buf ]}).

(** An envelope type and a leaf that names, as its [case_key], the field
    of the envelope that holds it; [Envelope.case(7)(Leaf)]. *)
Definition Envelope : NodeClass :=
  {| is_Node := true; is_Tree := true; case_key := Some "type";
     data_key := Some "payload"; default_node := None; has_switch := true;
     nodes := []; switch_spec := None; registry := 5 |}.

Definition Leaf : NodeClass :=
  {| is_Node := true; is_Tree := true; case_key := Some "payload";
     data_key := None; default_node := None; has_switch := true;
     nodes := []; switch_spec := None; registry := 6 |}.

Definition enveloped : class_table :=
  snd (Tree.case "Envelope" (VInt 7) "Leaf"
         (<["Envelope" := Envelope]>
         (<["Leaf" := Leaf]>
         (fun _ => Sessions.object_)))).

(** A dispatcher [P] built on [start], after [P.register(Cmd)]. *)
Definition running : @Protocol.State (list string) :=
  snd ((Protocol.register node_classes "P" (PyClass "Cmd") None;;
        Protocol.__init__ node_classes 2 "P" None ∅) start).

(** [P.register(Cmd, condition=If.configured(mode='on'))], a handler for
    [Cmd] and one for every type, then [P(mode='on')]. *)
Definition when_on : If := If_configured 2 [("mode", Literal (VStr "on"))].

Definition guarded : @Protocol.State (list string) :=
  snd ((Protocol.register node_classes "P" (PyClass "Cmd") (Some when_on);;
        Protocol.register_handler "P" (Function (def "normal")) (PyClass "Cmd")
          None NORMAL None true;;
        Protocol.register_handler "P" (Function (def "urgent")) ALL_NODES
          None URGENT None true;;
        Protocol.__init__ node_classes 2 "P" None {[ "mode" := VStr "on" ]})
         start).

(** Handler functions of which [interrupted] raises
    [KeyboardInterrupt]; the others are as in [invoke]. *)
Definition invoke_interrupted (f : callable) (a : list arg)
  : M (list string) pyvalue :=
  fun w =>
    match f with
    | Function pf =>
        if String.eqb (__name__ pf) "interrupted"
        then (Raise KeyboardInterrupt, w ++ ["interrupted"])
        else invoke f a w
    | _ => invoke f a w
    end.

(** On [running], a handler for [Cmd] whose function is a dispatcher
    type that is no child of [P]. *)
Definition stranger : @Protocol.State (list string) :=
  snd (Protocol.register_handler "P" (ProtocolType "Stranger") (PyClass "Cmd")
         None NORMAL None true running).

End Scenario.

(** * Properties *)

(** Unfolding the monad. *)
Ltac run :=
  unfold bind, ret, raise, get, put, modify, lift in *; simpl in *.

(** ** Records: the cache and the origin *)

Lemma fold_delete_lookup (keys : list (option string))
  (d : gmap (option string) pyvalue) (k : option string) :
  fold_left (fun d k => delete k d) keys d !! k
  = if bool_decide (k ∈ keys) then None else d !! k.
Proof.
  revert d. induction keys as [|k0 keys IH]; intros d; cbn.
  - reflexivity.
  - rewrite IH. destruct (decide (k = k0)) as [->|Hne].
    + rewrite lookup_delete_eq.
      rewrite (bool_decide_eq_true_2 (k0 ∈ k0 :: keys))
        by (apply elem_of_cons; left; reflexivity).
      destruct (bool_decide (k0 ∈ keys)); reflexivity.
    + rewrite lookup_delete_ne by congruence.
      destruct (decide (k ∈ keys)) as [Hin|Hnin].
      * rewrite !bool_decide_eq_true_2; [reflexivity| |exact Hin].
        apply elem_of_cons; right; exact Hin.
      * rewrite !bool_decide_eq_false_2; [reflexivity| |exact Hnin].
        intros Hin. apply elem_of_cons in Hin as [?|?]; congruence.
Qed.

Section NodeFacts.

Variable _dump : Node.t -> pyvalue -> res pyvalue.
Variable _read :
  Node.t -> pyvalue -> pyvalue -> res (option (gmap (option string) pyvalue)).

(** The [update] of the record's class: [Node.update], then
    [discard_keys] on the keys that the class drops (none for
    [Node.update] itself, ['_io'] for [Command.update]). *)
Variable keys : list (option string).
Variable self_update : M Node.t unit.
Hypothesis self_update_eq :
  ∀ self, self_update self = (Node.update;; Node.discard_keys keys) self.

Lemma feed_eq (changes : gmap (option string) pyvalue) (self : Node.t) :
  Node.feed self_update changes self
  = (Ok tt,
     Node.mk (Node.type_ self)
       (fold_left (fun d k => delete k d) keys (changes ∪ Node._data self))
       VNone VNone).
Proof. unfold Node.feed, bind, modify. rewrite self_update_eq. reflexivity. Qed.

Lemma read_eq (buf context : pyvalue) (self : Node.t) :
  Node.read _read self_update buf context self
  = match _read self buf context with
    | Ok (Some d) =>
        (Ok tt,
         Node.mk (Node.type_ self)
           (fold_left (fun d k => delete k d) keys (d ∪ Node._data self))
           VNone buf)
    | Ok None => (Ok tt, self)
    | Raise e => (Raise e, self)
    end.
Proof.
  unfold Node.read. unfold bind at 1, get at 1. cbv beta iota.
  unfold bind at 1, lift at 1. cbv beta iota.
  destruct (_read self buf context) as [[d|]|e]; [|reflexivity..].
  unfold bind. rewrite feed_eq. reflexivity.
Qed.

(** After any method that [Node] defines, with [read] as [Node]
    defines it, the origin is what it was, or it is cleared and the
    cache with it, or a decode has succeeded and the origin is the
    buffer decoded. *)
Lemma origin_set_only_by_decode (m : Node.method) (self : Node.t) :
  let self' :=
    snd (Node.call _dump _read self_update (Node.read _read self_update) m
           self) in
  Node.origin self' = Node.origin self
  ∨ (Node.origin self' = VNone ∧ Node.buffer self' = VNone)
  ∨ (∃ buf context d,
       (m = Node.Read buf context
        ∨ (m = Node.Refresh context ∧ buf = Node.origin self))
       ∧ _read self buf context = Ok (Some d)
       ∧ self'
         = Node.mk (Node.type_ self)
             (fold_left (fun d k => delete k d) keys (d ∪ Node._data self))
             VNone buf).
Proof.
  destruct m as [|changes|keys'|context|buf context|context]; cbn [Node.call].
  - right; left. rewrite self_update_eq. split; reflexivity.
  - right; left. rewrite feed_eq. split; reflexivity.
  - left. reflexivity.
  - left. unfold Node.dump. run.
    destruct (is_None (Node.buffer self)); [|reflexivity].
    destruct (_dump self context); reflexivity.
  - rewrite read_eq.
    destruct (_read self buf context) as [[d|]|e] eqn:E;
      [|left; reflexivity|left; reflexivity].
    right; right. exists buf, context, d. auto.
  - unfold Node.refresh. unfold bind, get.
    destruct (truthy (Node.origin self)); [|left; reflexivity].
    rewrite read_eq.
    destruct (_read self (Node.origin self) context) as [[d|]|e] eqn:E;
      [|left; reflexivity|left; reflexivity].
    right; right. exists (Node.origin self), context, d. auto.
Qed.

(** [dump], as [Node] and as [Tree] define it, writes the cache only. *)
Lemma dump_writes_cache_only (context : pyvalue) (self : Node.t) :
  let self' := snd (Node.dump _dump context self) in
  Node.origin self' = Node.origin self
  ∧ Node._data self' = Node._data self.
Proof.
  unfold Node.dump. run.
  destruct (is_None (Node.buffer self)); [|split; reflexivity].
  destruct (_dump self context); split; reflexivity.
Qed.

Lemma Tree_dump_writes_cache_only (classes : class_table) (fuel : nat)
  (context : pyvalue) (standalone : bool) (self : Node.t) :
  let self' := snd (Tree.dump classes _dump fuel context standalone self) in
  Node.origin self' = Node.origin self
  ∧ Node._data self' = Node._data self.
Proof.
  destruct fuel as [|fuel]; [split; reflexivity|].
  pose proof (dump_writes_cache_only context self) as H. cbv zeta in *.
  assert (Hstate :
    snd (Tree.dump classes _dump (S fuel) context standalone self)
    = snd (Node.dump _dump context self)
    ∨ ∃ b, snd (Tree.dump classes _dump (S fuel) context standalone self)
           = Node.set_buffer b (snd (Node.dump _dump context self))).
  { cbn [Tree.dump]. unfold bind, get, modify, lift, ret.
    destruct (Node.dump _dump context self) as [[b|e] self1];
      [|left; reflexivity].
    right. exists b.
    destruct (if negb standalone
                 && bool_decide
                      (is_Some (switch_spec (classes (Node.type_ self))))
                 && has_switch (classes (Node.type_ self))
              then switch_spec (classes (Node.type_ self)) else None)
      as [[tree_cls switch_key]|]; [|reflexivity].
    destruct (Node.from_dict tree_cls _); reflexivity. }
  destruct Hstate as [->|[b ->]]; exact H.
Qed.

(** C6, as amended: [feed] merges the changes into the fields and runs
    the [update] of the record's class, which clears the cache and the
    origin and then drops the keys the class discards (['_io'] for a
    [Command]); the next [dump] returns what [_dump] computes from the
    new fields.  Each method that [Node] defines leaves the origin as
    it was, or clears it together with the cache, or is a successful
    decode that sets it to the bytes decoded; [discard_keys] and
    [Tree.set_switch] change fields and leave cache and origin as they
    are, and [Tree.dump] leaves fields and origin as they are. *)
Theorem feed_clears_cache_and_origin
  (self : Node.t) (changes : gmap (option string) pyvalue)
  (context : pyvalue) :
  let self' := snd (Node.feed self_update changes self) in
  fst (Node.feed self_update changes self) = Ok tt
  ∧ (∀ k, Node._data self' !! k
          = if bool_decide (k ∈ keys) then None
            else (changes ∪ Node._data self) !! k)
  ∧ Node.buffer self' = VNone
  ∧ Node.origin self' = VNone
  ∧ Node.dump _dump context self'
    = match _dump self' context with
      | Ok b => (Ok b, Node.set_buffer b self')
      | Raise e => (Raise e, self')
      end
  ∧ (∀ (m : Node.method) (other : Node.t),
       let other' :=
         snd (Node.call _dump _read self_update
                (Node.read _read self_update) m other) in
       Node.origin other' = Node.origin other
       ∨ (Node.origin other' = VNone ∧ Node.buffer other' = VNone)
       ∨ (∃ buf context d,
            (m = Node.Read buf context
             ∨ (m = Node.Refresh context ∧ buf = Node.origin other))
            ∧ _read other buf context = Ok (Some d)
            ∧ Node.origin other' = buf
            ∧ Node.buffer other' = VNone
            ∧ ∀ k, Node._data other' !! k
                   = if bool_decide (k ∈ keys) then None
                     else (d ∪ Node._data other) !! k))
  ∧ (∀ (discarded : list (option string)) (other : Node.t),
       let other' := snd (Node.discard_keys discarded other) in
       Node.buffer other' = Node.buffer other
       ∧ Node.origin other' = Node.origin other
       ∧ ∀ k, Node._data other' !! k
              = if bool_decide (k ∈ discarded) then None
                else Node._data other !! k)
  ∧ (∀ (classes : class_table) (key context' : pyvalue) (other : Node.t),
       let other' := snd (Tree.set_switch classes key context' other) in
       Node.buffer other' = Node.buffer other
       ∧ Node.origin other' = Node.origin other
       ∧ Node._data other'
         = <[case_key (classes (Node.type_ other)) := key]>
             (Node._data other))
  ∧ (∀ (classes : class_table) (fuel : nat) (context' : pyvalue)
       (standalone : bool) (other : Node.t),
       let other' :=
         snd (Tree.dump classes _dump fuel context' standalone other) in
       Node.origin other' = Node.origin other
       ∧ Node._data other' = Node._data other).
Proof.
  rewrite feed_eq. cbn [fst snd Node._data Node.buffer Node.origin].
  split; [reflexivity|]. split; [intros k; apply fold_delete_lookup|].
  split; [reflexivity|]. split; [reflexivity|].
  split; [|split; [|split; [|split; [|exact Tree_dump_writes_cache_only]]]].
  - unfold Node.dump. run.
    destruct (_dump _ context); reflexivity.
  - intros m other.
    destruct (origin_set_only_by_decode m other)
      as [H|[H|(buf & context' & d & Hm & Hd & H)]];
      [left; exact H|right; left; exact H|].
    right; right. exists buf, context', d. rewrite H.
    cbn [Node.origin Node.buffer Node._data].
    repeat split; try assumption. intros k. apply fold_delete_lookup.
  - intros discarded other. cbn. repeat split.
    intros k. apply fold_delete_lookup.
  - intros classes key context' other. cbn. repeat split.
Qed.

End NodeFacts.

Lemma feed_clears_cache_and_origin_witness :
  let self' :=
    snd (Node.feed Sessions.Command_update
           {[ Some "_io" := VInt 0; Some "b" := VInt 2 ]} Scenario.cached) in
  Node._data self' !! Some "_io" = None
  ∧ Node._data self' !! Some "b" = Some (VInt 2)
  ∧ Node._data self' !! Some "a" = Some (VInt 1)
  ∧ Node.buffer self' = VNone
  ∧ Node.origin self' = VNone.
Proof.
  destruct
    (feed_clears_cache_and_origin Scenario.count_dump Scenario.raw_read
       [Some "_io"] Sessions.Command_update (fun self => eq_refl)
       Scenario.cached {[ Some "_io" := VInt 0; Some "b" := VInt 2 ]} VNone)
    as (_ & Hdata & Hbuffer & Horigin & _).
  split; [rewrite Hdata; vm_compute; reflexivity|].
  split; [rewrite Hdata; vm_compute; reflexivity|].
  split; [rewrite Hdata; vm_compute; reflexivity|].
  split; [exact Hbuffer|exact Horigin].
Defined.

(** C6, as stated, fails: [discard_keys] changes the fields of a record
    and leaves its cache and its origin, and the next [dump] returns
    the encoding of the fields as they were. *)
Lemma discard_keys_leaves_stale_cache :
  (let self' := snd (Node.discard_keys [Some "a"] Scenario.cached) in
   Node._data self' ≠ Node._data Scenario.cached
   ∧ Node.buffer self' = VInt 1
   ∧ Node.origin self' = VBytes []
   ∧ fst (Node.dump Scenario.count_dump VNone self') = Ok (VInt 1)
   ∧ Scenario.count_dump self' VNone = Ok (VInt 0))
  ∧ ¬ (∀ (m : Node.method) (self : Node.t),
         let self' :=
           snd (Node.call Scenario.count_dump Scenario.raw_read
                  Sessions.Command_update
                  (Node.read Scenario.raw_read Sessions.Command_update)
                  m self) in
         Node._data self' ≠ Node._data self ->
         Node.buffer self' = VNone).
Proof.
  assert (H : Node._data (snd (Node.discard_keys [Some "a"] Scenario.cached))
              ≠ Node._data Scenario.cached).
  { intros E.
    apply (f_equal (fun d => d !! Some "a")) in E. vm_compute in E.
    discriminate E. }
  split.
  - repeat split; try reflexivity. exact H.
  - intros claim.
    specialize (claim (Node.DiscardKeys [Some "a"]) Scenario.cached H).
    vm_compute in claim. discriminate claim.
Qed.

(** ** Handlers: the arguments of a call *)

Lemma elem_of_args (h : Handler.t) (previous_value : pyvalue) (p : nat)
  (node : Node.t) (a : arg) :
  a ∈ Handler.args h previous_value p node
  ↔ (a = ArgProtocol p ∧ Handler.pass_protocol h = true)
    ∨ a = ArgNode node
    ∨ (a = ArgResponder (Handler.responder_cls h)
       ∧ Handler.is_responder h = true)
    ∨ (a = ArgValue previous_value
       ∧ truthy (Handler.is_reducer h) = true).
Proof.
  unfold Handler.args.
  rewrite !elem_of_app, list_elem_of_singleton.
  destruct (Handler.pass_protocol h), (Handler.is_responder h),
    (truthy (Handler.is_reducer h));
    rewrite ?list_elem_of_singleton, ?elem_of_nil;
    intuition (discriminate || congruence).
Qed.

(** C7, as amended: the arguments are, in this order, the dispatcher
    iff [pass_protocol], the record, the peer type iff [is_responder],
    the accumulator iff [is_reducer]; [is_reducer] is read off the
    function alone, and [is_responder] holds for a function tagged as a
    responder, and for an untagged one iff a peer type was given. *)
Theorem handler_call_arguments (h : Handler.t) (previous_value : pyvalue)
  (p : nat) (node : Node.t) :
  let a := Handler.args h previous_value p node in
  (ArgProtocol p ∈ a ↔ Handler.pass_protocol h = true)
  ∧ ArgNode node ∈ a
  ∧ (ArgResponder (Handler.responder_cls h) ∈ a
     ↔ Handler.is_responder h = true)
  ∧ (ArgValue previous_value ∈ a ↔ truthy (Handler.is_reducer h) = true)
  ∧ a `sublist_of` [ArgProtocol p; ArgNode node;
                    ArgResponder (Handler.responder_cls h);
                    ArgValue previous_value]
  ∧ (∀ f r s pp r' s' pp',
       Handler.is_reducer (Handler.mk f r s pp)
       = Handler.is_reducer (Handler.mk f r' s' pp'))
  ∧ (∀ f r s pp,
       Handler.is_reducer (Handler.mk (Function (is_reducer f)) r s pp)
       = VBool true)
  ∧ (∀ f r s pp,
       Handler.is_responder (Handler.mk (Function (is_responder f)) r s pp)
       = true)
  ∧ (∀ name reducer r s pp,
       Handler.is_responder
         (Handler.mk
            (Function {| __name__ := name; __responder__ := None;
                         __reducer__ := reducer |}) r s pp)
       = bool_decide (is_Some r)).
Proof.
  cbv zeta. rewrite !elem_of_args.
  repeat split; try (intuition (discriminate || congruence)).
  unfold Handler.args.
  destruct (Handler.pass_protocol h), (Handler.is_responder h),
    (truthy (Handler.is_reducer h)); cbn [app];
    repeat first [ apply sublist_nil | apply sublist_skip
                 | apply sublist_cons ].
Qed.

(** C7, as stated, fails: for one and the same untagged function,
    [is_responder] follows the peer type given at registration, and so
    does the argument list. *)
Lemma is_responder_follows_peer_type :
  ¬ (∀ (f : callable) (r r' : option pyobj) (s : Status) (pp : bool),
       Handler.is_responder (Handler.mk f r s pp)
       = Handler.is_responder (Handler.mk f r' s pp)).
Proof.
  intros claim.
  specialize (claim (Function (Scenario.def "f")) (Some (PyClass "Cmd")) None
                NORMAL true).
  vm_compute in claim. discriminate claim.
Qed.

(** ** Trees: resolving the variant, and wrapping a leaf *)

Section TreeFacts.

Variable classes : class_table.
Variable _dump : Node.t -> pyvalue -> res pyvalue.

(** A tag that is not in the table: without a default the error names
    the tag; with a default, [switch] returns the [node] it looked up,
    which is [None]. *)
Lemma switch_unknown_tag (context : pyvalue) (self : Node.t) (k : string)
  (tag : pyvalue) :
  let c := classes (Node.type_ self) in
  case_key c = Some k ->
  Node._data self !! Some k = Some tag ->
  dict_get py_eqb (nodes c) tag = None ->
  Tree.switch classes context self
  = match default_node c with
    | Some _ => (Ok None, self)
    | None =>
        (Raise (NotImplementedError
                  (MsgSwitch tag (Tree.case_key_or c) context)), self)
    end.
Proof.
  intros c Hk Hd Hn. unfold Tree.switch, Tree.get_switch. run.
  fold c. rewrite Hk, Hd. cbn. fold c. rewrite Hn.
  destruct (default_node c); reflexivity.
Qed.

(** A leaf registered as a case and without a [case_key] of its own:
    [dump] builds the keywords of the parent from the leaf's
    [case_key], and the call of the parent class raises. *)
Lemma dump_registered_without_case_key (fuel : nat) (context : pyvalue)
  (self : Node.t) (parent : string) (tag : pyvalue) :
  let c := classes (Node.type_ self) in
  switch_spec c = Some (parent, tag) ->
  has_switch c = true ->
  case_key c = None ->
  fst (Tree.dump classes _dump fuel context false self)
  = match fuel with
    | O => Raise RecursionError
    | S _ =>
        match fst (Node.dump _dump context self) with
        | Ok _ => Raise (TypeError (Msg "keywords must be strings"))
        | Raise e => Raise e
        end
    end.
Proof.
  intros c Hs Hh Hk. destruct fuel as [|fuel]; [reflexivity|].
  cbn [Tree.dump]. unfold bind at 1. unfold get at 1. cbv beta iota zeta.
  fold c. rewrite Hs, Hh, Hk. cbn [negb andb].
  unfold bind at 1.
  destruct (Node.dump _dump context self) as [[b|e] self']; [|reflexivity].
  reflexivity.
Qed.

End TreeFacts.

(** C2 at a header of the session file with an unregistered type:
    [SessionCommands] has [default_node = Command], and [switch]
    returns [None]. *)
Theorem switch_unknown_tag_with_default_returns_None (context : pyvalue) :
  default_node (Sessions.classes "SessionCommands") = Some (PyClass "Command")
  ∧ dict_get py_eqb (nodes (Sessions.classes "SessionCommands")) (VInt 99)
    = None
  ∧ Tree.switch Sessions.classes context Sessions.unknown_header
    = (Ok None, Sessions.unknown_header).
Proof.
  split; [reflexivity|]. split; [reflexivity|].
  rewrite (switch_unknown_tag Sessions.classes context
             Sessions.unknown_header "type" (VInt 99));
    reflexivity.
Qed.

(** C3 at [UpdateTabNavigation], registered as case 6 of
    [SessionCommands]: whatever the codec and the fields, [dump] with
    [standalone=False] returns no bytes; once the leaf is encoded it
    raises [TypeError]. *)
Theorem dump_leaf_raises (_dump : Node.t -> pyvalue -> res pyvalue)
  (fuel : nat) (context : pyvalue) (data : gmap (option string) pyvalue) :
  let leaf := Node.__init__ "UpdateTabNavigation" data in
  switch_spec (Sessions.classes (Node.type_ leaf))
  = Some ("SessionCommands", VInt 6)
  ∧ (∀ b, fst (Tree.dump Sessions.classes _dump fuel context false leaf)
          ≠ Ok b)
  ∧ fst (Tree.dump Sessions.classes _dump (S fuel) context false leaf)
    = match _dump leaf context with
      | Ok _ => Raise (TypeError (Msg "keywords must be strings"))
      | Raise e => Raise e
      end.
Proof.
  intros leaf.
  assert (E := dump_registered_without_case_key Sessions.classes _dump).
  split; [reflexivity|]. split.
  - intros b. rewrite (E fuel context leaf "SessionCommands" (VInt 6));
      [|reflexivity..].
    destruct fuel; [discriminate|].
    destruct (fst (Node.dump _dump context leaf)); discriminate.
  - rewrite (E (S fuel) context leaf "SessionCommands" (VInt 6));
      [|reflexivity..].
    unfold Node.dump. run. destruct (_dump leaf context); reflexivity.
Qed.

(** ** The handler chain: faults *)

Section ChainFacts.

Context {W : Type}.
Variable invoke : callable -> list arg -> M W pyvalue.

(** What one call does to the state: it is recorded, and the handlers'
    own state moves. *)
Lemma call_eq (handler : Handler.t) (value : pyvalue) (self : nat)
  (node : Node.t) (s : Protocol.State) :
  Protocol.call invoke handler value self node s
  = (fst (Handler.call invoke handler value self node (Protocol.world s)),
     Protocol.set_world
       (snd (Handler.call invoke handler value self node (Protocol.world s)))
       (Protocol.set_calls
          (Protocol.calls s
           ++ [(Handler.function handler,
                Handler.args handler value self node)]) s)).
Proof.
  unfold Protocol.call. run.
  destruct (Handler.call invoke handler value self node (Protocol.world s));
    reflexivity.
Qed.

(** The state after a handler has raised [e] and [on_error] has run. *)
Lemma call_handler_caught (self : nat) (p : Protocol.t) (node : Node.t)
  (value : pyvalue) (handler : Handler.t) (s : Protocol.State) (e : exn)
  (w' : W) :
  Protocol.objects s !! self = Some p ->
  Handler.call invoke handler value self node (Protocol.world s)
  = (Raise e, w') ->
  isinstance_Exception e = true ->
  Protocol.call_handler invoke self value handler node s
  = (Ok value,
     Protocol.set_stderr
       (Protocol.stderr s
        ++ [Written ("FATAL: exception caught during "
                     ++ ("handling " ++ Node.type_ node ++ " node")
                     ++ ".")%string;
            Traceback e])
       (Protocol.set_world w'
          (Protocol.set_calls
             (Protocol.calls s
              ++ [(Handler.function handler,
                   Handler.args handler value self node)]) s))).
Proof.
  intros Hp Hcall He. unfold Protocol.call_handler.
  rewrite call_eq, Hcall. cbn [fst snd]. rewrite He.
  unfold Protocol.on_error, Protocol.get_object. run. rewrite Hp.
  reflexivity.
Qed.

(** A call leaves the objects alone, is recorded, and, when the
    callables raise nothing but [Exception]s, returns. *)
Lemma call_handler_returns (self : nat) (p : Protocol.t) (node : Node.t)
  (value : pyvalue) (handler : Handler.t) (s : Protocol.State) :
  (∀ f a w e, fst (invoke f a w) = Raise e -> isinstance_Exception e = true) ->
  Protocol.objects s !! self = Some p ->
  ∃ value' s',
    Protocol.call_handler invoke self value handler node s = (Ok value', s')
    ∧ Protocol.objects s' = Protocol.objects s
    ∧ Protocol.calls s'
      = Protocol.calls s
        ++ [(Handler.function handler, Handler.args handler value self node)].
Proof.
  intros Hexc Hp.
  destruct (Handler.call invoke handler value self node (Protocol.world s))
    as [[v|e] w'] eqn:Hcall.
  - exists v. eexists. unfold Protocol.call_handler.
    rewrite call_eq, Hcall. cbn [fst snd]. repeat split.
  - assert (He : isinstance_Exception e = true).
    { apply (Hexc (Handler.function handler)
               (Handler.args handler value self node) (Protocol.world s)).
      unfold Handler.call in Hcall. rewrite Hcall. reflexivity. }
    exists value. eexists.
    rewrite (call_handler_caught self p node value handler s e w' Hp Hcall He).
    repeat split.
Qed.

Lemma call_handlers_all_called (self : nat) (p : Protocol.t) (node : Node.t)
  (handlers : list Handler.t) :
  (∀ f a w e, fst (invoke f a w) = Raise e -> isinstance_Exception e = true) ->
  ∀ (value : pyvalue) (s : Protocol.State),
    Protocol.objects s !! self = Some p ->
    ∃ s_end,
      Protocol.call_handlers_from invoke self node value handlers s
      = (Ok tt, s_end)
      ∧ map fst (Protocol.calls s_end)
        = map fst (Protocol.calls s) ++ map Handler.function handlers.
Proof.
  intros Hexc. induction handlers as [|handler rest IH]; intros value s Hp.
  - exists s. split; [reflexivity|]. cbn. rewrite app_nil_r. reflexivity.
  - destruct (call_handler_returns self p node value handler s Hexc Hp)
      as (value' & s' & Hcall & Hobj & Hcalls).
    destruct (IH value' s') as (s_end & Hrun & Hend).
    { rewrite Hobj. exact Hp. }
    exists s_end. split.
    + cbn [Protocol.call_handlers_from]. unfold bind at 1.
      rewrite Hcall. exact Hrun.
    + rewrite Hend, Hcalls, map_app. cbn. rewrite <- app_assoc.
      reflexivity.
Qed.

(** C4: a handler that raises an [Exception] is caught by
    [call_handler], which reports it through [on_error] and returns the
    accumulator it was given; the chain goes on with the remaining
    handlers from that accumulator, the next one is called with it, and
    [call_handlers] returns with every handler called. *)
Theorem handler_fault_is_isolated (self : nat) (p : Protocol.t)
  (node : Node.t) (value : pyvalue) (handler : Handler.t)
  (rest : list Handler.t) (s : Protocol.State) (e : exn) (w' : W) :
  Protocol.objects s !! self = Some p ->
  Handler.call invoke handler value self node (Protocol.world s)
  = (Raise e, w') ->
  isinstance_Exception e = true ->
  let s' :=
    Protocol.set_stderr
      (Protocol.stderr s
       ++ [Written ("FATAL: exception caught during "
                    ++ ("handling " ++ Node.type_ node ++ " node")
                    ++ ".")%string;
           Traceback e])
      (Protocol.set_world w'
         (Protocol.set_calls
            (Protocol.calls s
             ++ [(Handler.function handler,
                  Handler.args handler value self node)]) s)) in
  Protocol.call_handler invoke self value handler node s = (Ok value, s')
  ∧ Protocol.call_handlers_from invoke self node value (handler :: rest) s
    = Protocol.call_handlers_from invoke self node value rest s'
  ∧ (∀ next,
       Protocol.calls
         (snd (Protocol.call_handler invoke self value next node s'))
       = Protocol.calls s'
         ++ [(Handler.function next, Handler.args next value self node)])
  ∧ ((∀ f a w e', fst (invoke f a w) = Raise e' ->
                  isinstance_Exception e' = true) ->
     ∃ s_end,
       Protocol.call_handlers_from invoke self node value (handler :: rest) s
       = (Ok tt, s_end)
       ∧ map fst (Protocol.calls s_end)
         = map fst (Protocol.calls s)
           ++ Handler.function handler :: map Handler.function rest).
Proof.
  intros Hp Hcall He s'.
  assert (Hcaught := call_handler_caught self p node value handler s e w'
                       Hp Hcall He).
  fold s' in Hcaught.
  split; [exact Hcaught|]. split; [|split].
  - cbn [Protocol.call_handlers_from]. unfold bind at 1.
    rewrite Hcaught. reflexivity.
  - intros next. unfold Protocol.call_handler. rewrite call_eq.
    destruct (Handler.call invoke next value self node (Protocol.world s'))
      as [[v|e'] w'']; cbn [fst snd]; [reflexivity|].
    destruct (isinstance_Exception e'); [|reflexivity].
    unfold Protocol.on_error, Protocol.get_object. run. rewrite Hp.
    reflexivity.
  - intros Hexc.
    exact (call_handlers_all_called self p node (handler :: rest) Hexc
             value s Hp).
Qed.

End ChainFacts.

Lemma handler_fault_is_isolated_witness :
  fst (Protocol.call_handler Scenario.invoke 0 (VStr "first")
         (Handler.mk (Function (Scenario.def "faulty")) None NORMAL true)
         Scenario.Cmd (snd (Scenario.delegation Scenario.start)))
  = Ok (VStr "first").
Proof.
  pose proof
    (handler_fault_is_isolated Scenario.invoke 0
       (Protocol.mk "P" None ∅ [("Child", 1%nat)] [] (Some false))
       Scenario.Cmd (VStr "first")
       (Handler.mk (Function (Scenario.def "faulty")) None NORMAL true)
       [Handler.mk (Function (is_reducer (Scenario.def "last"))) None NORMAL
          true]
       (snd (Scenario.delegation Scenario.start))
       (OtherException "RuntimeError") ["faulty"]) as H.
  destruct H as [H _];
    [vm_compute; reflexivity | reflexivity | reflexivity |].
  rewrite H. reflexivity.
Defined.

(** ** Dispatch: the order of the handlers *)

(** C1 at three handlers registered as DAEMON, NORMAL, URGENT: [handle]
    pushes them on a heap and [call_handlers] walks the heap's list,
    which is [urgent; daemon; normal]. *)
Theorem handle_walks_the_heap_list :
  let r := Scenario.priorities Scenario.start in
  fst r = Ok tt
  ∧ Protocol.world (snd r) = ["urgent"; "daemon"; "normal"]
  ∧ map fst (Protocol.calls (snd r))
    = [Function (Scenario.def "urgent"); Function (Scenario.def "daemon");
       Function (Scenario.def "normal")].
Proof. vm_compute. repeat split. Qed.

(** ** [configure] and the wildcard *)

Section ConfigureFacts.

Context {W : Type}.
Variable invoke : callable -> list arg -> M W pyvalue.
Variable node_classes : class_table.


(** Once [_aborted] is set, [handle] returns at once: no handler is
    called and nothing changes. *)
Lemma handle_aborted_is_noop (self : nat) (p : Protocol.t) (node : Node.t)
  (s : @Protocol.State W) :
  Protocol.objects s !! self = Some p ->
  Protocol._aborted p = Some true ->
  Protocol.handle invoke node_classes self node s = (Ok tt, s).
Proof.
  intros Hp Ha. unfold Protocol.handle, Protocol.get_object. run.
  rewrite Hp, Ha. reflexivity.
Qed.

End ConfigureFacts.

(** C5 at a registry that holds the wildcard under a condition that
    fails: [register] refuses [ALL_NODES], and with the entry written
    into [_registry], [configure] raises [AttributeError] before
    [_aborted] is assigned; the flag stays false. *)
Theorem configure_wildcard_raises :
  let r := Scenario.wildcard Scenario.start in
  fst r = Raise (AttributeError (Msg "on_register"))
  ∧ Protocol._aborted <$> Protocol.objects (snd r) !! 0%nat
    = Some (Some false)
  ∧ _registry <$> Protocol.classes (snd r) !! "P"
    = Some [(ALL_NODES, Some Scenario.never)]
  ∧ fst (Protocol.register Scenario.node_classes "P" ALL_NODES
           (Some Scenario.never) Scenario.start)
    = Raise (TypeError (Msg "issubclass() arg 1 must be a class")).
Proof. vm_compute. repeat split. Qed.

(** ** [register_tree]: the entries of the table itself *)

Lemma pyobj_eqb_eq (a b : pyobj) : pyobj_eqb a b = true ↔ a = b.
Proof. unfold pyobj_eqb. apply bool_decide_eq_true. Qed.

Lemma dict_get_set_pyobj {V : Type} (d : list (pyobj * V)) (k k' : pyobj)
  (v : V) :
  dict_get pyobj_eqb (dict_set pyobj_eqb d k v) k'
  = if pyobj_eqb k k' then Some v else dict_get pyobj_eqb d k'.
Proof.
  induction d as [|[k0 v0] d IH]; cbn.
  - destruct (pyobj_eqb k k'); reflexivity.
  - destruct (pyobj_eqb k0 k) eqn:E0; cbn.
    + apply pyobj_eqb_eq in E0 as ->.
      destruct (pyobj_eqb k k'); reflexivity.
    + destruct (pyobj_eqb k0 k') eqn:E1; [|exact IH].
      destruct (pyobj_eqb k k') eqn:E2; [|reflexivity].
      apply pyobj_eqb_eq in E1 as ->. apply pyobj_eqb_eq in E2 as ->.
      rewrite (proj2 (pyobj_eqb_eq k' k')) in E0 by reflexivity.
      discriminate E0.
Qed.

Section RegisterFacts.

Context {W : Type}.
Variable node_classes : class_table.

Lemma register_Node_subclass (cls : string) (c : ProtocolClass) (o : pyobj)
  (condition : option If) (s : @Protocol.State W) :
  Protocol.Node_subclass node_classes o ->
  match condition with Some i => checks_node i = false | None => True end ->
  Protocol.classes s !! cls = Some c ->
  Protocol.register node_classes cls o condition s
  = (Ok o,
     Protocol.set_classes
       (<[cls := set__registry
                   (dict_set pyobj_eqb (_registry c) o condition) c]>
          (Protocol.classes s)) s).
Proof.
  intros (name & -> & Hn) Hc Hcls.
  unfold Protocol.register, Protocol.modify_class, Protocol.get_class. run.
  rewrite Hn.
  assert (Hchk : match condition with
                 | Some i => checks_node i
                 | None => false
                 end = false).
  { destruct condition; [exact Hc|reflexivity]. }
  rewrite Hchk, Hcls. reflexivity.
Qed.

Lemma register_tree_loop_registers (again : M (@Protocol.State W) (list pyobj))
  (cls : string) (recursive : bool) (condition : option If)
  (values : list pyobj) :
  Forall (Protocol.Node_subclass node_classes) values ->
  match condition with Some i => checks_node i = false | None => True end ->
  ∀ (done : list pyobj) (s : @Protocol.State W) (c : ProtocolClass),
    Protocol.classes s !! cls = Some c ->
    (∀ o, o ∈ done -> dict_get pyobj_eqb (_registry c) o = Some condition) ->
    ∃ s' c',
      Protocol.register_tree_loop node_classes again cls recursive condition
        values done s = (Ok (done ++ values), s')
      ∧ Protocol.classes s' !! cls = Some c'
      ∧ ∀ o, o ∈ done ++ values ->
             dict_get pyobj_eqb (_registry c') o = Some condition.
Proof.
  intros Hvalues Hc.
  induction Hvalues as [|node rest Hnode _ IH]; intros done s c Hcls Hdone.
  - exists s, c. rewrite app_nil_r. auto.
  - cbn [Protocol.register_tree_loop].
    assert (Hinst : Protocol.isinstance_Tree node_classes node = false).
    { destruct Hnode as (name & -> & _). reflexivity. }
    rewrite Hinst, andb_false_r.
    unfold bind at 1. unfold lift at 1. unfold bind at 1. unfold ret at 1.
    unfold bind at 1.
    rewrite (register_Node_subclass cls c node condition s Hnode Hc Hcls).
    destruct (IH (done ++ [node])
                (Protocol.set_classes
                   (<[cls := set__registry
                               (dict_set pyobj_eqb (_registry c) node
                                  condition) c]>
                      (Protocol.classes s)) s)
                (set__registry
                   (dict_set pyobj_eqb (_registry c) node condition) c))
      as (s' & c' & Hrun & Hcls' & Hall).
    { cbn. apply lookup_insert_eq. }
    { intros o Ho. cbn. rewrite dict_get_set_pyobj.
      destruct (pyobj_eqb node o) eqn:E; [reflexivity|].
      apply elem_of_app in Ho as [Ho|Ho]; [exact (Hdone o Ho)|].
      apply list_elem_of_singleton in Ho as ->.
      rewrite (proj2 (pyobj_eqb_eq node node)) in E by reflexivity.
      discriminate E. }
    exists s', c'. rewrite <- app_assoc in Hrun, Hall. auto.
Qed.

(** The half of C8 that holds: every entry of the tree's own table is
    registered under the condition, whatever [recursive] is. *)
Lemma register_tree_registers_entries (fuel : nat) (cls tree : string)
  (recursive : bool) (condition : option If) (s : @Protocol.State W)
  (c : ProtocolClass) :
  is_Tree (node_classes tree) = true ->
  Forall (Protocol.Node_subclass node_classes) (map snd (nodes (node_classes tree))) ->
  match condition with Some i => checks_node i = false | None => True end ->
  Protocol.classes s !! cls = Some c ->
  ∃ s' c',
    Protocol.register_tree node_classes (S fuel) cls (PyClass tree) recursive
      condition s
    = (Ok (map snd (nodes (node_classes tree))), s')
    ∧ Protocol.classes s' !! cls = Some c'
    ∧ ∀ o, o ∈ map snd (nodes (node_classes tree)) ->
           dict_get pyobj_eqb (_registry c') o = Some condition.
Proof.
  intros Htree Hvalues Hc Hcls. cbn [Protocol.register_tree].
  unfold bind at 1. unfold lift at 1. cbn [Protocol.attr_nodes].
  rewrite Htree.
  apply (register_tree_loop_registers _ cls recursive condition _ Hvalues Hc
           [] s c Hcls).
  intros o Ho. apply elem_of_nil in Ho. destruct Ho.
Qed.

End RegisterFacts.

(** ** [register_tree] *)

(** C8 at [A], whose only variant [B] is itself a tree with the variant
    [C]: with [recursive=True], [B] is registered and [C] is not. *)
Theorem register_tree_recursive_skips_nested (fuel : nat) :
  let r := Protocol.register_tree Scenario.node_classes (S fuel) "P"
             (PyClass "A") true None Scenario.start in
  nodes (Scenario.node_classes "A") = [(VInt 1, PyClass "B")]
  ∧ is_Tree (Scenario.node_classes "B") = true
  ∧ nodes (Scenario.node_classes "B") = [(VInt 2, PyClass "C")]
  ∧ fst r = Ok [PyClass "B"]
  ∧ _registry <$> Protocol.classes (snd r) !! "P"
    = Some [(PyClass "B", None)].
Proof. vm_compute. repeat split. Qed.

(** ** Dispatch: a handler that is a child-dispatcher type *)

(** What [handle] leaves in the handler table: for each of its two keys,
    the groups of dicts as the loops over them left them. *)
Lemma handle_key_writes_back {W : Type} (self : nat) (p : Protocol.t)
  (c : ProtocolClass) (node : Node.t) (key : pyobj)
  (groups : list (option If * list Case.t)) (handlers : list Handler.t)
  (s : @Protocol.State W) :
  Protocol.objects s !! self = Some p ->
  Protocol.classes s !! Protocol.type_ p = Some c ->
  dict_get pyobj_eqb (_handlers c) key = Some groups ->
  Protocol.handle_key self node key handlers s
  = (fst (Protocol.handle_groups p node groups handlers),
     Protocol.set_classes
       (<[Protocol.type_ p :=
            set__handlers
              (dict_set pyobj_eqb (_handlers c) key
                 (snd (Protocol.handle_groups p node groups handlers))) c]>
          (Protocol.classes s)) s).
Proof.
  intros Hp Hc Hg.
  unfold Protocol.handle_key, Protocol.modify_class, Protocol.get_object,
    Protocol.get_class.
  unfold bind, get, ret, modify, lift. rewrite Hp, Hc, Hg.
  destruct (Protocol.handle_groups p node groups handlers) as [r groups'].
  cbn. rewrite Hc. reflexivity.
Qed.

(** A group whose condition holds is handed to the loop over its dicts. *)
Lemma handle_groups_passing (p : Protocol.t) (node : Node.t)
  (condition : option If) (cases : list Case.t)
  (rest : list (option If * list Case.t)) (handlers : list Handler.t) :
  Protocol.If_check condition (Protocol._config p) (Some node) = true ->
  Protocol.handle_groups p node ((condition, cases) :: rest) handlers
  = match Protocol.handle_cases (Protocol.children p) cases handlers with
    | (Raise e, cases') => (Raise e, (condition, cases') :: rest)
    | (Ok handlers', cases') =>
        (fst (Protocol.handle_groups p node rest handlers'),
         (condition, cases')
         :: snd (Protocol.handle_groups p node rest handlers'))
    end.
Proof.
  intros Hcheck. cbn [Protocol.handle_groups]. rewrite Hcheck.
  destruct (Protocol.handle_cases (Protocol.children p) cases handlers)
    as [[handlers'|e] cases']; [|reflexivity].
  destruct (Protocol.handle_groups p node rest handlers'); reflexivity.
Qed.

(** C9, as amended: a stored descriptor whose function is a
    child-dispatcher type yields a handler bound to the child's
    [handle], with [pass_protocol] false, so that the dispatcher is not
    among its arguments; the loop leaves the descriptor rewritten in the
    same way, and a later pass over the rewritten descriptor yields the
    same handler and leaves it as it is. *)
Theorem child_dispatcher_redirect (self_children : list (string * nat))
  (child_cls : string) (child : nat) (case : Case.t) (rest : list Case.t)
  (handlers : list Handler.t) :
  Case.function case = Some (ProtocolType child_cls) ->
  dict_get String.eqb self_children child_cls = Some child ->
  let stored :=
    Case.mk (Some (BoundHandle child)) (Case.responder_cls case)
      (Case.status case) false in
  let handler :=
    Handler.mk (BoundHandle child) (Case.responder_cls case)
      (Case.status case) false in
  let next :=
    Protocol.handle_cases self_children rest
      (heapq.heappush Handler.lt handlers handler) in
  Protocol.handle_cases self_children (case :: rest) handlers
  = (fst next, stored :: snd next)
  ∧ Protocol.handle_cases self_children (stored :: rest) handlers
    = (fst next, stored :: snd next)
  ∧ (∀ value p node q, ArgProtocol q ∉ Handler.args handler value p node).
Proof.
  intros Hf Hc stored handler next. split; [|split].
  - cbn [Protocol.handle_cases]. rewrite Hf. cbn. rewrite Hc. cbn.
    fold stored handler next. destruct next; reflexivity.
  - cbn. fold stored handler next. destruct next; reflexivity.
  - intros value p node q. rewrite elem_of_args. cbn.
    intuition (discriminate || congruence).
Qed.

Lemma child_dispatcher_redirect_witness :
  Protocol.handle_cases [("Child", 1%nat)]
    [Case.mk (Some (ProtocolType "Child")) None NORMAL true] []
  = (Ok [Handler.mk (BoundHandle 1) None NORMAL false],
     [Case.mk (Some (BoundHandle 1)) None NORMAL false]).
Proof.
  destruct
    (child_dispatcher_redirect [("Child", 1%nat)] "Child" 1
       (Case.mk (Some (ProtocolType "Child")) None NORMAL true) [] []
       eq_refl eq_refl) as [H _].
  rewrite H. reflexivity.
Defined.

(** C9, as stated, fails: after one dispatch the descriptor stored in
    the handler table holds the child's bound [handle] and
    [pass_protocol = False] in place of what was registered; a second
    dispatch finds it so. *)
Lemma handle_rewrites_stored_descriptor :
  let before := snd (Scenario.delegation Scenario.start) in
  let after :=
    snd (Protocol.handle Scenario.invoke Scenario.node_classes 0
           Scenario.Cmd before) in
  let again :=
    snd (Protocol.handle Scenario.invoke Scenario.node_classes 0
           Scenario.Cmd after) in
  _handlers <$> Protocol.classes before !! "P"
  = Some [(PyClass "Cmd",
           [(None, [Case.mk (Some (ProtocolType "Child")) None NORMAL true])])]
  ∧ _handlers <$> Protocol.classes after !! "P"
    = Some [(PyClass "Cmd",
             [(None, [Case.mk (Some (BoundHandle 1)) None NORMAL false])])]
  ∧ Protocol.calls after = [(BoundHandle 1, [ArgNode Scenario.Cmd])]
  ∧ Protocol.classes again = Protocol.classes after
  ∧ ¬ (_handlers <$> Protocol.classes after !! "P"
       = _handlers <$> Protocol.classes before !! "P").
Proof.
  vm_compute. repeat split. intros H. discriminate H.
Qed.

(** ** The constructor *)

Lemma bind_Ok {S A B : Type} (m : M S A) (k : A -> M S B) (s s' : S) (b : B) :
  bind m k s = (Ok b, s') ->
  ∃ a s1, m s = (Ok a, s1) ∧ k a s1 = (Ok b, s').
Proof.
  unfold bind. destruct (m s) as [[a|e] s1]; intros H.
  - exists a, s1. split; [reflexivity|exact H].
  - discriminate H.
Qed.

Lemma bind_ret {S A B : Type} (m : M S A) (k : A -> M S B) (s s1 : S) (a : A) :
  m s = (Ok a, s1) -> bind m k s = k a s1.
Proof. intros H. unfold bind. rewrite H. reflexivity. Qed.

Section InitFacts.

Context {W : Type}.
Variable node_classes : class_table.

Lemma modify_object_Ok (self : nat) (f : Protocol.t -> Protocol.t)
  (s s' : @Protocol.State W) :
  Protocol.modify_object self f s = (Ok tt, s') ->
  ∃ p, Protocol.objects s !! self = Some p
       ∧ s' = Protocol.set_objects (<[self := f p]> (Protocol.objects s)) s.
Proof.
  unfold Protocol.modify_object, Protocol.get_object. run.
  destruct (Protocol.objects s !! self) as [p|]; intros H; [|discriminate H].
  exists p. split; [reflexivity|]. congruence.
Qed.

(** What holds whenever [__init__] returns: the new instance has
    [_aborted] false, the assignment after [configure] being the last
    thing the constructor does. *)
Lemma init_leaves_aborted_false (fuel : nat) (cls : string)
  (protocol : option nat) (config : gmap string pyvalue)
  (s s' : @Protocol.State W) (self : nat) :
  Protocol.__init__ node_classes fuel cls protocol config s = (Ok self, s') ->
  ∃ p, Protocol.objects s' !! self = Some p
       ∧ Protocol._aborted p = Some false.
Proof.
  destruct fuel as [|fuel]; [discriminate|].
  cbn [Protocol.__init__]. intros H.
  apply bind_Ok in H as (s0 & s1 & _ & H).
  apply bind_Ok in H as ([] & s2 & _ & H).
  apply bind_Ok in H as ([] & s3 & _ & H).
  apply bind_Ok in H as ([] & s4 & Hset & H).
  injection H as <- <-.
  apply modify_object_Ok in Hset as (p & _ & ->).
  exists (Protocol.set_aborted (Some false) p). split; [|reflexivity].
  cbn. apply lookup_insert_eq.
Qed.

Lemma on_register_returns (node_cls : pyobj) (protocol_cls : nat)
  (add_protocol : bool) (s : @Protocol.State W) :
  Protocol.has_on_register node_classes node_cls = true ->
  ∃ s', Protocol.on_register node_classes node_cls protocol_cls add_protocol s
        = (Ok add_protocol, s')
        ∧ Protocol.objects s' = Protocol.objects s
        ∧ Protocol.classes s' = Protocol.classes s.
Proof.
  intros H. destruct node_cls as [c|c i|]; cbn in H; [| |discriminate H];
    cbn [Protocol.on_register]; rewrite H; eexists; run; repeat split.
Qed.

Lemma configure_registry_returns (self : nat) (p : Protocol.t)
  (items : list (pyobj * option If)) :
  Forall (fun e => Protocol.has_on_register node_classes (fst e) = true) items ->
  ∀ s : @Protocol.State W,
    Protocol.objects s !! self = Some p ->
    ∃ s', Protocol.configure_registry node_classes self items s = (Ok tt, s')
          ∧ Protocol.objects s' = Protocol.objects s
          ∧ Protocol.classes s' = Protocol.classes s.
Proof.
  induction 1 as [|[node_cls condition] rest Hnode _ IH]; intros s Hp.
  - exists s. repeat split.
  - cbn [Protocol.configure_registry fst] in *.
    unfold bind at 1. unfold Protocol.get_object at 1. run. rewrite Hp.
    assert (Hw : bool_decide (node_cls = ALL_NODES) = false).
    { apply bool_decide_eq_false. intros ->. discriminate Hnode. }
    rewrite Hw.
    destruct (Protocol.If_check condition (Protocol._config p) None).
    + destruct (on_register_returns node_cls self true s Hnode)
        as (s1 & -> & Ho & Hc).
      destruct (IH s1) as (s' & Hrun & Ho' & Hc'); [rewrite Ho; exact Hp|].
      exists s'. rewrite Hrun. repeat split; congruence.
    + destruct (on_register_returns node_cls self false s Hnode)
        as (s1 & -> & Ho & Hc).
      destruct (IH s1) as (s' & Hrun & Ho' & Hc'); [rewrite Ho; exact Hp|].
      exists s'. rewrite Hrun. repeat split; congruence.
Qed.

Lemma get_object_returns (self : nat) (p : Protocol.t) (s : @Protocol.State W) :
  Protocol.objects s !! self = Some p ->
  Protocol.get_object self s = (Ok p, s).
Proof. intros H. unfold Protocol.get_object, bind, get, ret. rewrite H. reflexivity. Qed.

Lemma modify_object_returns (self : nat) (p : Protocol.t)
  (f : Protocol.t -> Protocol.t) (s : @Protocol.State W) :
  Protocol.objects s !! self = Some p ->
  Protocol.modify_object self f s
  = (Ok tt, Protocol.set_objects (<[self := f p]> (Protocol.objects s)) s).
Proof.
  intros H. unfold Protocol.modify_object.
  rewrite (bind_ret _ _ _ _ _ (get_object_returns self p s H)).
  reflexivity.
Qed.

Lemma get_class_returns (cls : string) (c : ProtocolClass)
  (s : @Protocol.State W) :
  Protocol.classes s !! cls = Some c ->
  Protocol.get_class cls s = (Ok c, s).
Proof. intros H. unfold Protocol.get_class, bind, get, ret. rewrite H. reflexivity. Qed.

Lemma configure_with_returns
  (new : string -> option nat -> gmap string pyvalue -> M (@Protocol.State W) nat)
  (self : nat) (config : gmap string pyvalue) (s : @Protocol.State W)
  (p : Protocol.t) (c : ProtocolClass) :
  Protocol.objects s !! self = Some p ->
  Protocol.classes s !! Protocol.type_ p = Some c ->
  _children c = [] ->
  Forall (fun e => Protocol.has_on_register node_classes (fst e) = true)
    (_registry c) ->
  ∃ s' p',
    Protocol.configure_with node_classes new self config s = (Ok tt, s')
    ∧ Protocol.objects s' !! self = Some p'.
Proof.
  intros Hp Hcls Hch Hreg. unfold Protocol.configure_with.
  rewrite (bind_ret _ _ _ _ _ (modify_object_returns self p _ s Hp)).
  set (p1 := Protocol.set_config (config ∪ Protocol._config p) p).
  set (s1 := Protocol.set_objects _ s).
  assert (H1 : Protocol.objects s1 !! self = Some p1).
  { subst s1. cbn. apply lookup_insert_eq. }
  rewrite (bind_ret _ _ _ _ _ (get_object_returns self p1 s1 H1)).
  rewrite (bind_ret _ _ _ _ _ (get_class_returns (Protocol.type_ p1) c s1 Hcls)).
  destruct (configure_registry_returns self p1 (_registry c) Hreg s1 H1)
    as (s2 & Hrun & Ho & Hc).
  rewrite (bind_ret _ _ _ _ _ Hrun). rewrite Hch.
  cbn [Protocol.configure_children].
  rewrite (bind_ret (ret tt) _ s2 s2 tt eq_refl).
  assert (H2 : Protocol.objects s2 !! self = Some p1) by (rewrite Ho; exact H1).
  rewrite (modify_object_returns self p1 _ s2 H2).
  eexists _, _. split; [reflexivity|]. cbn. apply lookup_insert_eq.
Qed.

(** A class without child dispatchers whose registry holds [Node]
    subclasses only: the constructor returns, with [_aborted] false. *)
Lemma init_returns (fuel : nat) (cls : string) (protocol : option nat)
  (config : gmap string pyvalue) (s : @Protocol.State W) (c : ProtocolClass) :
  Protocol.classes s !! cls = Some c ->
  _children c = [] ->
  Forall (fun e => Protocol.has_on_register node_classes (fst e) = true)
    (_registry c) ->
  ∃ self s' p,
    Protocol.__init__ node_classes (S fuel) cls protocol config s
    = (Ok self, s')
    ∧ Protocol.objects s' !! self = Some p
    ∧ Protocol._aborted p = Some false.
Proof.
  intros Hcls Hch Hreg. cbn [Protocol.__init__].
  rewrite (bind_ret get _ s s s eq_refl). cbv zeta.
  set (self := fresh (dom (Protocol.objects s))).
  unfold bind at 1. unfold modify at 1. cbv beta iota.
  set (s1 := Protocol.set_objects
               (<[self := Protocol.mk cls protocol ∅ [] [] None]>
                  (Protocol.objects s)) s).
  assert (H1 : Protocol.objects s1 !! self
               = Some (Protocol.mk cls protocol ∅ [] [] None)).
  { subst s1. cbn. apply lookup_insert_eq. }
  destruct (configure_with_returns (Protocol.__init__ node_classes fuel) self
              config s1 _ c H1 Hcls Hch Hreg) as (s2 & p2 & Hrun & H2).
  rewrite (bind_ret _ _ _ _ _ Hrun).
  rewrite (bind_ret _ _ _ _ _ (modify_object_returns self p2 _ s2 H2)).
  eexists _, _, _. split; [reflexivity|]. split.
  - cbn. apply lookup_insert_eq.
  - reflexivity.
Qed.



End InitFacts.


Lemma init_leaves_aborted_false_witness :
  fst (Protocol.__init__ Scenario.node_classes 2 "P" None ∅ Scenario.start)
  = Ok 0%nat
  ∧ ∃ p, Protocol.objects
           (snd (Protocol.__init__ Scenario.node_classes 2 "P" None ∅
                   Scenario.start)) !! 0%nat = Some p
         ∧ Protocol._aborted p = Some false.
Proof.
  split; [vm_compute; reflexivity|].
  apply (init_leaves_aborted_false Scenario.node_classes 2 "P" None ∅
           Scenario.start).
  vm_compute. reflexivity.
Defined.

(** * Further properties of the library *)

(** ** Records *)

Section RecordFacts.

Variable _dump : Node.t -> pyvalue -> res pyvalue.
Variable _read :
  Node.t -> pyvalue -> pyvalue -> res (option (gmap (option string) pyvalue)).

(** The [update] of the record's class, as above: [Node.update], then
    [discard_keys] on the keys that the class drops. *)
Variable keys : list (option string).
Variable self_update : M Node.t unit.
Hypothesis self_update_eq :
  ∀ self, self_update self = (Node.update;; Node.discard_keys keys) self.

(** X1: two [feed]s in a row are one [feed] of the merged changes, the
    later changes winning, also for a class whose [update] drops keys
    ([Command], which drops ['_io']). *)
Theorem feed_feed (a b : gmap (option string) pyvalue) (self : Node.t) :
  (Node.feed self_update a;; Node.feed self_update b) self
  = Node.feed self_update (b ∪ a) self.
Proof.
  unfold bind at 1.
  rewrite !(feed_eq keys self_update self_update_eq).
  cbn [Node.type_ Node._data]. do 2 f_equal.
  apply map_eq. intros k. rewrite !fold_delete_lookup.
  destruct (bool_decide (k ∈ keys)) eqn:E; [reflexivity|].
  rewrite !lookup_union, fold_delete_lookup, E, lookup_union.
  destruct (b !! k), (a !! k), (Node._data self !! k); reflexivity.
Qed.

(** X4: for a record type that takes [read] from [Node]: after a
    successful [read] of bytes that are not empty, the origin is those
    bytes and the fields are the decoded ones over the old ones, less
    the keys the class drops; [refresh] then decodes the origin again,
    and when the bytes decode to the same fields it leaves the record
    as it is: the fields, the cleared cache and the origin. *)
Theorem refresh_after_read (buf context : pyvalue) (self self' : Node.t)
  (d : gmap (option string) pyvalue) :
  _read self buf context = Ok (Some d) ->
  Node.read _read self_update buf context self = (Ok tt, self') ->
  _read self' buf context = Ok (Some d) ->
  truthy buf = true ->
  Node.origin self' = buf
  ∧ Node.buffer self' = VNone
  ∧ (∀ k, Node._data self' !! k
          = if bool_decide (k ∈ keys) then None
            else (d ∪ Node._data self) !! k)
  ∧ Node.refresh (Node.read _read self_update) context self' = (Ok tt, self').
Proof.
  intros Hd Hread Hd' Hbuf.
  rewrite (read_eq _read keys self_update self_update_eq), Hd in Hread.
  injection Hread as <-. cbn [Node.origin Node._data Node.buffer].
  split; [reflexivity|]. split; [reflexivity|].
  split; [intros k; apply fold_delete_lookup|].
  unfold Node.refresh. unfold bind, get. cbn [Node.origin]. rewrite Hbuf.
  rewrite (read_eq _read keys self_update self_update_eq).
  cbn in Hd'. rewrite Hd'. cbn [Node.type_ Node._data]. do 2 f_equal.
  apply map_eq. intros k. rewrite !fold_delete_lookup.
  destruct (bool_decide (k ∈ keys)) eqn:E; [reflexivity|].
  rewrite !lookup_union, fold_delete_lookup, E, lookup_union.
  destruct (d !! k), (Node._data self !! k); reflexivity.
Qed.

(** X5: [load] on a class that takes [read] from [Node] builds a fresh
    record of the class: when the bytes decode, it holds the decoded
    fields, less the keys the class drops, the bytes as origin and no
    cache, so that its first [dump] calls the encoder; when the decoder
    returns [None], it is the empty record, without origin; when the
    decoder raises, so does [load]. *)
Theorem load_decodes_into_fresh_record (cls : string)
  (buf context context' : pyvalue) :
  let cls_read buf context :=
    Node.read _read self_update buf context;; get in
  match _read (Node.__init__ cls ∅) buf context with
  | Ok (Some d) =>
      let r := Node.mk cls (fold_left (fun d k => delete k d) keys d) VNone
                 buf in
      Node.load cls_read cls buf context = (Ok r, r)
      ∧ Node.dump _dump context' r
        = match _dump r context' with
          | Ok b => (Ok b, Node.set_buffer b r)
          | Raise e => (Raise e, r)
          end
  | Ok None =>
      Node.load cls_read cls buf context
      = (Ok (Node.__init__ cls ∅), Node.__init__ cls ∅)
  | Raise e => fst (Node.load cls_read cls buf context) = Raise e
  end.
Proof.
  intros cls_read. unfold Node.load. subst cls_read. cbv beta.
  unfold bind. rewrite (read_eq _read keys self_update self_update_eq).
  destruct (_read (Node.__init__ cls ∅) buf context) as [[d|]|e];
    unfold get; cbn [Node.__init__ Node.type_ Node._data fst];
    [|reflexivity..].
  rewrite (right_id_L ∅ (∪)). split; [reflexivity|].
  unfold Node.dump. run. destruct (_dump _ context'); reflexivity.
Qed.

End RecordFacts.

Lemma feed_feed_witness :
  (Node.feed Sessions.Command_update {[ Some "_io" := VInt 0 ]};;
   Node.feed Sessions.Command_update {[ Some "b" := VInt 2 ]})
    Scenario.cached
  = Node.feed Sessions.Command_update
      ({[ Some "b" := VInt 2 ]} ∪ {[ Some "_io" := VInt 0 ]}) Scenario.cached.
Proof.
  apply (feed_feed [Some "_io"] Sessions.Command_update
           (fun self => eq_refl)).
Defined.

Lemma refresh_after_read_witness :
  Node.refresh (Node.read Scenario.raw_read Node.update) VNone
    (snd (Node.read Scenario.raw_read Node.update (VBytes [Byte.x01]) VNone
            (Node.mk "Record" {[ Some "a" := VInt 1 ]} (VInt 1) VNone)))
  = (Ok tt,
     snd (Node.read Scenario.raw_read Node.update (VBytes [Byte.x01]) VNone
            (Node.mk "Record" {[ Some "a" := VInt 1 ]} (VInt 1) VNone))).
Proof.
  apply (refresh_after_read Scenario.raw_read [] Node.update
           (fun self => eq_refl)
           (VBytes [Byte.x01]) VNone
           (Node.mk "Record" {[ Some "a" := VInt 1 ]} (VInt 1) VNone) _
           {[ Some "raw" := VBytes [Byte.x01] ]});
    reflexivity.
Defined.

Lemma load_decodes_into_fresh_record_witness :
  Node.load
    (fun buf context =>
       Node.read Scenario.raw_read Node.update buf context;; get)
    "Record" (VBytes [Byte.x01]) VNone
  = (Ok (Node.mk "Record" {[ Some "raw" := VBytes [Byte.x01] ]} VNone
           (VBytes [Byte.x01])),
     Node.mk "Record" {[ Some "raw" := VBytes [Byte.x01] ]} VNone
       (VBytes [Byte.x01])).
Proof.
  apply (load_decodes_into_fresh_record Scenario.count_dump Scenario.raw_read
           [] Node.update (fun self => eq_refl)
           "Record" (VBytes [Byte.x01]) VNone VNone).
Defined.

(** X2: [discard_keys] removes exactly the keys it is given, whether
    they were present or not, and touches neither the cache nor the
    origin. *)
Theorem discard_keys_removes_exactly (keys : list (option string))
  (self : Node.t) (k : option string) :
  let self' := snd (Node.discard_keys keys self) in
  fst (Node.discard_keys keys self) = Ok tt
  ∧ Node._data self' !! k
    = (if bool_decide (k ∈ keys) then None else Node._data self !! k)
  ∧ Node.buffer self' = Node.buffer self
  ∧ Node.origin self' = Node.origin self.
Proof.
  cbn. repeat split. apply fold_delete_lookup.
Qed.

(** X3: [dump] is memoized on the record alone: once it has returned
    bytes, every later [dump] returns the same bytes and leaves the
    record as it is, under any context and whatever the encoder would
    now compute. *)
Theorem dump_is_memoized (_dump _dump' : Node.t -> pyvalue -> res pyvalue)
  (context context' : pyvalue) (self self' : Node.t) (b : pyvalue) :
  Node.dump _dump context self = (Ok b, self') ->
  b ≠ VNone ->
  Node.buffer self' = b
  ∧ Node._data self' = Node._data self
  ∧ Node.dump _dump' context' self' = (Ok b, self').
Proof.
  unfold Node.dump. run. intros H Hb.
  assert (Hbuf : Node.buffer self' = b ∧ Node._data self' = Node._data self).
  { destruct (is_None (Node.buffer self)).
    - destruct (_dump self context); cbn in H; [|discriminate H].
      injection H as <- <-. split; reflexivity.
    - injection H as <- <-. split; reflexivity. }
  destruct Hbuf as [Hbuf Hdata]. repeat split; try assumption.
  subst b. destruct (Node.buffer self') eqn:E; [congruence|..];
    cbn; rewrite E; reflexivity.
Qed.

Lemma dump_is_memoized_witness :
  Node.dump (fun _ _ => Raise (OtherException "unused")) (VInt 7)
    Scenario.cached
  = (Ok (VInt 1), Scenario.cached).
Proof.
  apply (dump_is_memoized Scenario.count_dump _ VNone (VInt 7)
           Scenario.cached Scenario.cached (VInt 1)).
  - reflexivity.
  - discriminate.
Defined.

(** ** Trees *)

Lemma bytes_eqb_refl (b : list byte) : bytes_eqb b b = true.
Proof.
  induction b as [|x b IH]; [reflexivity|]. cbn. rewrite IH.
  rewrite (Byte.byte_dec_lb (x := x) (y := x) eq_refl). reflexivity.
Qed.

Lemma py_eqb_refl (v : pyvalue) : py_eqb v v = true.
Proof.
  destruct v as [|b|n|s|b]; cbn.
  - reflexivity.
  - destruct b; reflexivity.
  - apply Z.eqb_refl.
  - apply String.eqb_refl.
  - apply bytes_eqb_refl.
Qed.

Lemma dict_get_set_same {K V : Type} (eqb : K -> K -> bool)
  (d : list (K * V)) (k : K) (v : V) :
  eqb k k = true ->
  dict_get eqb (dict_set eqb d k v) k = Some v.
Proof.
  intros Hrefl. induction d as [|[k0 v0] d IH]; cbn.
  - rewrite Hrefl. reflexivity.
  - destruct (eqb k0 k) eqn:E; cbn; rewrite E; [reflexivity|exact IH].
Qed.

(** What a successful [case] leaves in the class table. *)
Lemma case_registers (ct : class_table) (cls : string) (tag : pyvalue)
  (node_cls : string) :
  is_Node (ct node_cls) = true ->
  let ct' := snd (Tree.case cls tag node_cls ct) in
  fst (Tree.case cls tag node_cls ct) = Ok (PyClass node_cls)
  ∧ nodes (ct' cls) = dict_set py_eqb (nodes (ct cls)) tag (PyClass node_cls)
  ∧ case_key (ct' cls) = case_key (ct cls)
  ∧ default_node (ct' cls) = default_node (ct cls)
  ∧ switch_spec (ct' node_cls) = Some (cls, tag)
  ∧ registry (ct' node_cls) = registry (ct cls)
  ∧ registry (ct' cls) = registry (ct cls).
Proof.
  intros Hn. unfold Tree.case. run.
  unfold insert, fn_insert.
  destruct (decide (cls = node_cls)) as [->|Hne]; cbn;
    rewrite (decide_True (P := node_cls = node_cls)) by reflexivity;
    cbn; rewrite Hn; cbn;
    repeat (first [ rewrite decide_True by reflexivity
                  | rewrite decide_False by congruence ]; cbn);
    repeat split.
Qed.

Section CaseFacts.

Variable ct : class_table.

(** X6: a variant registered with [cls.case(tag)] is what [switch]
    resolves to for a [cls] record whose discriminator holds [tag]; the
    variant carries the back-link and shares the interest set of [cls]. *)
Theorem case_then_switch (cls : string) (tag : pyvalue) (node_cls : string)
  (context : pyvalue) (self : Node.t) (k : string) :
  is_Node (ct node_cls) = true ->
  Node.type_ self = cls ->
  case_key (ct cls) = Some k ->
  Node._data self !! Some k = Some tag ->
  let ct' := snd (Tree.case cls tag node_cls ct) in
  fst (Tree.case cls tag node_cls ct) = Ok (PyClass node_cls)
  ∧ switch_spec (ct' node_cls) = Some (cls, tag)
  ∧ registry (ct' node_cls) = registry (ct' cls)
  ∧ Tree.switch ct' context self = (Ok (Some (PyClass node_cls)), self).
Proof.
  intros Hn Hty Hk Hd ct'.
  destruct (case_registers ct cls tag node_cls Hn)
    as (Hok & Hnodes & Hkey & _ & Hspec & Hreg & Hreg').
  fold ct' in Hnodes, Hkey, Hspec, Hreg, Hreg'.
  repeat split; [exact Hok|exact Hspec|congruence|].
  unfold Tree.switch, Tree.get_switch. run. rewrite Hty, Hkey, Hk, Hd. cbn.
  rewrite Hty, Hnodes.
  rewrite (dict_get_set_same py_eqb _ tag _ (py_eqb_refl tag)). reflexivity.
Qed.

End CaseFacts.

Lemma case_then_switch_witness :
  Tree.switch
    (snd (Tree.case "SessionCommands" (VInt 99) "Command" Sessions.classes))
    VNone Sessions.unknown_header
  = (Ok (Some (PyClass "Command")), Sessions.unknown_header).
Proof.
  apply (case_then_switch Sessions.classes "SessionCommands" (VInt 99)
           "Command" VNone Sessions.unknown_header "type");
    reflexivity.
Defined.

Section TreeMore.

Variable classes : class_table.
Variable _dump : Node.t -> pyvalue -> res pyvalue.

(** X7: [get_switch] after [set_switch] returns the tag that was set,
    for a type with a discriminator key; for a type without one the tag
    is stored under the key [None] and [get_switch] still answers with
    the sentinel. *)
Theorem set_switch_then_get_switch (key context : pyvalue) (self : Node.t) :
  let self' := snd (Tree.set_switch classes key context self) in
  fst (Tree.set_switch classes key context self) = Ok tt
  ∧ Node._data self' !! case_key (classes (Node.type_ self)) = Some key
  ∧ Tree.get_switch classes context self'
    = (Ok (match case_key (classes (Node.type_ self)) with
           | Some _ => Tree.Key key
           | None => Tree.MissingSwitchKey
           end), self').
Proof.
  cbn. split; [reflexivity|]. split; [apply lookup_insert_eq|].
  unfold Tree.get_switch. run.
  destruct (case_key (classes (Node.type_ self))) as [k|]; [|reflexivity].
  rewrite lookup_insert_eq. reflexivity.
Qed.

Lemma set_buffer_buffer (self : Node.t) :
  Node.set_buffer (Node.buffer self) self = self.
Proof. destruct self; reflexivity. Qed.

Lemma Node_dump_buffer (context : pyvalue) (self self' : Node.t)
  (b : pyvalue) :
  Node.dump _dump context self = (Ok b, self') -> Node.buffer self' = b.
Proof.
  unfold Node.dump. run.
  destruct (is_None (Node.buffer self)).
  - destruct (_dump self context); cbn; intros H; [|discriminate H].
    injection H as <- <-. reflexivity.
  - intros H. injection H as <- <-. reflexivity.
Qed.

(** When no parent is selected, [Tree.dump] is [Node.dump]. *)
Lemma dump_unwrapped (fuel : nat) (context : pyvalue) (standalone : bool)
  (self : Node.t) :
  (if negb standalone
      && bool_decide (is_Some (switch_spec (classes (Node.type_ self))))
      && has_switch (classes (Node.type_ self))
   then switch_spec (classes (Node.type_ self)) else None) = None ->
  Tree.dump classes _dump (S fuel) context standalone self
  = Node.dump _dump context self.
Proof.
  intros Hspec. cbn [Tree.dump]. unfold bind at 1. unfold get at 1.
  cbv beta iota zeta. rewrite Hspec. unfold bind at 1.
  destruct (Node.dump _dump context self) as [[b|e] self'] eqn:E;
    [|reflexivity].
  apply Node_dump_buffer in E. subst b. run.
  rewrite set_buffer_buffer. reflexivity.
Qed.

(** X8: with [standalone=True], for a type that is not registered as a
    case, or one with [has_switch] false, [Tree.dump] is [Node.dump]: no
    parent is built, and the bytes returned are the record's cache. *)
Theorem dump_without_wrapping (fuel : nat) (context : pyvalue)
  (standalone : bool) (self : Node.t) :
  standalone = true
  ∨ switch_spec (classes (Node.type_ self)) = None
  ∨ has_switch (classes (Node.type_ self)) = false ->
  Tree.dump classes _dump (S fuel) context standalone self
  = Node.dump _dump context self
  ∧ ∀ b self',
      Tree.dump classes _dump (S fuel) context standalone self
      = (Ok b, self') ->
      Node.buffer self' = b.
Proof.
  intros H.
  assert (Heq : Tree.dump classes _dump (S fuel) context standalone self
                = Node.dump _dump context self).
  { apply dump_unwrapped. destruct H as [H|[H|H]]; rewrite H.
    - reflexivity.
    - destruct (negb standalone); reflexivity.
    - rewrite andb_false_r. reflexivity. }
  split; [exact Heq|]. intros b self' Hd. rewrite Heq in Hd.
  exact (Node_dump_buffer context self self' b Hd).
Qed.

(** X9: a leaf with a [case_key] of its own, registered under a parent
    that is no case itself: [dump] returns the parent's encoding of a
    record that holds the leaf's bytes under the leaf's [case_key] and
    then the tag under the parent's [case_key]; the leaf keeps its own
    bytes as cache. *)
Theorem dump_wraps_in_parent (fuel : nat) (context : pyvalue)
  (self self' : Node.t) (parent k : string) (tag b : pyvalue) :
  let c := classes (Node.type_ self) in
  switch_spec c = Some (parent, tag) ->
  has_switch c = true ->
  case_key c = Some k ->
  switch_spec (classes parent) = None ->
  Node.dump _dump context self = (Ok b, self') ->
  Tree.dump classes _dump (S (S fuel)) context false self
  = (_dump (Node.mk parent
              (<[case_key (classes parent) := tag]> {[ Some k := b ]})
              VNone VNone) context,
     self').
Proof.
  intros c Hs Hh Hk Hp Hd.
  assert (Hb := Node_dump_buffer context self self' b Hd).
  remember (S fuel) as fuel' eqn:Hf.
  cbn [Tree.dump]. unfold bind at 1. unfold get at 1. cbv beta iota zeta.
  fold c. rewrite Hs, Hh, Hk. cbn [negb andb].
  unfold bind at 1. rewrite Hd.
  replace (bool_decide (is_Some (Some (parent, tag)))) with true
    by (symmetry; apply bool_decide_eq_true; eauto).
  cbn [andb]. unfold bind at 1, modify at 1. cbv beta iota.
  subst b. rewrite set_buffer_buffer.
  unfold bind at 1, get at 1. cbv beta iota.
  unfold Node.from_dict.
  rewrite lookup_singleton_ne by discriminate.
  unfold bind at 1, lift at 1. cbv beta iota.
  unfold lift.
  set (tree := Node.__init__ parent {[ Some k := Node.buffer self' ]}).
  unfold bind at 1. cbn [Tree.set_switch modify].
  unfold Tree.set_switch, modify. cbv beta iota.
  subst fuel'.
  rewrite (dump_unwrapped fuel context false)
    by (subst tree; cbn; rewrite Hp; reflexivity).
  unfold Node.dump. run.
  destruct (_dump _ context); reflexivity.
Qed.

End TreeMore.

Lemma dump_without_wrapping_witness :
  Tree.dump Sessions.classes Scenario.count_dump 1 VNone true
    (Node.__init__ "UpdateTabNavigation" ∅)
  = Node.dump Scenario.count_dump VNone
      (Node.__init__ "UpdateTabNavigation" ∅).
Proof.
  apply (dump_without_wrapping Sessions.classes Scenario.count_dump 0 VNone
           true).
  left. reflexivity.
Defined.

Lemma dump_wraps_in_parent_witness :
  Tree.dump Scenario.enveloped Scenario.count_dump 2 VNone false
    (Node.__init__ "Leaf" {[ Some "a" := VInt 1 ]})
  = (Ok (VInt 2),
     Node.mk "Leaf" {[ Some "a" := VInt 1 ]} (VInt 1) VNone).
Proof.
  apply (dump_wraps_in_parent Scenario.enveloped Scenario.count_dump 0 VNone
           (Node.__init__ "Leaf" {[ Some "a" := VInt 1 ]})
           (Node.mk "Leaf" {[ Some "a" := VInt 1 ]} (VInt 1) VNone)
           "Envelope" "payload" (VInt 7) (VInt 1));
    reflexivity.
Defined.


(** ** The heap of handlers *)

Lemma Handler_lt_spec (a b : Handler.t) :
  Handler.lt a b = true
  ↔ (Status_value (Handler.status b) < Status_value (Handler.status a))%Z.
Proof. unfold Handler.lt. rewrite Z.ltb_lt. lia. Qed.

Lemma parentpos_lt (pos : nat) :
  (0 < pos)%nat -> (Nat.shiftr (pos - 1) 1 < pos)%nat.
Proof.
  intros H. rewrite Nat.shiftr_div_pow2.
  assert ((pos - 1) `div` 2 ^ 1 ≤ pos - 1)%nat; [|lia].
  apply Nat.Div0.div_le_upper_bound. cbn. lia.
Qed.

(** The sift loop: it permutes the list in which the new item sits at
    [pos], and when every other item is below the top, it leaves a
    highest item first. *)
Lemma siftdown_loop_spec (fuel : nat) :
  ∀ (heap : list Handler.t) (pos : nat) (newitem top : Handler.t),
    (pos < length heap)%nat ->
    (pos ≤ fuel)%nat ->
    (if decide (pos = 0%nat) then top = newitem
     else heap !! 0%nat = Some top) ->
    (∀ j x, j ≠ pos -> heap !! j = Some x ->
            (Status_value (Handler.status x)
             <= Status_value (Handler.status top))%Z) ->
    heapq._siftdown_loop Handler.lt fuel heap 0 pos newitem
    ≡ₚ <[pos := newitem]> heap
    ∧ Protocol.top_first
        (heapq._siftdown_loop Handler.lt fuel heap 0 pos newitem).
Proof.
  assert (Hstop : ∀ (heap : list Handler.t) pos newitem top,
    (pos < length heap)%nat ->
    (if decide (pos = 0%nat) then top = newitem
     else heap !! 0%nat = Some top) ->
    (∀ j x, j ≠ pos -> heap !! j = Some x ->
            (Status_value (Handler.status x)
             <= Status_value (Handler.status top))%Z) ->
    (Status_value (Handler.status newitem)
     <= Status_value (Handler.status top))%Z ->
    Protocol.top_first (<[pos := newitem]> heap)).
  { intros heap pos newitem top Hlen Htop Hall Hnew top' x H0 Hx.
    assert (top' = top) as ->.
    { destruct (decide (pos = 0%nat)) as [->|Hne].
      - rewrite list_lookup_insert_eq in H0 by exact Hlen. congruence.
      - rewrite list_lookup_insert_ne in H0 by exact Hne. congruence. }
    apply list_elem_of_lookup in Hx as [j Hj].
    destruct (decide (pos = j)) as [<-|Hne].
    - rewrite list_lookup_insert_eq in Hj by exact Hlen.
      injection Hj as <-. exact Hnew.
    - rewrite list_lookup_insert_ne in Hj by exact Hne.
      apply (Hall j x); [congruence|exact Hj]. }
  induction fuel as [|fuel IH]; intros heap pos newitem top Hlen Hfuel Htop Hall.
  - cbn. split; [reflexivity|].
    assert (pos = 0%nat) as -> by lia.
    apply (Hstop heap 0%nat newitem top Hlen Htop Hall).
    rewrite decide_True in Htop by reflexivity. subst top. lia.
  - cbn [heapq._siftdown_loop].
    destruct (decide (0 < pos)%nat) as [Hpos|Hpos].
    2:{ rewrite bool_decide_eq_false_2 by exact Hpos.
        split; [reflexivity|].
        assert (pos = 0%nat) as -> by lia.
        apply (Hstop heap 0%nat newitem top Hlen Htop Hall).
        rewrite decide_True in Htop by reflexivity. subst top. lia. }
    rewrite bool_decide_eq_true_2 by exact Hpos.
    pose proof (parentpos_lt pos Hpos) as Hpp.
    set (parentpos := Nat.shiftr (pos - 1) 1) in *.
    destruct (heap !! parentpos) as [parent|] eqn:Hparent.
    2:{ apply lookup_ge_None in Hparent. lia. }
    rewrite decide_False in Htop by lia.
    assert (Hpar : (Status_value (Handler.status parent)
                    <= Status_value (Handler.status top))%Z).
    { apply (Hall parentpos parent); [lia|exact Hparent]. }
    destruct (Handler.lt newitem parent) eqn:Hlt.
    + apply Handler_lt_spec in Hlt.
      destruct (IH (<[pos := parent]> heap) parentpos newitem
                  (if decide (parentpos = 0%nat) then newitem else top))
        as [Hperm Hfirst].
      * rewrite length_insert. lia.
      * lia.
      * destruct (decide (parentpos = 0%nat)); [reflexivity|].
        rewrite list_lookup_insert_ne by lia. exact Htop.
      * intros j x Hj Hx.
        assert (Hx' : (Status_value (Handler.status x)
                       <= Status_value (Handler.status top))%Z).
        { destruct (decide (pos = j)) as [<-|Hne].
          - rewrite list_lookup_insert_eq in Hx by exact Hlen.
            injection Hx as <-. exact Hpar.
          - rewrite list_lookup_insert_ne in Hx by exact Hne.
            apply (Hall j x); [congruence|exact Hx]. }
        destruct (decide (parentpos = 0%nat)) as [H0|H0]; [|exact Hx'].
        rewrite H0 in Hparent. assert (parent = top) as -> by congruence.
        lia.
      * split; [|exact Hfirst]. rewrite Hperm.
        rewrite <- (list_insert_insert_eq heap pos parent newitem).
        apply Permutation_insert_swap.
        -- apply list_lookup_insert_eq. exact Hlen.
        -- rewrite list_lookup_insert_ne by lia. exact Hparent.
    + split; [reflexivity|].
      apply (Hstop heap pos newitem top Hlen).
      * rewrite decide_False by lia. exact Htop.
      * exact Hall.
      * assert (¬ (Status_value (Handler.status parent)
                   < Status_value (Handler.status newitem))%Z); [|lia].
        intros H. apply Handler_lt_spec in H. congruence.
Qed.

(** One [heappush] with the order of [Handler] loses and duplicates
    nothing, and keeps a handler of the highest status first in the
    list when one was first before. *)
Lemma heappush_spec (heap : list Handler.t) (item : Handler.t) :
  Protocol.top_first heap ->
  heapq.heappush Handler.lt heap item ≡ₚ item :: heap
  ∧ Protocol.top_first (heapq.heappush Handler.lt heap item).
Proof.
  intros Hfirst. unfold heapq.heappush, heapq._siftdown.
  rewrite length_app. cbn [length].
  replace (length heap + 1 - 1)%nat with (length heap) by lia.
  rewrite lookup_app_r by lia. rewrite Nat.sub_diag. cbn [lookup list_lookup].
  set (top := match heap with [] => item | t :: _ => t end).
  destruct (siftdown_loop_spec (length heap) (heap ++ [item]) (length heap)
              item top) as [Hperm Htop].
  - rewrite length_app. cbn. lia.
  - lia.
  - destruct heap as [|t heap']; cbn; [reflexivity|].
    reflexivity.
  - intros j x Hj Hx.
    assert (Hin : heap !! j = Some x).
    { destruct (decide (j < length heap)%nat).
      - rewrite lookup_app_l in Hx by lia. exact Hx.
      - rewrite lookup_app_r in Hx by lia.
        destruct (j - length heap)%nat eqn:E; [lia|]. discriminate Hx. }
    destruct heap as [|t heap']; [discriminate Hin|].
    apply (Hfirst t x); [reflexivity|].
    apply list_elem_of_lookup. eauto.
  - split; [|exact Htop]. rewrite Hperm.
    rewrite list_insert_id.
    + rewrite Permutation_app_comm. reflexivity.
    + rewrite lookup_app_r by lia. rewrite Nat.sub_diag. reflexivity.
Qed.

Lemma top_first_nil : Protocol.top_first [].
Proof. intros top x H. discriminate H. Qed.

(** The pushes of a loop, one after the other, on a heap. *)
Lemma heappush_fold (items : list Handler.t) :
  ∀ heap : list Handler.t,
    Protocol.top_first heap ->
    fold_left (heapq.heappush Handler.lt) items heap ≡ₚ heap ++ items
    ∧ Protocol.top_first (fold_left (heapq.heappush Handler.lt) items heap).
Proof.
  induction items as [|item items IH]; intros heap Hfirst; cbn [fold_left].
  - rewrite app_nil_r. split; [reflexivity|exact Hfirst].
  - destruct (heappush_spec heap item Hfirst) as [Hperm Hfirst'].
    destruct (IH _ Hfirst') as [Hperm' Hfirst''].
    split; [|exact Hfirst'']. rewrite Hperm', Hperm.
    rewrite (Permutation_middle heap items item). reflexivity.
Qed.

(** X10: handlers pushed one by one on an empty heap, with the order of
    [Handler]: the heap's list holds each of them exactly once, and its
    first element has the highest status of all. *)
Theorem heappush_keeps_handlers_and_top (items : list Handler.t) :
  let heap := fold_left (heapq.heappush Handler.lt) items [] in
  heap ≡ₚ items
  ∧ (∀ top x, heap !! 0%nat = Some top -> x ∈ items ->
              (Status_value (Handler.status x)
               <= Status_value (Handler.status top))%Z).
Proof.
  destruct (heappush_fold items [] top_first_nil) as [Hperm Hfirst].
  cbn [app] in Hperm. split; [exact Hperm|].
  intros top x Htop Hx. apply (Hfirst top x Htop).
  rewrite Hperm. exact Hx.
Qed.


(** ** Registration *)

Lemma dict_get_set {K V : Type} (eqb : K -> K -> bool) (d : list (K * V))
  (k k' : K) (v : V) :
  (∀ a b, eqb a b = eqb b a) ->
  (∀ a b c, eqb a b = true -> eqb a c = eqb b c) ->
  dict_get eqb (dict_set eqb d k v) k'
  = if eqb k k' then Some v else dict_get eqb d k'.
Proof.
  intros Hsym Htrans. induction d as [|[k0 v0] d IH]; cbn.
  - destruct (eqb k k'); reflexivity.
  - destruct (eqb k0 k) eqn:E0; cbn.
    + rewrite (Htrans k0 k k' E0). destruct (eqb k k'); reflexivity.
    + destruct (eqb k0 k') eqn:E1; [|exact IH].
      destruct (eqb k k') eqn:E2; [|reflexivity].
      rewrite (Htrans k0 k' k E1), (Hsym k' k), E2 in E0. discriminate E0.
Qed.

Lemma condition_eqb_sym (a b : option If) :
  condition_eqb a b = condition_eqb b a.
Proof. destruct a, b; cbn; try reflexivity. apply Nat.eqb_sym. Qed.

Lemma condition_eqb_trans (a b c : option If) :
  condition_eqb a b = true -> condition_eqb a c = condition_eqb b c.
Proof.
  destruct a, b, c; cbn; try reflexivity; try discriminate.
  intros H. apply Nat.eqb_eq in H. rewrite H. reflexivity.
Qed.

Lemma condition_eqb_refl (a : option If) : condition_eqb a a = true.
Proof. destruct a; cbn; [apply Nat.eqb_refl|reflexivity]. Qed.

Lemma pyobj_eqb_refl (a : pyobj) : pyobj_eqb a a = true.
Proof. apply pyobj_eqb_eq. reflexivity. Qed.

Lemma pyobj_eqb_ne (a b : pyobj) : a ≠ b -> pyobj_eqb a b = false.
Proof. intros H. unfold pyobj_eqb. apply bool_decide_eq_false. exact H. Qed.

Section RegistrationFacts.

Context {W : Type}.
Variable node_classes : class_table.

Lemma modify_class_returns (cls : string) (c : ProtocolClass)
  (f : ProtocolClass -> ProtocolClass) (s : @Protocol.State W) :
  Protocol.classes s !! cls = Some c ->
  Protocol.modify_class cls f s
  = (Ok tt, Protocol.set_classes (<[cls := f c]> (Protocol.classes s)) s).
Proof.
  intros H. unfold Protocol.modify_class.
  rewrite (bind_ret _ _ _ _ _ (get_class_returns cls c s H)). reflexivity.
Qed.

(** X11: [register] either records the type under the condition, in
    place of an earlier condition for the same type and with every
    other entry, the handlers and the children untouched, or raises and
    leaves everything as it was; it raises [ValueError] for a condition
    that checks the node, [TypeError] for what is not a [Node] subclass. *)
Theorem register_stores_or_leaves (cls : string) (registered : pyobj)
  (condition : option If) (s : @Protocol.State W) (c : ProtocolClass) :
  Protocol.classes s !! cls = Some c ->
  match Protocol.register node_classes cls registered condition s with
  | (Ok o, s') =>
      o = registered
      ∧ Protocol.Node_subclass node_classes registered
      ∧ (∀ i, condition = Some i -> checks_node i = false)
      ∧ ∃ c', s' = Protocol.set_classes (<[cls := c']> (Protocol.classes s)) s
              ∧ (∀ k, dict_get pyobj_eqb (_registry c') k
                      = if pyobj_eqb registered k then Some condition
                        else dict_get pyobj_eqb (_registry c) k)
              ∧ _handlers c' = _handlers c
              ∧ _children c' = _children c
  | (Raise e, s') =>
      s' = s
      ∧ ((∃ i, condition = Some i ∧ checks_node i = true
               ∧ Protocol.Node_subclass node_classes registered
               ∧ e = ValueError
                       (Msg "cannot check node schema in protocol registry filter"))
         ∨ (¬ Protocol.Node_subclass node_classes registered
            ∧ ∃ m, e = TypeError m))
  end.
Proof.
  intros Hcls. unfold Protocol.register.
  destruct registered as [name|name i|]; cbn [Protocol.issubclass_Node].
  2,3: unfold bind, lift; split; [reflexivity|]; right;
       split; [intros (n & Hn & _); discriminate Hn|eauto].
  unfold bind at 1, lift at 1. cbv beta iota.
  destruct (is_Node (node_classes name)) eqn:Hn.
  2:{ unfold raise. split; [reflexivity|]. right. split; [|eauto].
      intros (n & Heq & Hn'). injection Heq as <-. congruence. }
  assert (Hsub : Protocol.Node_subclass node_classes (PyClass name)).
  { exists name. auto. }
  destruct condition as [i|].
  - destruct (checks_node i) eqn:Hi.
    + unfold raise. split; [reflexivity|]. left. exists i. auto.
    + rewrite (bind_ret _ _ _ _ _ (modify_class_returns cls c _ s Hcls)).
      unfold ret. repeat split; [exact Hsub|congruence|].
      eexists. split; [reflexivity|]. cbn. repeat split.
      intros k. apply dict_get_set_pyobj.
  - rewrite (bind_ret _ _ _ _ _ (modify_class_returns cls c _ s Hcls)).
    unfold ret. repeat split; [exact Hsub|discriminate|].
    eexists. split; [reflexivity|]. cbn. repeat split.
    intros k. apply dict_get_set_pyobj.
Qed.

(** What one successful [register_handler] leaves in the class. *)
Lemma register_handler_returns (cls : string) (function : callable)
  (node_cls : pyobj) (responder_cls : option pyobj) (status : Status)
  (condition : option If) (pass_protocol : bool) (s : @Protocol.State W)
  (c : ProtocolClass) :
  Protocol.classes s !! cls = Some c ->
  responder_cls ≠ Some ALL_NODES ->
  ∃ c',
    Protocol.register_handler cls function node_cls responder_cls status
      condition pass_protocol s
    = (Ok tt, Protocol.set_classes (<[cls := c']> (Protocol.classes s)) s)
    ∧ (∀ k cond,
         Protocol.stored_cases c' k cond
         = Protocol.stored_cases c k cond
           ++ (if pyobj_eqb node_cls k && condition_eqb condition cond
               then [Case.mk (Some function) responder_cls status
                       pass_protocol]
               else []))
    ∧ _registry c' = _registry c
    ∧ _children c' = _children c.
Proof.
  intros Hcls Hr. unfold Protocol.register_handler.
  rewrite bool_decide_eq_false_2 by exact Hr.
  rewrite (modify_class_returns cls c _ s Hcls).
  eexists. split; [reflexivity|]. cbn. repeat split.
  intros k cond. unfold Protocol.stored_cases. cbn.
  rewrite dict_get_set_pyobj.
  destruct (pyobj_eqb node_cls k) eqn:E; cbn.
  - apply pyobj_eqb_eq in E as <-.
    rewrite (dict_get_set condition_eqb _ _ _ _ condition_eqb_sym
               condition_eqb_trans).
    destruct (condition_eqb condition cond) eqn:E'; cbn.
    + assert (H : ∀ (d : list (option If * list Case.t)),
                 dict_get condition_eqb d condition
                 = dict_get condition_eqb d cond).
      { intros d. induction d as [|[k0 v0] d IH]; [reflexivity|]. cbn.
        rewrite (condition_eqb_sym k0 condition), (condition_eqb_sym k0 cond).
        rewrite (condition_eqb_trans condition cond k0 E'), IH.
        reflexivity. }
      rewrite H. reflexivity.
    + rewrite app_nil_r. reflexivity.
  - rewrite app_nil_r. reflexivity.
Qed.

(** X12: [register_handler] appends one descriptor, holding the
    arguments as given, to the list stored for the type and the
    condition, after the ones registered before; every other list, the
    registry and the children stay; with [ALL_NODES] as peer type it
    raises [ValueError] and stores nothing. *)
Theorem register_handler_appends (cls : string) (function : callable)
  (node_cls : pyobj) (responder_cls : option pyobj) (status : Status)
  (condition : option If) (pass_protocol : bool) (s : @Protocol.State W)
  (c : ProtocolClass) :
  Protocol.classes s !! cls = Some c ->
  match Protocol.register_handler cls function node_cls responder_cls status
          condition pass_protocol s with
  | (Ok _, s') =>
      responder_cls ≠ Some ALL_NODES
      ∧ ∃ c', s' = Protocol.set_classes (<[cls := c']> (Protocol.classes s)) s
              ∧ Protocol.stored_cases c' node_cls condition
                = Protocol.stored_cases c node_cls condition
                  ++ [Case.mk (Some function) responder_cls status
                        pass_protocol]
              ∧ (∀ k cond,
                   k ≠ node_cls ∨ condition_eqb condition cond = false ->
                   Protocol.stored_cases c' k cond
                   = Protocol.stored_cases c k cond)
              ∧ _registry c' = _registry c
              ∧ _children c' = _children c
  | (Raise e, s') =>
      responder_cls = Some ALL_NODES
      ∧ s' = s
      ∧ e = ValueError (Msg "cannot establish relation to all node types")
  end.
Proof.
  intros Hcls.
  destruct (decide (responder_cls = Some ALL_NODES)) as [Hr|Hr].
  - unfold Protocol.register_handler.
    rewrite bool_decide_eq_true_2 by exact Hr. cbn. auto.
  - destruct (register_handler_returns cls function node_cls responder_cls
                status condition pass_protocol s c Hcls Hr)
      as (c' & -> & Hstored & Hreg & Hch).
    split; [exact Hr|]. exists c'. repeat split; try assumption.
    + rewrite Hstored, pyobj_eqb_refl, condition_eqb_refl. reflexivity.
    + intros k cond Hk. rewrite Hstored.
      destruct Hk as [Hk|Hk].
      * rewrite pyobj_eqb_ne by congruence. cbn. apply app_nil_r.
      * rewrite Hk, andb_false_r. apply app_nil_r.
Qed.

(** X13: [register_bidirectional_handler] stores the function once for
    each of the two types, each time with the other type as peer; with
    the wildcard as one of the two it raises [ValueError], and when the
    wildcard is the first of them the first direction is already
    stored by then. *)
Theorem bidirectional_registers_both (cls : string) (function : callable)
  (node_cls responder_cls : pyobj) (status : Status) (condition : option If)
  (pass_protocol : bool) (s : @Protocol.State W) (c : ProtocolClass) :
  Protocol.classes s !! cls = Some c ->
  node_cls ≠ responder_cls ->
  let r := Protocol.register_bidirectional_handler cls function node_cls
             responder_cls status condition pass_protocol s in
  let towards peer :=
    Case.mk (Some function) (Some peer) status pass_protocol in
  let stored k :=
    match Protocol.classes (snd r) !! cls with
    | Some c' => Protocol.stored_cases c' k condition
    | None => []
    end in
  if decide (responder_cls = ALL_NODES) then
    r = (Raise (ValueError
                  (Msg "cannot establish relation to all node types")), s)
  else if decide (node_cls = ALL_NODES) then
    fst r = Raise (ValueError
                     (Msg "cannot establish relation to all node types"))
    ∧ stored ALL_NODES
      = Protocol.stored_cases c ALL_NODES condition ++ [towards responder_cls]
    ∧ stored responder_cls = Protocol.stored_cases c responder_cls condition
  else
    fst r = Ok tt
    ∧ stored node_cls
      = Protocol.stored_cases c node_cls condition ++ [towards responder_cls]
    ∧ stored responder_cls
      = Protocol.stored_cases c responder_cls condition ++ [towards node_cls].
Proof.
  intros Hcls Hne r towards stored. subst r stored.
  unfold Protocol.register_bidirectional_handler.
  destruct (decide (responder_cls = ALL_NODES)) as [Hr|Hr].
  - unfold bind at 1. unfold Protocol.register_handler at 1.
    rewrite bool_decide_eq_true_2 by congruence. reflexivity.
  - destruct (register_handler_returns cls function node_cls
                (Some responder_cls) status condition pass_protocol s c Hcls)
      as (c1 & Hrun1 & Hstored1 & _); [congruence|].
    rewrite (bind_ret _ _ _ _ _ Hrun1).
    set (s1 := Protocol.set_classes _ s) in *.
    assert (Hcls1 : Protocol.classes s1 !! cls = Some c1).
    { subst s1. cbn. apply lookup_insert_eq. }
    destruct (decide (node_cls = ALL_NODES)) as [Hn|Hn].
    + unfold Protocol.register_handler.
      rewrite bool_decide_eq_true_2 by congruence. cbn [fst snd raise].
      rewrite Hcls1, !Hstored1. subst node_cls.
      rewrite pyobj_eqb_refl, condition_eqb_refl.
      rewrite (pyobj_eqb_ne ALL_NODES responder_cls) by congruence.
      cbn. rewrite app_nil_r. auto.
    + destruct (register_handler_returns cls function responder_cls
                  (Some node_cls) status condition pass_protocol s1 c1 Hcls1)
        as (c2 & Hrun2 & Hstored2 & _); [congruence|].
      rewrite Hrun2. cbn [fst snd Protocol.classes Protocol.set_classes].
      rewrite lookup_insert_eq, !Hstored2, !Hstored1.
      rewrite !pyobj_eqb_refl, !condition_eqb_refl.
      rewrite (pyobj_eqb_ne node_cls responder_cls) by congruence.
      rewrite (pyobj_eqb_ne responder_cls node_cls) by congruence.
      cbn. rewrite !app_nil_r. auto.
Qed.

End RegistrationFacts.

Lemma register_stores_or_leaves_witness :
  ∃ c',
    snd (Protocol.register Scenario.node_classes "P" (PyClass "Cmd") None
           Scenario.start)
    = Protocol.set_classes (<["P" := c']> (Protocol.classes Scenario.start))
        Scenario.start
    ∧ dict_get pyobj_eqb (_registry c') (PyClass "Cmd") = Some None.
Proof.
  pose proof
    (register_stores_or_leaves Scenario.node_classes "P" (PyClass "Cmd") None
       Scenario.start
       {| _registry := []; _handlers := []; _children := ["Child"] |}
       eq_refl) as H.
  destruct (Protocol.register Scenario.node_classes "P" (PyClass "Cmd") None
              Scenario.start) as [[o|e] s'] eqn:E.
  - destruct H as (_ & _ & _ & c' & Hs & Hget & _).
    exists c'. split; [exact Hs|]. rewrite Hget. reflexivity.
  - vm_compute in E. discriminate E.
Defined.

Lemma register_handler_appends_witness :
  ∃ c',
    Protocol.classes
      (snd (Protocol.register_handler "P" (Function (Scenario.def "normal"))
              (PyClass "Cmd") None NORMAL None true Scenario.start))
    !! "P" = Some c'
    ∧ Protocol.stored_cases c' (PyClass "Cmd") None
      = [Case.mk (Some (Function (Scenario.def "normal"))) None NORMAL true].
Proof.
  pose proof
    (register_handler_appends "P" (Function (Scenario.def "normal"))
       (PyClass "Cmd") None NORMAL None true Scenario.start
       {| _registry := []; _handlers := []; _children := ["Child"] |}
       eq_refl) as H.
  destruct (Protocol.register_handler "P" (Function (Scenario.def "normal"))
              (PyClass "Cmd") None NORMAL None true Scenario.start)
    as [[o|e] s'] eqn:E.
  - destruct H as (_ & c' & Hs & Hget & _).
    exists c'. split; [|exact Hget]. rewrite Hs. reflexivity.
  - vm_compute in E. discriminate E.
Defined.

Lemma bidirectional_registers_both_witness :
  let r := Protocol.register_bidirectional_handler "P"
             (Function (Scenario.def "normal")) (PyClass "A") (PyClass "B")
             NORMAL None true Scenario.start in
  fst r = Ok tt
  ∧ (fun k => match Protocol.classes (snd r) !! "P" with
          | Some c' => Protocol.stored_cases c' k None
          | None => []
          end) (PyClass "A")
    = [Case.mk (Some (Function (Scenario.def "normal"))) (Some (PyClass "B"))
         NORMAL true]
  ∧ (fun k => match Protocol.classes (snd r) !! "P" with
          | Some c' => Protocol.stored_cases c' k None
          | None => []
          end) (PyClass "B")
    = [Case.mk (Some (Function (Scenario.def "normal"))) (Some (PyClass "A"))
         NORMAL true].
Proof.
  apply (bidirectional_registers_both "P" (Function (Scenario.def "normal"))
           (PyClass "A") (PyClass "B") NORMAL None true Scenario.start
           {| _registry := []; _handlers := []; _children := ["Child"] |}
           eq_refl).
  discriminate.
Defined.


(** ** [configure]: the interest sets *)

Section InterestFacts.

Context {W : Type}.
Variable invoke : callable -> list arg -> M W pyvalue.
Variable node_classes : class_table.

(** What [on_register] does to the interest sets, as [handle] reads
    them. *)
Lemma on_register_interest (node_cls : pyobj) (self : nat) (b : bool)
  (s : @Protocol.State W) :
  Protocol.has_on_register node_classes node_cls = true ->
  ∃ s',
    Protocol.on_register node_classes node_cls self b s = (Ok b, s')
    ∧ s' = Protocol.set_weaksets (Protocol.weaksets s') s
    ∧ (∀ c, node_cls = PyClass c ->
            Protocol.in_registry node_classes s' self c = b)
    ∧ (∀ cls, Protocol.in_registry node_classes s self cls = b ->
              Protocol.in_registry node_classes s' self cls = b)
    ∧ (∀ q cls, q ≠ self ->
                Protocol.in_registry node_classes s' q cls
                = Protocol.in_registry node_classes s q cls).
Proof.
  intros H.
  assert (∃ c0, (node_cls = PyClass c0 ∨ ∃ i, node_cls = PyInstance c0 i)
                ∧ is_Node (node_classes c0) = true) as (c0 & Hc0 & Hn).
  { destruct node_cls as [c0|c0 i|]; [| |discriminate H]; exists c0; eauto. }
  set (r := registry (node_classes c0)).
  set (old := default ∅ (Protocol.weaksets s !! r)).
  set (new := if b then old ∪ {[self]} else old ∖ {[self]}).
  exists (Protocol.set_weaksets (<[r := new]> (Protocol.weaksets s)) s).
  split; [|split; [reflexivity|]].
  { destruct Hc0 as [->|[i ->]]; cbn [Protocol.on_register]; rewrite Hn;
      reflexivity. }
  assert (Hin : ∀ q cls,
    Protocol.in_registry node_classes
      (Protocol.set_weaksets (<[r := new]> (Protocol.weaksets s)) s) q cls
    = if decide (registry (node_classes cls) = r)
      then bool_decide (q ∈ new)
      else Protocol.in_registry node_classes s q cls).
  { intros q cls. unfold Protocol.in_registry. cbn.
    destruct (decide (registry (node_classes cls) = r)) as [->|Hne].
    - rewrite lookup_insert_eq. reflexivity.
    - rewrite lookup_insert_ne by congruence. reflexivity. }
  assert (Hself : bool_decide (self ∈ new) = b).
  { subst new. destruct b.
    - apply bool_decide_eq_true, elem_of_union. right.
      apply elem_of_singleton. reflexivity.
    - apply bool_decide_eq_false. intros Hin'.
      apply elem_of_difference in Hin' as [_ Hin']. apply Hin'.
      apply elem_of_singleton. reflexivity. }
  split; [|split].
  - intros c Hc. rewrite Hin.
    assert (c = c0) as -> by (destruct Hc0 as [?|[i ?]]; congruence).
    rewrite decide_True by reflexivity. exact Hself.
  - intros cls Hcls. rewrite Hin.
    destruct (decide (registry (node_classes cls) = r)); [exact Hself|].
    exact Hcls.
  - intros q cls Hq. rewrite Hin.
    destruct (decide (registry (node_classes cls) = r)) as [Hr|]; [|reflexivity].
    unfold Protocol.in_registry. rewrite Hr. fold old.
    subst new. destruct b; apply bool_decide_ext.
    + rewrite elem_of_union, elem_of_singleton. tauto.
    + rewrite elem_of_difference, elem_of_singleton. tauto.
Qed.

(** The loop of [configure] over a registry whose conditions all
    evaluate to [b]. *)
Lemma configure_registry_uniform (b : bool) (self : nat) (p : Protocol.t)
  (items : list (pyobj * option If)) :
  Forall (fun e => Protocol.has_on_register node_classes (fst e) = true
                   ∧ Protocol.If_check (snd e) (Protocol._config p) None = b)
    items ->
  ∀ s : @Protocol.State W,
    Protocol.objects s !! self = Some p ->
    ∃ s',
      Protocol.configure_registry node_classes self items s = (Ok tt, s')
      ∧ s' = Protocol.set_weaksets (Protocol.weaksets s') s
      ∧ (∀ c cond, (PyClass c, cond) ∈ items ->
                   Protocol.in_registry node_classes s' self c = b)
      ∧ (∀ cls, Protocol.in_registry node_classes s self cls = b ->
                Protocol.in_registry node_classes s' self cls = b)
      ∧ (∀ q cls, q ≠ self ->
                  Protocol.in_registry node_classes s' q cls
                  = Protocol.in_registry node_classes s q cls).
Proof.
  induction 1 as [|[node_cls condition] rest [Hnode Hcheck] _ IH]; intros s Hp.
  - exists s. split; [reflexivity|]. split; [destruct s; reflexivity|].
    split; [|auto]. intros c cond Hin. apply elem_of_nil in Hin. destruct Hin.
  - cbn [fst snd] in *. cbn [Protocol.configure_registry].
    rewrite (bind_ret _ _ _ _ _ (get_object_returns self p s Hp)).
    rewrite Hcheck.
    assert (Hw : bool_decide (node_cls = ALL_NODES) = false).
    { apply bool_decide_eq_false. intros ->. discriminate Hnode. }
    rewrite Hw.
    destruct (on_register_interest node_cls self b s Hnode)
      as (s1 & Hrun1 & Hs1 & Hnew1 & Hkeep1 & Hoth1).
    assert (Hp1 : Protocol.objects s1 !! self = Some p).
    { rewrite Hs1. exact Hp. }
    destruct (IH s1 Hp1) as (s' & Hrun & Hs' & Hnew & Hkeep & Hoth).
    exists s'. split; [|split; [|split; [|split]]].
    + destruct b; rewrite (bind_ret _ _ _ _ _ Hrun1); exact Hrun.
    + rewrite Hs', Hs1. reflexivity.
    + intros c cond Hin. apply elem_of_cons in Hin as [Heq|Hin].
      * injection Heq as <- _. apply Hkeep, Hnew1. reflexivity.
      * exact (Hnew c cond Hin).
    + intros cls Hcls. apply Hkeep, Hkeep1, Hcls.
    + intros q cls Hq. rewrite (Hoth q cls Hq). exact (Hoth1 q cls Hq).
Qed.

(** The loop of [configure] over the child classes builds nothing for a
    class that has its instance. *)
Lemma configure_children_present
  (new : string -> option nat -> gmap string pyvalue
         -> M (@Protocol.State W) nat)
  (self : nat) (p : Protocol.t) (child_classes : list string)
  (s : @Protocol.State W) :
  Protocol.objects s !! self = Some p ->
  Forall (fun child_cls =>
            is_Some (dict_get String.eqb (Protocol.children p) child_cls))
    child_classes ->
  Protocol.configure_children new self child_classes s = (Ok tt, s).
Proof.
  intros Hp. induction 1 as [|child_cls rest [child Hchild] _ IH].
  - reflexivity.
  - cbn [Protocol.configure_children].
    rewrite (bind_ret _ _ _ _ _ (get_object_returns self p s Hp)).
    rewrite Hchild. rewrite (bind_ret (ret tt) _ s s tt eq_refl). exact IH.
Qed.

Lemma configure_with_uniform (b : bool)
  (new : string -> option nat -> gmap string pyvalue
         -> M (@Protocol.State W) nat)
  (self : nat) (config : gmap string pyvalue) (s : @Protocol.State W)
  (p : Protocol.t) (c : ProtocolClass) :
  Protocol.objects s !! self = Some p ->
  Protocol.classes s !! Protocol.type_ p = Some c ->
  Forall (fun child_cls =>
            is_Some (dict_get String.eqb (Protocol.children p) child_cls))
    (_children c) ->
  Forall (fun e => Protocol.has_on_register node_classes (fst e) = true
                   ∧ Protocol.If_check (snd e) (config ∪ Protocol._config p)
                       None = b)
    (_registry c) ->
  ∃ s',
    Protocol.configure_with node_classes new self config s = (Ok tt, s')
    ∧ s' = Protocol.set_weaksets (Protocol.weaksets s')
             (Protocol.set_objects
                (<[self := Protocol.set_registry []
                             (Protocol.set_config
                                (config ∪ Protocol._config p) p)]>
                   (Protocol.objects s)) s)
    ∧ (∀ cls cond, (PyClass cls, cond) ∈ _registry c ->
                   Protocol.in_registry node_classes s' self cls = b)
    ∧ (∀ q cls, q ≠ self ->
                Protocol.in_registry node_classes s' q cls
                = Protocol.in_registry node_classes s q cls).
Proof.
  intros Hp Hcls Hch Hreg. unfold Protocol.configure_with.
  rewrite (bind_ret _ _ _ _ _ (modify_object_returns self p _ s Hp)).
  set (p1 := Protocol.set_config (config ∪ Protocol._config p) p).
  set (s1 := Protocol.set_objects _ s).
  assert (H1 : Protocol.objects s1 !! self = Some p1).
  { subst s1. cbn. apply lookup_insert_eq. }
  rewrite (bind_ret _ _ _ _ _ (get_object_returns self p1 s1 H1)).
  rewrite (bind_ret _ _ _ _ _ (get_class_returns (Protocol.type_ p1) c s1 Hcls)).
  destruct (configure_registry_uniform b self p1 (_registry c) Hreg s1 H1)
    as (s2 & Hrun & Hs2 & Hnew & _ & Hoth).
  rewrite (bind_ret _ _ _ _ _ Hrun).
  assert (H2 : Protocol.objects s2 !! self = Some p1).
  { rewrite Hs2. exact H1. }
  rewrite (bind_ret _ _ _ _ _
             (configure_children_present new self p1 (_children c) s2 H2 Hch)).
  rewrite (modify_object_returns self p1 _ s2 H2).
  eexists. split; [reflexivity|]. split; [|split].
  - rewrite Hs2. subst s1. cbn. rewrite insert_insert_eq. reflexivity.
  - exact Hnew.
  - exact Hoth.
Qed.

(** X14: [configure] on an instance that holds its child dispatchers,
    for a registry of [Node] subclasses whose conditions all evaluate to
    [b] under the merged configuration: it returns, adds the instance to
    the interest set of every registered type when [b] is true and
    removes it when [b] is false, leaves the other dispatchers' interest
    as it was, builds no dispatcher, calls no handler, and resets the
    instance's [registry] list. *)
Theorem configure_sets_interest (b : bool) (fuel : nat) (self : nat)
  (config : gmap string pyvalue) (s : @Protocol.State W) (p : Protocol.t)
  (c : ProtocolClass) :
  Protocol.objects s !! self = Some p ->
  Protocol.classes s !! Protocol.type_ p = Some c ->
  Forall (fun child_cls =>
            is_Some (dict_get String.eqb (Protocol.children p) child_cls))
    (_children c) ->
  Forall (fun e => Protocol.has_on_register node_classes (fst e) = true
                   ∧ Protocol.If_check (snd e) (config ∪ Protocol._config p)
                       None = b)
    (_registry c) ->
  ∃ s',
    Protocol.configure node_classes fuel self config s = (Ok tt, s')
    ∧ Protocol.objects s'
      = <[self := Protocol.set_registry []
                    (Protocol.set_config (config ∪ Protocol._config p) p)]>
          (Protocol.objects s)
    ∧ Protocol.classes s' = Protocol.classes s
    ∧ Protocol.calls s' = Protocol.calls s
    ∧ (∀ cls cond, (PyClass cls, cond) ∈ _registry c ->
                   Protocol.in_registry node_classes s' self cls = b)
    ∧ (∀ q cls, q ≠ self ->
                Protocol.in_registry node_classes s' q cls
                = Protocol.in_registry node_classes s q cls).
Proof.
  intros Hp Hcls Hch Hreg.
  destruct (configure_with_uniform b (Protocol.__init__ node_classes fuel)
              self config s p c Hp Hcls Hch Hreg)
    as (s' & Hrun & Hs' & Hnew & Hoth).
  exists s'. split; [exact Hrun|].
  split; [rewrite Hs'; reflexivity|].
  split; [rewrite Hs'; reflexivity|].
  split; [rewrite Hs'; reflexivity|]. auto.
Qed.

(** X15: after a [configure] under which every condition of the
    registry fails, [handle] ignores a record of any registered type:
    it returns without calling a handler and without changing
    anything. *)
Theorem handle_after_deactivation (fuel : nat) (self : nat)
  (config : gmap string pyvalue) (s : @Protocol.State W) (p : Protocol.t)
  (c : ProtocolClass) (node : Node.t) (cond : option If) :
  Protocol.objects s !! self = Some p ->
  Protocol.classes s !! Protocol.type_ p = Some c ->
  Protocol._aborted p = Some false ->
  Forall (fun child_cls =>
            is_Some (dict_get String.eqb (Protocol.children p) child_cls))
    (_children c) ->
  Forall (fun e => Protocol.has_on_register node_classes (fst e) = true
                   ∧ Protocol.If_check (snd e) (config ∪ Protocol._config p)
                       None = false)
    (_registry c) ->
  (PyClass (Node.type_ node), cond) ∈ _registry c ->
  ∃ s',
    Protocol.configure node_classes fuel self config s = (Ok tt, s')
    ∧ Protocol.handle invoke node_classes self node s' = (Ok tt, s').
Proof.
  intros Hp Hcls Ha Hch Hreg Hin.
  destruct (configure_with_uniform false (Protocol.__init__ node_classes fuel)
              self config s p c Hp Hcls Hch Hreg)
    as (s' & Hrun & Hs' & Hnew & _).
  exists s'. split; [exact Hrun|].
  unfold Protocol.handle.
  assert (Hp' : Protocol.objects s' !! self
                = Some (Protocol.set_registry []
                          (Protocol.set_config
                             (config ∪ Protocol._config p) p))).
  { rewrite Hs'. cbn. apply lookup_insert_eq. }
  rewrite (bind_ret _ _ _ _ _ (get_object_returns self _ s' Hp')).
  cbn [Protocol._aborted Protocol.set_registry Protocol.set_config].
  rewrite Ha. rewrite (bind_ret get _ s' s' s' eq_refl).
  rewrite (Hnew _ _ Hin). reflexivity.
Qed.

End InterestFacts.


(** ** Dispatch: the handlers that are called *)

(** The loop over the dicts of one condition, when each of them yields
    a handler: the handlers are pushed in the order of the dicts. *)
Lemma handle_cases_pushes (self_children : list (string * nat))
  (cases : list Case.t) :
  Forall (fun case =>
            ∃ h, fst (Protocol.handle_case self_children case) = Ok h)
    cases ->
  ∀ handlers : list Handler.t,
    Protocol.handle_cases self_children cases handlers
    = (Ok (fold_left (heapq.heappush Handler.lt)
             (Protocol.handlers_of self_children cases) handlers),
       map (fun case => snd (Protocol.handle_case self_children case)) cases).
Proof.
  induction 1 as [|case rest [h Hh] _ IH]; intros handlers; [reflexivity|].
  cbn [Protocol.handle_cases]. unfold Protocol.handlers_of.
  cbn [omap list_omap map]. fold (Protocol.handlers_of self_children rest).
  rewrite Hh. revert Hh. unfold Protocol.handle_case.
  destruct (Case.function case) as [function|]; [|discriminate].
  cbv zeta.
  destruct function as [f|child_cls|q].
  - cbn. intros [= <-]. rewrite IH. reflexivity.
  - destruct (dict_get String.eqb self_children child_cls) as [child|];
      [|discriminate].
    cbn. intros [= <-]. rewrite IH. reflexivity.
  - cbn. intros [= <-]. rewrite IH. reflexivity.
Qed.

Lemma handlers_of_app (self_children : list (string * nat))
  (a b : list Case.t) :
  Protocol.handlers_of self_children (a ++ b)
  = Protocol.handlers_of self_children a
    ++ Protocol.handlers_of self_children b.
Proof. unfold Protocol.handlers_of. apply omap_app. Qed.

(** The loop over the conditions, likewise. *)
Lemma handle_groups_pushes (p : Protocol.t) (node : Node.t)
  (groups : list (option If * list Case.t)) :
  Forall (fun case =>
            ∃ h, fst (Protocol.handle_case (Protocol.children p) case) = Ok h)
    (Protocol.passing_cases p node groups) ->
  ∀ handlers : list Handler.t,
    fst (Protocol.handle_groups p node groups handlers)
    = Ok (fold_left (heapq.heappush Handler.lt)
            (Protocol.handlers_of (Protocol.children p)
               (Protocol.passing_cases p node groups)) handlers).
Proof.
  induction groups as [|[condition cases] rest IH]; intros Hall handlers;
    [reflexivity|].
  cbn [Protocol.handle_groups]. unfold Protocol.passing_cases in *.
  cbn [List.filter fst] in *.
  destruct (Protocol.If_check condition (Protocol._config p) (Some node)).
  - cbn [map concat snd] in *. apply Forall_app in Hall as [Hcases Hrest].
    rewrite (handle_cases_pushes _ _ Hcases).
    rewrite handlers_of_app, fold_left_app.
    specialize (IH Hrest (fold_left (heapq.heappush Handler.lt)
                            (Protocol.handlers_of (Protocol.children p) cases)
                            handlers)).
    destruct (Protocol.handle_groups p node rest _). exact IH.
  - specialize (IH Hall handlers).
    destruct (Protocol.handle_groups p node rest handlers). exact IH.
Qed.

Section DispatchFacts.

Context {W : Type}.
Variable invoke : callable -> list arg -> M W pyvalue.
Variable node_classes : class_table.

(** One of the two passes of [handle] over the handler table. *)
Lemma handle_key_pushes (self : nat) (p : Protocol.t) (c : ProtocolClass)
  (node : Node.t) (key : pyobj) (handlers : list Handler.t)
  (s : @Protocol.State W) :
  Protocol.objects s !! self = Some p ->
  Protocol.classes s !! Protocol.type_ p = Some c ->
  let cases :=
    Protocol.passing_cases p node
      (default [] (dict_get pyobj_eqb (_handlers c) key)) in
  Forall (fun case =>
            ∃ h, fst (Protocol.handle_case (Protocol.children p) case) = Ok h)
    cases ->
  ∃ s' c',
    Protocol.handle_key self node key handlers s
    = (Ok (fold_left (heapq.heappush Handler.lt)
             (Protocol.handlers_of (Protocol.children p) cases) handlers), s')
    ∧ Protocol.objects s' = Protocol.objects s
    ∧ Protocol.calls s' = Protocol.calls s
    ∧ Protocol.weaksets s' = Protocol.weaksets s
    ∧ Protocol.classes s' !! Protocol.type_ p = Some c'
    ∧ ∀ k, k ≠ key ->
           dict_get pyobj_eqb (_handlers c') k
           = dict_get pyobj_eqb (_handlers c) k.
Proof.
  intros Hp Hc cases Hall. subst cases.
  destruct (dict_get pyobj_eqb (_handlers c) key) as [groups|] eqn:Hg.
  - rewrite (handle_key_writes_back self p c node key groups handlers s Hp Hc
               Hg).
    cbn [default] in *. rewrite (handle_groups_pushes p node groups Hall).
    eexists _, _. split; [reflexivity|]. cbn.
    rewrite lookup_insert_eq. repeat split.
    intros k Hk. cbn. rewrite dict_get_set_pyobj.
    unfold pyobj_eqb. rewrite bool_decide_eq_false_2 by congruence.
    reflexivity.
  - exists s, c. unfold Protocol.handle_key.
    rewrite (bind_ret _ _ _ _ _ (get_object_returns self p s Hp)).
    rewrite (bind_ret _ _ _ _ _ (get_class_returns _ c s Hc)).
    rewrite Hg. cbn. repeat split. exact Hc.
Qed.

(** X16: [handle], for a record whose type the dispatcher takes, when
    the handler functions raise nothing but [Exception]s: every
    descriptor stored for the record's type or for the wildcard under a
    condition that holds yields one handler; [handle] returns, and the
    calls it has made are exactly these handlers, each once, starting
    with one of the highest status. *)
Theorem handle_calls_every_matching_handler (self : nat) (p : Protocol.t)
  (c : ProtocolClass) (node : Node.t) (s : @Protocol.State W) :
  Protocol.objects s !! self = Some p ->
  Protocol._aborted p = Some false ->
  Protocol.classes s !! Protocol.type_ p = Some c ->
  Protocol.in_registry node_classes s self (Node.type_ node) = true ->
  (∀ f a w e, fst (invoke f a w) = Raise e -> isinstance_Exception e = true) ->
  let matching :=
    Protocol.passing_cases p node
      (default [] (dict_get pyobj_eqb (_handlers c)
                     (PyClass (Node.type_ node))))
    ++ Protocol.passing_cases p node
         (default [] (dict_get pyobj_eqb (_handlers c) ALL_NODES)) in
  Forall (fun case =>
            ∃ h, fst (Protocol.handle_case (Protocol.children p) case) = Ok h)
    matching ->
  ∃ heap s',
    Protocol.handle invoke node_classes self node s = (Ok tt, s')
    ∧ heap ≡ₚ Protocol.handlers_of (Protocol.children p) matching
    ∧ Protocol.top_first heap
    ∧ map fst (Protocol.calls s')
      = map fst (Protocol.calls s) ++ map Handler.function heap.
Proof.
  intros Hp Ha Hc Hin Hexc matching Hall. subst matching.
  apply Forall_app in Hall as [Hall1 Hall2].
  unfold Protocol.handle.
  rewrite (bind_ret _ _ _ _ _ (get_object_returns self p s Hp)).
  rewrite Ha. rewrite (bind_ret get _ s s s eq_refl). rewrite Hin.
  cbn [negb].
  destruct (handle_key_pushes self p c node (PyClass (Node.type_ node)) [] s
              Hp Hc Hall1)
    as (s1 & c1 & Hrun1 & Ho1 & Hcalls1 & _ & Hc1 & Hsame).
  rewrite (bind_ret _ _ _ _ _ Hrun1).
  set (h1 := fold_left (heapq.heappush Handler.lt) _ []).
  assert (Hp1 : Protocol.objects s1 !! self = Some p) by (rewrite Ho1; exact Hp).
  assert (Hall2' :
    Forall (fun case =>
              ∃ h, fst (Protocol.handle_case (Protocol.children p) case)
                   = Ok h)
      (Protocol.passing_cases p node
         (default [] (dict_get pyobj_eqb (_handlers c1) ALL_NODES)))).
  { rewrite Hsame by discriminate. exact Hall2. }
  destruct (handle_key_pushes self p c1 node ALL_NODES h1 s1 Hp1 Hc1 Hall2')
    as (s2 & c2 & Hrun2 & Ho2 & Hcalls2 & _).
  rewrite (bind_ret _ _ _ _ _ Hrun2).
  rewrite (Hsame ALL_NODES) by discriminate.
  subst h1. rewrite <- fold_left_app, <- handlers_of_app.
  set (matching := _ ++ _).
  destruct (heappush_fold
              (Protocol.handlers_of (Protocol.children p) matching) []
              top_first_nil) as [Hperm Hfirst].
  set (heap := fold_left (heapq.heappush Handler.lt)
                 (Protocol.handlers_of (Protocol.children p) matching) [])
    in *.
  assert (Hp2 : Protocol.objects s2 !! self = Some p)
    by (rewrite Ho2; exact Hp1).
  destruct (call_handlers_all_called invoke self p node heap Hexc VNone s2 Hp2)
    as (s' & Hrun & Hcalls).
  exists heap, s'. split; [exact Hrun|]. split; [exact Hperm|].
  split; [exact Hfirst|]. rewrite Hcalls, Hcalls2, Hcalls1. reflexivity.
Qed.

End DispatchFacts.


Lemma configure_sets_interest_witness :
  ∃ s',
    Protocol.configure Scenario.node_classes 2 0 {[ "mode" := VStr "off" ]}
      Scenario.guarded = (Ok tt, s')
    ∧ Protocol.in_registry Scenario.node_classes Scenario.guarded 0 "Cmd"
      = true
    ∧ Protocol.in_registry Scenario.node_classes s' 0 "Cmd" = false.
Proof.
  destruct
    (configure_sets_interest Scenario.node_classes false 2 0
       {[ "mode" := VStr "off" ]} Scenario.guarded
       (Protocol.mk "P" None {[ "mode" := VStr "on" ]} [("Child", 1%nat)] []
          (Some false))
       {| _registry := [(PyClass "Cmd", Some Scenario.when_on)];
          _handlers :=
            [(PyClass "Cmd",
              [(None, [Case.mk (Some (Function (Scenario.def "normal"))) None
                         NORMAL true])]);
             (ALL_NODES,
              [(None, [Case.mk (Some (Function (Scenario.def "urgent"))) None
                         URGENT true])])];
          _children := ["Child"] |})
    as (s' & Hrun & _ & _ & _ & Hnew & _).
  - vm_compute. reflexivity.
  - vm_compute. reflexivity.
  - repeat constructor. eexists. reflexivity.
  - repeat constructor.
  - exists s'. split; [exact Hrun|]. split; [vm_compute; reflexivity|].
    apply (Hnew "Cmd" (Some Scenario.when_on)). constructor.
Defined.

Lemma handle_after_deactivation_witness :
  ∃ s',
    Protocol.configure Scenario.node_classes 2 0 {[ "mode" := VStr "off" ]}
      Scenario.guarded = (Ok tt, s')
    ∧ Protocol.handle Scenario.invoke Scenario.node_classes 0 Scenario.Cmd s'
      = (Ok tt, s').
Proof.
  apply
    (handle_after_deactivation Scenario.invoke Scenario.node_classes 2 0
       {[ "mode" := VStr "off" ]} Scenario.guarded
       (Protocol.mk "P" None {[ "mode" := VStr "on" ]} [("Child", 1%nat)] []
          (Some false))
       {| _registry := [(PyClass "Cmd", Some Scenario.when_on)];
          _handlers :=
            [(PyClass "Cmd",
              [(None, [Case.mk (Some (Function (Scenario.def "normal"))) None
                         NORMAL true])]);
             (ALL_NODES,
              [(None, [Case.mk (Some (Function (Scenario.def "urgent"))) None
                         URGENT true])])];
          _children := ["Child"] |}
       Scenario.Cmd (Some Scenario.when_on)).
  - vm_compute. reflexivity.
  - vm_compute. reflexivity.
  - reflexivity.
  - repeat constructor. eexists. reflexivity.
  - repeat constructor.
  - constructor.
Defined.

Lemma handle_calls_every_matching_handler_witness :
  ∃ heap s',
    Protocol.handle Scenario.invoke Scenario.node_classes 0 Scenario.Cmd
      Scenario.guarded = (Ok tt, s')
    ∧ heap ≡ₚ [Handler.mk (Function (Scenario.def "normal")) None NORMAL true;
               Handler.mk (Function (Scenario.def "urgent")) None URGENT true]
    ∧ Protocol.top_first heap
    ∧ map fst (Protocol.calls s')
      = map fst (Protocol.calls Scenario.guarded)
        ++ map Handler.function heap.
Proof.
  apply
    (handle_calls_every_matching_handler Scenario.invoke Scenario.node_classes
       0
       (Protocol.mk "P" None {[ "mode" := VStr "on" ]} [("Child", 1%nat)] []
          (Some false))
       {| _registry := [(PyClass "Cmd", Some Scenario.when_on)];
          _handlers :=
            [(PyClass "Cmd",
              [(None, [Case.mk (Some (Function (Scenario.def "normal"))) None
                         NORMAL true])]);
             (ALL_NODES,
              [(None, [Case.mk (Some (Function (Scenario.def "urgent"))) None
                         URGENT true])])];
          _children := ["Child"] |}
       Scenario.Cmd Scenario.guarded).
  - vm_compute. reflexivity.
  - reflexivity.
  - vm_compute. reflexivity.
  - vm_compute. reflexivity.
  - intros f a w e. destruct f as [pf|cls|q]; cbn; [|discriminate..].
    destruct (String.eqb (__name__ pf) "faulty"); cbn; [|discriminate].
    intros [= <-]. reflexivity.
  - repeat constructor; eexists; reflexivity.
Defined.


(** ** The handler chain: results and interrupts *)

Section ChainMore.

Context {W : Type}.
Variable invoke : callable -> list arg -> M W pyvalue.

(** Whatever a call does, it is recorded once, with its arguments. *)
Lemma call_handler_recorded (self : nat) (value : pyvalue)
  (handler : Handler.t) (node : Node.t) (s : Protocol.State) :
  Protocol.calls (snd (Protocol.call_handler invoke self value handler node s))
  = Protocol.calls s
    ++ [(Handler.function handler, Handler.args handler value self node)].
Proof.
  unfold Protocol.call_handler. rewrite call_eq.
  destruct (Handler.call invoke handler value self node (Protocol.world s))
    as [[v|e] w']; cbn [fst snd]; [reflexivity|].
  destruct (isinstance_Exception e); [|reflexivity].
  unfold Protocol.on_error, Protocol.get_object. run.
  destruct (Protocol.objects s !! self); reflexivity.
Qed.

(** X17: the value a handler returns is the accumulator of the rest of
    the chain, whether that handler is a reducer or not: the next
    handler is called with it as its last argument when it is a
    reducer, and without it otherwise. *)
Theorem result_becomes_accumulator (self : nat) (node : Node.t)
  (value v : pyvalue) (handler next : Handler.t) (rest : list Handler.t)
  (s : Protocol.State) (w' : W) :
  Handler.call invoke handler value self node (Protocol.world s)
  = (Ok v, w') ->
  let s' :=
    Protocol.set_world w'
      (Protocol.set_calls
         (Protocol.calls s
          ++ [(Handler.function handler,
               Handler.args handler value self node)]) s) in
  Protocol.call_handlers_from invoke self node value
    (handler :: next :: rest) s
  = Protocol.call_handlers_from invoke self node v (next :: rest) s'
  ∧ Protocol.calls
      (snd (Protocol.call_handler invoke self v next node s'))
    = Protocol.calls s'
      ++ [(Handler.function next, Handler.args next v self node)]
  ∧ (ArgValue v ∈ Handler.args next v self node
     ↔ truthy (Handler.is_reducer next) = true).
Proof.
  intros Hcall s'. split; [|split].
  - cbn [Protocol.call_handlers_from]. unfold bind at 1.
    unfold Protocol.call_handler at 1. rewrite call_eq, Hcall. reflexivity.
  - apply call_handler_recorded.
  - rewrite elem_of_args. split.
    + intros [[H _]|[H|[[H _]|[_ H]]]]; try discriminate H. exact H.
    + intros H. right. right. right. split; [reflexivity|exact H].
Qed.

(** X18: an exception that is no [Exception] ([KeyboardInterrupt],
    [SystemExit]) is not caught: it leaves [call_handlers] at once,
    nothing is reported, and the remaining handlers are not called. *)
Theorem interrupt_leaves_the_chain (self : nat) (node : Node.t)
  (value : pyvalue) (handler : Handler.t) (rest : list Handler.t)
  (s : Protocol.State) (e : exn) (w' : W) :
  Handler.call invoke handler value self node (Protocol.world s)
  = (Raise e, w') ->
  isinstance_Exception e = false ->
  Protocol.call_handlers_from invoke self node value (handler :: rest) s
  = (Raise e,
     Protocol.set_world w'
       (Protocol.set_calls
          (Protocol.calls s
           ++ [(Handler.function handler,
                Handler.args handler value self node)]) s)).
Proof.
  intros Hcall He. cbn [Protocol.call_handlers_from]. unfold bind at 1.
  unfold Protocol.call_handler. rewrite call_eq, Hcall. cbn [fst snd].
  rewrite He. reflexivity.
Qed.

End ChainMore.

Lemma result_becomes_accumulator_witness :
  Protocol.call_handlers_from Scenario.invoke 0 Scenario.Cmd VNone
    Scenario.chain Scenario.running
  = Protocol.call_handlers_from Scenario.invoke 0 Scenario.Cmd (VStr "first")
      (tl Scenario.chain)
      (Protocol.set_world ["first"]
         (Protocol.set_calls
            [(Function (is_reducer (Scenario.def "first")),
              [ArgProtocol 0; ArgNode Scenario.Cmd; ArgValue VNone])]
            Scenario.running)).
Proof.
  apply (result_becomes_accumulator Scenario.invoke 0 Scenario.Cmd VNone
           (VStr "first")
           (Handler.mk (Function (is_reducer (Scenario.def "first"))) None
              NORMAL true)
           (Handler.mk (Function (Scenario.def "faulty")) None NORMAL true)
           [Handler.mk (Function (is_reducer (Scenario.def "last"))) None
              NORMAL true]
           Scenario.running ["first"]).
  reflexivity.
Defined.

Lemma interrupt_leaves_the_chain_witness :
  Protocol.call_handlers_from Scenario.invoke_interrupted 0 Scenario.Cmd VNone
    [Handler.mk (Function (Scenario.def "interrupted")) None NORMAL true;
     Handler.mk (Function (Scenario.def "normal")) None NORMAL true]
    Scenario.running
  = (Raise KeyboardInterrupt,
     Protocol.set_world ["interrupted"]
       (Protocol.set_calls
          [(Function (Scenario.def "interrupted"),
            [ArgProtocol 0; ArgNode Scenario.Cmd])]
          Scenario.running)).
Proof.
  apply (interrupt_leaves_the_chain Scenario.invoke_interrupted 0 Scenario.Cmd
           VNone
           (Handler.mk (Function (Scenario.def "interrupted")) None NORMAL
              true)
           [Handler.mk (Function (Scenario.def "normal")) None NORMAL true]
           Scenario.running KeyboardInterrupt ["interrupted"]);
    reflexivity.
Defined.

(** ** Dispatch: a dispatcher type that is no child *)

(** X19: a stored descriptor whose function is a dispatcher type
    without an instance among the children: the pass over the handler
    table raises [KeyError] for the type, and the table keeps the
    descriptor with its [function] entry popped; every later pass over
    it raises [KeyError] for ['function'], whatever children the
    dispatcher has by then. *)
Theorem missing_child_breaks_descriptor {W : Type} (self : nat)
  (p : Protocol.t) (c : ProtocolClass) (node : Node.t) (key : pyobj)
  (condition : option If) (case : Case.t) (rest : list Case.t)
  (more : list (option If * list Case.t)) (handlers : list Handler.t)
  (s : @Protocol.State W) (child_cls : string) :
  Protocol.objects s !! self = Some p ->
  Protocol.classes s !! Protocol.type_ p = Some c ->
  dict_get pyobj_eqb (_handlers c) key
  = Some ((condition, case :: rest) :: more) ->
  Protocol.If_check condition (Protocol._config p) (Some node) = true ->
  Case.function case = Some (ProtocolType child_cls) ->
  dict_get String.eqb (Protocol.children p) child_cls = None ->
  let broken := (condition, Case.set_function None case :: rest) :: more in
  Protocol.handle_key self node key handlers s
  = (Raise (KeyError (Msg child_cls)),
     Protocol.set_classes
       (<[Protocol.type_ p :=
            set__handlers (dict_set pyobj_eqb (_handlers c) key broken) c]>
          (Protocol.classes s)) s)
  ∧ ∀ (p' : Protocol.t) (handlers' : list Handler.t),
      Protocol.If_check condition (Protocol._config p') (Some node) = true ->
      Protocol.handle_groups p' node broken handlers'
      = (Raise (KeyError (Msg "function")), broken).
Proof.
  intros Hp Hc Hg Hcheck Hf Hchild broken. split.
  - rewrite (handle_key_writes_back self p c node key _ handlers s Hp Hc Hg).
    rewrite (handle_groups_passing p node condition _ more handlers Hcheck).
    cbn [Protocol.handle_cases]. rewrite Hf. cbv zeta. rewrite Hchild.
    reflexivity.
  - intros p' handlers' Hcheck'. subst broken.
    rewrite (handle_groups_passing p' node condition _ more handlers' Hcheck').
    reflexivity.
Qed.

Lemma missing_child_breaks_descriptor_witness :
  fst (Protocol.handle_key 0 Scenario.Cmd (PyClass "Cmd") [] Scenario.stranger)
  = Raise (KeyError (Msg "Stranger")).
Proof.
  assert (H := missing_child_breaks_descriptor 0
    (Protocol.mk "P" None ∅ [("Child", 1%nat)] [] (Some false))
    {| _registry := [(PyClass "Cmd", None)];
       _handlers :=
         [(PyClass "Cmd",
           [(None, [Case.mk (Some (ProtocolType "Stranger")) None NORMAL
                      true])])];
       _children := ["Child"] |}
    Scenario.Cmd (PyClass "Cmd") None
    (Case.mk (Some (ProtocolType "Stranger")) None NORMAL true) [] [] []
    Scenario.stranger "Stranger").
  destruct H as [H _];
    [vm_compute; reflexivity | vm_compute; reflexivity | reflexivity
    | reflexivity | reflexivity | reflexivity |].
  rewrite H. reflexivity.
Defined.

(** ** [submit] *)

(** X20: [submit] delivers nothing: the record is handed from parent
    to parent and the call ends in an exception, [NotImplementedError]
    at a dispatcher without a parent, with the state as it was;
    [submit_all] stops at its first record. *)
Theorem submit_always_raises {W : Type} (fuel : nat) (self : nat)
  (node : Node.t) (s : @Protocol.State W) :
  ∃ e,
    Protocol.submit fuel self node s = (Raise e, s)
    ∧ (e = NotImplementedError (Msg "") ∨ e = RecursionError
       ∨ e = OtherException "ReferenceError")
    ∧ (∀ p, fuel ≠ 0%nat -> Protocol.objects s !! self = Some p ->
            Protocol.protocol p = None -> e = NotImplementedError (Msg ""))
    ∧ ∀ rest, Protocol.submit_all fuel self (node :: rest) s = (Raise e, s).
Proof.
  assert (H : ∃ e,
    Protocol.submit fuel self node s = (Raise e, s)
    ∧ (e = NotImplementedError (Msg "") ∨ e = RecursionError
       ∨ e = OtherException "ReferenceError")
    ∧ (∀ p, fuel ≠ 0%nat -> Protocol.objects s !! self = Some p ->
            Protocol.protocol p = None -> e = NotImplementedError (Msg ""))).
  { revert self. induction fuel as [|fuel IH]; intros self.
    - exists RecursionError. split; [reflexivity|]. split; [auto|].
      intros p Hf. destruct Hf. reflexivity.
    - cbn [Protocol.submit]. unfold bind at 1. unfold Protocol.get_object.
      unfold bind, get, ret, raise.
      destruct (Protocol.objects s !! self) as [p|] eqn:Hp.
      + destruct (Protocol.protocol p) as [parent|] eqn:Hparent.
        * destruct (IH parent) as (e & Hrun & He & _).
          exists e. split; [exact Hrun|]. split; [exact He|].
          intros p' _ [= <-] Hn. congruence.
        * exists (NotImplementedError (Msg "")). auto.
      + exists (OtherException "ReferenceError").
        split; [reflexivity|]. split; [auto|]. intros p' _ Hp'.
        discriminate Hp'. }
  destruct H as (e & Hrun & He & Hroot). exists e.
  split; [exact Hrun|]. split; [exact He|]. split; [exact Hroot|].
  intros rest. cbn [Protocol.submit_all]. unfold bind. rewrite Hrun.
  reflexivity.
Qed.


(** ** Guards on the configuration *)

(** X21: a type registered under [If.configured(...)] alone: after
    [configure] the dispatcher takes the type exactly when every key of
    the guard, read from the merged configuration ([None] for a key
    that is not set), satisfies its condition; such a guard never
    checks the node, so [register] accepts it. *)
Theorem configured_guard_decides_interest {W : Type}
  (node_classes : class_table) (fuel : nat) (self : nat)
  (config : gmap string pyvalue) (s : @Protocol.State W) (p : Protocol.t)
  (c : ProtocolClass) (cls : string) (id : nat)
  (conditions : list (string * expected)) :
  Protocol.objects s !! self = Some p ->
  Protocol.classes s !! Protocol.type_ p = Some c ->
  Forall (fun child_cls =>
            is_Some (dict_get String.eqb (Protocol.children p) child_cls))
    (_children c) ->
  _registry c = [(PyClass cls, Some (If_configured id conditions))] ->
  is_Node (node_classes cls) = true ->
  checks_node (If_configured id conditions) = false
  ∧ ∃ s',
      Protocol.configure node_classes fuel self config s = (Ok tt, s')
      ∧ Protocol.in_registry node_classes s' self cls
        = forallb
            (fun item : string * expected =>
               _if_check
                 (default VNone ((config ∪ Protocol._config p) !! fst item))
                 (snd item))
            conditions.
Proof.
  intros Hp Hcls Hch Hreg Hn. split; [reflexivity|].
  destruct (configure_with_uniform node_classes
              (forallb
                 (fun item : string * expected =>
                    _if_check
                      (default VNone
                         ((config ∪ Protocol._config p) !! fst item))
                      (snd item))
                 conditions)
              (Protocol.__init__ node_classes fuel) self config s p c Hp Hcls
              Hch)
    as (s' & Hrun & _ & Hnew & _).
  { rewrite Hreg. repeat constructor. exact Hn. }
  exists s'. split; [exact Hrun|].
  apply (Hnew cls (Some (If_configured id conditions))).
  rewrite Hreg. constructor.
Qed.

Lemma configured_guard_decides_interest_witness :
  ∃ s',
    Protocol.configure Scenario.node_classes 2 0 {[ "mode" := VStr "off" ]}
      Scenario.guarded = (Ok tt, s')
    ∧ Protocol.in_registry Scenario.node_classes s' 0 "Cmd"
      = forallb
          (fun item : string * expected =>
             _if_check
               (default VNone
                  ((({[ "mode" := VStr "off" ]} : gmap string pyvalue)
                    ∪ {[ "mode" := VStr "on" ]}) !! fst item))
               (snd item))
          [("mode", Literal (VStr "on"))].
Proof.
  refine
    (proj2 (configured_guard_decides_interest Scenario.node_classes 2 0
       {[ "mode" := VStr "off" ]} Scenario.guarded
       (Protocol.mk "P" None {[ "mode" := VStr "on" ]} [("Child", 1%nat)] []
          (Some false))
       {| _registry := [(PyClass "Cmd", Some Scenario.when_on)];
          _handlers :=
            [(PyClass "Cmd",
              [(None, [Case.mk (Some (Function (Scenario.def "normal"))) None
                         NORMAL true])]);
             (ALL_NODES,
              [(None, [Case.mk (Some (Function (Scenario.def "urgent"))) None
                         URGENT true])])];
          _children := ["Child"] |}
       "Cmd" 2 [("mode", Literal (VStr "on"))] _ _ _ _ _)).
  - vm_compute. reflexivity.
  - vm_compute. reflexivity.
  - repeat constructor. eexists. reflexivity.
  - reflexivity.
  - reflexivity.
Defined.


(** ** The constructor: child dispatchers *)


Section ChildrenFacts.

Context {W : Type}.
Variable node_classes : class_table.






End ChildrenFacts.



Section ReconfigureFacts.

Context {W : Type}.
Variable node_classes : class_table.


(** X24: a condition built with [&] or [|] never counts as checking the
    node: [register] stores it for a [Node] subclass even when an
    operand is one that [register] refuses on its own. *)
Theorem combined_guard_passes_register (cls : string) (registered : pyobj)
  (id : nat) (a b : If) (s : @Protocol.State W) (c : ProtocolClass) :
  Protocol.classes s !! cls = Some c ->
  Protocol.Node_subclass node_classes registered ->
  checks_node a = true ->
  Protocol.register node_classes cls registered (Some a) s
  = (Raise (ValueError
              (Msg "cannot check node schema in protocol registry filter")), s)
  ∧ (∀ guard, guard = If_and id a b ∨ guard = If_or id a b ->
       Protocol.register node_classes cls registered (Some guard) s
       = (Ok registered,
          Protocol.set_classes
            (<[cls := set__registry
                        (dict_set pyobj_eqb (_registry c) registered
                           (Some guard)) c]>
               (Protocol.classes s)) s)).
Proof.
  intros Hcls Hsub Ha. split.
  - destruct Hsub as (name & -> & Hn). unfold Protocol.register.
    cbn [Protocol.issubclass_Node]. unfold bind, lift. rewrite Hn, Ha.
    reflexivity.
  - intros guard [->| ->];
      apply (register_Node_subclass node_classes cls c registered _ s Hsub);
      [reflexivity|exact Hcls|reflexivity|exact Hcls].
Qed.

End ReconfigureFacts.


Lemma combined_guard_passes_register_witness :
  fst (Protocol.register Scenario.node_classes "P" (PyClass "Cmd")
         (Some (If_and 4
                  {| If_id := 3;
                     _check := fun _ node => bool_decide (is_Some node);
                     checks_node := true |}
                  Scenario.when_on))
         Scenario.start)
  = Ok (PyClass "Cmd").
Proof.
  destruct
    (combined_guard_passes_register Scenario.node_classes "P" (PyClass "Cmd")
       4
       {| If_id := 3;
          _check := fun _ node => bool_decide (is_Some node);
          checks_node := true |}
       Scenario.when_on Scenario.start
       {| _registry := []; _handlers := []; _children := ["Child"] |})
    as [_ H].
  - reflexivity.
  - exists "Cmd". split; reflexivity.
  - reflexivity.
  - rewrite (H _ (or_introl eq_refl)). reflexivity.
Defined.


(** ** Class creation: the decorated methods *)

Section ClassFacts.

Context {W : Type}.

(** The descriptors that the decorations of one function contribute to
    the list stored for a type and a condition. *)
Lemma register_relations_appends (cls : string) (function : decorated)
  (relations : list Relation.t) :
  Forall (fun r => Relation.responder_cls r ≠ Some ALL_NODES) relations ->
  ∀ (s : @Protocol.State W) (c : ProtocolClass),
    Protocol.classes s !! cls = Some c ->
    ∃ c',
      Protocol.register_relations cls function relations s
      = (Ok tt, Protocol.set_classes (<[cls := c']> (Protocol.classes s)) s)
      ∧ (∀ k cond,
           Protocol.stored_cases c' k cond
           = Protocol.stored_cases c k cond
             ++ map (fun r =>
                       Case.mk (Some (Function (def_ function)))
                         (Relation.responder_cls r) (Relation.status r)
                         (Relation.pass_protocol r))
                  (List.filter
                     (fun r => pyobj_eqb (Relation.node_cls r) k
                               && condition_eqb (Relation.condition r) cond)
                     relations))
      ∧ _registry c' = _registry c
      ∧ _children c' = _children c.
Proof.
  induction 1 as [|r rest Hr _ IH]; intros s c Hcls.
  - exists c. split; [|split; [|split; reflexivity]].
    + cbn. unfold ret. rewrite insert_id by exact Hcls.
      destruct s; reflexivity.
    + intros k cond. cbn. rewrite app_nil_r. reflexivity.
  - cbn [Protocol.register_relations].
    destruct (register_handler_returns cls (Function (def_ function))
                (Relation.node_cls r) (Relation.responder_cls r)
                (Relation.status r) (Relation.condition r)
                (Relation.pass_protocol r) s c Hcls Hr)
      as (c1 & Hrun1 & Hstored1 & Hreg1 & Hch1).
    rewrite (bind_ret _ _ _ _ _ Hrun1).
    set (s1 := Protocol.set_classes _ s).
    assert (Hcls1 : Protocol.classes s1 !! cls = Some c1).
    { subst s1. cbn. apply lookup_insert_eq. }
    destruct (IH s1 c1 Hcls1) as (c' & Hrun & Hstored & Hreg & Hch).
    exists c'. split; [|split; [|split; congruence]].
    + rewrite Hrun. subst s1. cbn. rewrite insert_insert_eq. reflexivity.
    + intros k cond. rewrite Hstored, Hstored1. cbn [List.filter].
      destruct (pyobj_eqb (Relation.node_cls r) k
                && condition_eqb (Relation.condition r) cond);
        cbn [map]; rewrite <- app_assoc; reflexivity.
Qed.

Lemma register_members_appends (cls : string) (members : list decorated) :
  Forall (fun m => Forall (fun r => Relation.responder_cls r ≠ Some ALL_NODES)
                     (__handles__ m)) members ->
  ∀ (s : @Protocol.State W) (c : ProtocolClass),
    Protocol.classes s !! cls = Some c ->
    ∃ c',
      Protocol.register_members cls members s
      = (Ok tt, Protocol.set_classes (<[cls := c']> (Protocol.classes s)) s)
      ∧ (∀ k cond,
           Protocol.stored_cases c' k cond
           = Protocol.stored_cases c k cond
             ++ flat_map
                  (fun m =>
                     map (fun r =>
                            Case.mk (Some (Function (def_ m)))
                              (Relation.responder_cls r) (Relation.status r)
                              (Relation.pass_protocol r))
                       (List.filter
                          (fun r => pyobj_eqb (Relation.node_cls r) k
                                    && condition_eqb (Relation.condition r)
                                         cond)
                          (__handles__ m)))
                  members)
      ∧ _registry c' = _registry c
      ∧ _children c' = _children c.
Proof.
  induction 1 as [|m rest Hm _ IH]; intros s c Hcls.
  - exists c. split; [|split; [|split; reflexivity]].
    + cbn. unfold ret. rewrite insert_id by exact Hcls.
      destruct s; reflexivity.
    + intros k cond. cbn. rewrite app_nil_r. reflexivity.
  - cbn [Protocol.register_members].
    destruct (register_relations_appends cls m (__handles__ m) Hm s c Hcls)
      as (c1 & Hrun1 & Hstored1 & Hreg1 & Hch1).
    rewrite (bind_ret _ _ _ _ _ Hrun1).
    set (s1 := Protocol.set_classes _ s).
    assert (Hcls1 : Protocol.classes s1 !! cls = Some c1).
    { subst s1. cbn. apply lookup_insert_eq. }
    destruct (IH s1 c1 Hcls1) as (c' & Hrun & Hstored & Hreg & Hch).
    exists c'. split; [|split; [|split; congruence]].
    + rewrite Hrun. subst s1. cbn. rewrite insert_insert_eq. reflexivity.
    + intros k cond. rewrite Hstored, Hstored1. cbn [flat_map].
      rewrite <- app_assoc. reflexivity.
Qed.

(** X25: creating a [Protocol] subclass gives it fresh tables and
    registers, for every decorated function among its members, one
    descriptor for each [@handles] decoration, under the type and the
    condition of the decoration, in the order of the members and of
    the decorations; with [extends] naming a [Protocol] subclass, the
    new class starts from the registry entries of that class and is
    appended to its child classes. *)
Theorem init_subclass_registers_decorations (cls : string)
  (extends : option string) (members : list decorated)
  (s : @Protocol.State W) :
  extends ≠ Some cls ->
  Forall (fun m => Forall (fun r => Relation.responder_cls r ≠ Some ALL_NODES)
                     (__handles__ m)) members ->
  ∃ s' c',
    Protocol.__init_subclass__ cls extends members s = (Ok tt, s')
    ∧ Protocol.classes s' !! cls = Some c'
    ∧ Protocol.objects s' = Protocol.objects s
    ∧ _children c' = []
    ∧ _registry c'
      = match extends ≫= (fun e => Protocol.classes s !! e) with
        | Some ec =>
            fold_left (fun d item => dict_set pyobj_eqb d (fst item)
                                       (snd item)) (_registry ec) []
        | None => []
        end
    ∧ (∀ e ec, extends = Some e -> Protocol.classes s !! e = Some ec ->
               Protocol.classes s' !! e
               = Some (set__children (_children ec ++ [cls]) ec))
    ∧ (∀ k cond,
         Protocol.stored_cases c' k cond
         = flat_map
             (fun m =>
                map (fun r =>
                       Case.mk (Some (Function (def_ m)))
                         (Relation.responder_cls r) (Relation.status r)
                         (Relation.pass_protocol r))
                  (List.filter
                     (fun r => pyobj_eqb (Relation.node_cls r) k
                               && condition_eqb (Relation.condition r) cond)
                     (__handles__ m)))
             members).
Proof.
  intros Hext Hmembers. unfold Protocol.__init_subclass__.
  unfold bind at 1. unfold modify at 1. cbv beta iota.
  set (c0 := {| _registry := []; _handlers := []; _children := [] |}).
  set (s1 := Protocol.set_classes (<[cls := c0]> (Protocol.classes s)) s).
  rewrite (bind_ret get _ s1 s1 s1 eq_refl).
  assert (H1 : Protocol.classes s1 !! cls = Some c0).
  { subst s1. cbn. apply lookup_insert_eq. }
  assert (Hmid : ∃ s2 c2,
    (match extends with
     | Some e =>
         match Protocol.classes s1 !! e with
         | Some ec =>
             Protocol.modify_class cls (fun c =>
               set__registry
                 (fold_left (fun d item => dict_set pyobj_eqb d (fst item)
                                             (snd item))
                    (_registry ec) (_registry c)) c);;
             Protocol.modify_class e
               (fun c => set__children (_children c ++ [cls]) c)
         | None => ret tt
         end
     | None => ret tt
     end) s1 = (Ok tt, s2)
    ∧ Protocol.classes s2 !! cls = Some c2
    ∧ Protocol.objects s2 = Protocol.objects s
    ∧ _children c2 = [] ∧ _handlers c2 = []
    ∧ _registry c2
      = match extends ≫= (fun e => Protocol.classes s !! e) with
        | Some ec =>
            fold_left (fun d item => dict_set pyobj_eqb d (fst item)
                                       (snd item)) (_registry ec) []
        | None => []
        end
    ∧ (∀ e ec, extends = Some e -> Protocol.classes s !! e = Some ec ->
               Protocol.classes s2 !! e
               = Some (set__children (_children ec ++ [cls]) ec))).
  { destruct extends as [e|]; cbn [mbind option_bind].
    2:{ exists s1, c0. repeat split; try assumption. intros e ec He.
        discriminate He. }
    assert (Hne : cls ≠ e) by congruence.
    assert (He1 : Protocol.classes s1 !! e = Protocol.classes s !! e).
    { subst s1. cbn. apply lookup_insert_ne. exact Hne. }
    destruct (Protocol.classes s !! e) as [ec|] eqn:He;
      destruct (Protocol.classes s1 !! e) as [ec1|] eqn:He1';
      try discriminate He1; [injection He1 as ->|].
    2:{ exists s1, c0. repeat split; try assumption.
        intros e' ec' [= <-] He'. congruence. }
    rewrite (bind_ret _ _ _ _ _ (modify_class_returns cls c0 _ s1 H1)).
    set (s2 := Protocol.set_classes _ s1).
    assert (He2 : Protocol.classes s2 !! e = Some ec).
    { subst s2. cbn. rewrite lookup_insert_ne by exact Hne. exact He1'. }
    rewrite (modify_class_returns e ec _ s2 He2).
    eexists _, _. split; [reflexivity|]. cbn.
    split; [rewrite lookup_insert_ne by congruence; apply lookup_insert_eq|].
    repeat split.
    intros e' ec' [= <-] He'. rewrite He in He'. injection He' as <-.
    apply lookup_insert_eq. }
  destruct Hmid as (s2 & c2 & Hrun2 & Hcls2 & Hobj2 & Hch2 & Hh2 & Hreg2 & Hext2).
  rewrite (bind_ret _ _ _ _ _ Hrun2).
  destruct (register_members_appends cls members Hmembers s2 c2 Hcls2)
    as (c' & Hrun & Hstored & Hreg & Hch).
  rewrite Hrun. eexists _, c'. split; [reflexivity|]. cbn.
  split; [apply lookup_insert_eq|]. split; [exact Hobj2|].
  split; [congruence|]. split; [congruence|]. split.
  - intros e ec He Hec. rewrite lookup_insert_ne by congruence.
    exact (Hext2 e ec He Hec).
  - intros k cond. rewrite Hstored. unfold Protocol.stored_cases at 1.
    rewrite Hh2. reflexivity.
Qed.

End ClassFacts.

Lemma init_subclass_registers_decorations_witness :
  ∃ s' c',
    Protocol.__init_subclass__ "Sessions" None [Sessions.on_command]
      (Protocol.mkState ∅ ∅ ∅ [] (∅ : gmap nat (list Node.t)) [])
    = (Ok tt, s')
    ∧ Protocol.classes s' !! "Sessions" = Some c'
    ∧ Protocol.stored_cases c' ALL_NODES None
      = [Case.mk (Some (Function (def_ Sessions.on_command))) None NORMAL
           true].
Proof.
  destruct
    (init_subclass_registers_decorations "Sessions" None
       [Sessions.on_command]
       (Protocol.mkState ∅ ∅ ∅ [] (∅ : gmap nat (list Node.t)) []))
    as (s' & c' & Hrun & Hcls & _ & _ & _ & _ & Hstored).
  - discriminate.
  - repeat constructor. discriminate.
  - exists s', c'. split; [exact Hrun|]. split; [exact Hcls|].
    rewrite Hstored. reflexivity.
Defined.


(** ** The session-file reader *)

(** X26: the dispatcher of the session-file reader, on a record of a
    type it takes: [handle] calls [on_command] once, which appends the
    record to the instance's [commands]; nothing is reported, and the
    instance, the class tables and the interest sets are as before, so
    that the records of a file accumulate in the order they are
    handled. *)
Theorem sessions_collects_commands (self : nat) (p : Protocol.t)
  (node : Node.t) (s : @Protocol.State (gmap nat (list Node.t)))
  (commands : list Node.t) :
  Protocol.objects s !! self = Some p ->
  Protocol.type_ p = "Sessions" ->
  Protocol._aborted p = Some false ->
  Protocol.classes s !! "Sessions"
  = Protocol.classes Sessions.loaded !! "Sessions" ->
  Protocol.world s !! self = Some commands ->
  Protocol.in_registry Sessions.classes s self (Node.type_ node) = true ->
  ∃ s',
    Protocol.handle Sessions.invoke Sessions.classes self node s = (Ok tt, s')
    ∧ Protocol.world s' = <[self := commands ++ [node]]> (Protocol.world s)
    ∧ Protocol.calls s'
      = Protocol.calls s
        ++ [(Function (def_ Sessions.on_command),
             [ArgProtocol self; ArgNode node])]
    ∧ Protocol.objects s' = Protocol.objects s
    ∧ Protocol.weaksets s' = Protocol.weaksets s
    ∧ Protocol.stderr s' = Protocol.stderr s
    ∧ Protocol.classes s' !! "Sessions" = Protocol.classes s !! "Sessions".
Proof.
  intros Hp Hty Ha Hcls Hw Hin.
  set (case := Case.mk (Some (Function (def_ Sessions.on_command))) None
                 NORMAL true).
  set (c := {| _registry := [(PyClass "SessionCommands", None)];
               _handlers := [(ALL_NODES, [(None, [case])])];
               _children := [] |}).
  assert (Hc : Protocol.classes s !! Protocol.type_ p = Some c).
  { rewrite Hty, Hcls. vm_compute. reflexivity. }
  unfold Protocol.handle.
  rewrite (bind_ret _ _ _ _ _ (get_object_returns self p s Hp)).
  rewrite Ha. rewrite (bind_ret get _ s s s eq_refl). rewrite Hin.
  cbn [negb].
  assert (H1 : Protocol.handle_key self node (PyClass (Node.type_ node)) [] s
               = (Ok [], s)).
  { unfold Protocol.handle_key.
    rewrite (bind_ret _ _ _ _ _ (get_object_returns self p s Hp)).
    rewrite (bind_ret _ _ _ _ _ (get_class_returns _ c s Hc)).
    reflexivity. }
  rewrite (bind_ret _ _ _ _ _ H1).
  rewrite (bind_ret _ _ _ _ _
             (handle_key_writes_back self p c node ALL_NODES
                [(None, [case])] [] s Hp Hc eq_refl)).
  set (handler := Handler.mk (Function (def_ Sessions.on_command)) None NORMAL
                    true).
  assert (Hg : Protocol.handle_groups p node [(None, [case])] []
               = (Ok [handler], [(None, [case])])) by reflexivity.
  rewrite Hg. cbn [fst snd].
  set (s1 := Protocol.set_classes _ s).
  assert (Hargs : Handler.args handler VNone self node
                  = [ArgProtocol self; ArgNode node]) by reflexivity.
  assert (Hcall : Handler.call Sessions.invoke handler VNone self node
                    (Protocol.world s1)
                  = (Ok VNone,
                     <[self := commands ++ [node]]> (Protocol.world s))).
  { unfold Handler.call. rewrite Hargs. subst s1. cbn. rewrite Hw.
    reflexivity. }
  unfold Protocol.call_handlers.
  change (heapq.heappush Handler.lt [] _) with [handler].
  cbn [Protocol.call_handlers_from].
  unfold bind at 1. unfold Protocol.call_handler. rewrite call_eq, Hcall.
  rewrite Hargs. cbn [fst snd]. unfold ret.
  eexists. split; [reflexivity|]. subst s1. cbn. repeat split.
  rewrite Hty, lookup_insert_eq, Hcls. vm_compute. reflexivity.
Qed.

Lemma sessions_collects_commands_witness :
  ∃ s',
    Protocol.handle Sessions.invoke Sessions.classes 0
      (Node.__init__ "TabClosed" {[ Some "id" := VInt 7 ]}) Sessions.loaded
    = (Ok tt, s')
    ∧ Protocol.world s'
      = <[0%nat := [] ++ [Node.__init__ "TabClosed"
                            {[ Some "id" := VInt 7 ]}]]>
          (Protocol.world Sessions.loaded).
Proof.
  destruct
    (sessions_collects_commands 0
       (Protocol.mk "Sessions" None ∅ [] [] (Some false))
       (Node.__init__ "TabClosed" {[ Some "id" := VInt 7 ]}) Sessions.loaded
       [])
    as (s' & Hrun & Hworld & _);
    [vm_compute; reflexivity | reflexivity | reflexivity | reflexivity
    | vm_compute; reflexivity | vm_compute; reflexivity |].
  exists s'. split; [exact Hrun|exact Hworld].
Defined.


(** A [case] decoration leaves the other classes as they are, and
    changes no class's ancestry. *)
Lemma case_other (ct : class_table) (cls : string) (tag : pyvalue)
  (node_cls x : string) :
  x ≠ cls -> x ≠ node_cls ->
  snd (Tree.case cls tag node_cls ct) x = ct x.
Proof.
  intros Hc Hn. unfold Tree.case. run. unfold insert, fn_insert.
  rewrite (decide_True (P := node_cls = node_cls)) by reflexivity. cbn.
  destruct (decide (cls = node_cls)); cbn;
    destruct (is_Node _); cbn;
    repeat (first [ rewrite decide_False by congruence
                  | rewrite decide_True by congruence ]; cbn);
    reflexivity.
Qed.

Lemma case_is_Node (ct : class_table) (cls : string) (tag : pyvalue)
  (node_cls y : string) :
  is_Node (snd (Tree.case cls tag node_cls ct) y) = is_Node (ct y).
Proof.
  unfold Tree.case. run. unfold insert, fn_insert.
  repeat match goal with
         | |- context [decide (?a = ?b)] =>
             destruct (decide (a = b)) as [?|?]; [subst|]; cbn
         end;
    try congruence;
    match goal with
    | |- context [if is_Node ?c then _ else _] =>
        destruct (is_Node c) eqn:?; cbn
    end;
    repeat match goal with
           | |- context [decide (?a = ?b)] =>
               destruct (decide (a = b)) as [?|?]; [subst|]; cbn
           end;
    congruence.
Qed.

Lemma case_Ok (ct : class_table) (cls : string) (tag : pyvalue)
  (node_cls : string) :
  is_Node (ct node_cls) = true ->
  fst (Tree.case cls tag node_cls ct) = Ok (PyClass node_cls).
Proof.
  intros H. unfold Tree.case. run. unfold insert, fn_insert.
  repeat match goal with
         | |- context [decide (?a = ?b)] =>
             destruct (decide (a = b)) as [?|?]; [subst|]; cbn
         end;
    try congruence; rewrite H; reflexivity.
Qed.

Lemma case_last_other (base ct : class_table) (cls : string) (tag : pyvalue)
  (node_cls x : string) :
  ct x = base x ->
  x ≠ cls -> x ≠ node_cls ->
  snd (Tree.case cls tag node_cls ct) x = base x.
Proof. intros Hx Hc Hn. rewrite case_other by assumption. exact Hx. Qed.

Lemma case_then_other (base ct : class_table) (cls : string) (tag : pyvalue)
  (node_cls x : string) (k : M class_table pyobj) :
  ct x = base x ->
  (∀ y, is_Node (ct y) = is_Node (base y)) ->
  x ≠ cls -> x ≠ node_cls ->
  is_Node (base node_cls) = true ->
  (∀ ct', ct' x = base x -> (∀ y, is_Node (ct' y) = is_Node (base y)) ->
          snd (k ct') x = base x) ->
  snd ((Tree.case cls tag node_cls;; k) ct) x = base x.
Proof.
  intros Hx Hy Hc Hn Hok Hk. unfold bind at 1.
  assert (H := case_Ok ct cls tag node_cls).
  rewrite Hy in H. specialize (H Hok).
  destruct (Tree.case cls tag node_cls ct) as [r ct'] eqn:E.
  cbn in H. subst r.
  assert (Hct : ct' = snd (Tree.case cls tag node_cls ct)) by (rewrite E; reflexivity).
  apply Hk.
  - rewrite Hct, case_other by assumption. exact Hx.
  - intros y. rewrite Hct, case_is_Node. apply Hy.
Qed.

(** X27: the record types the dispatcher of the session-file reader
    takes, once built: [SessionCommands], which is registered, and the
    types registered as its cases, which share its interest set; no
    other type, so neither [Command] nor [TabCommands]. *)
Theorem sessions_takes_the_registered_cases (c : string) :
  Protocol.in_registry Sessions.classes Sessions.loaded 0 c = true
  ↔ c = "SessionCommands"
    ∨ PyClass c ∈ map snd (nodes (Sessions.classes "SessionCommands")).
Proof.
  set (names := ["Command"; "TabCommands"; "SessionCommands";
                 "UpdateTabNavigation"; "IDAndIndex"; "SetWindowBounds3";
                 "TabOrWindowClosed"; "TabClosed"; "WindowClosed";
                 "SessionStorageAssociated"; "SetActiveWindow";
                 "LastActiveTime"; "SetWindowWorkspace"]).
  destruct (decide (c ∈ names)) as [Hin|Hnin].
  - subst names.
    repeat (apply elem_of_cons in Hin as [->|Hin];
            [split; intros H;
             [ first [ left; reflexivity
                     | right; refine (bool_decide_unpack _ _); vm_compute;
                       exact I
                     | vm_compute in H; discriminate H ]
             | first [ vm_compute; reflexivity
                     | exfalso; destruct H as [H|H];
                       [ discriminate H
                       | pose proof (bool_decide_pack _ H) as Hb;
                         vm_compute in Hb; exact Hb ] ] ]|]).
    apply elem_of_nil in Hin. destruct Hin.
  - subst names. rewrite !not_elem_of_cons in Hnin.
    destruct Hnin as (H1 & H2 & H3 & H4 & H5 & H6 & H7 & H8 & H9 & H10 & H11
                      & H12 & H13 & _).
    assert (Hc : Sessions.classes c = Sessions.declared c).
    { unfold Sessions.classes, Sessions.decorators.
      repeat (apply (case_then_other Sessions.declared);
              [ assumption || reflexivity
              | assumption || reflexivity
              | congruence | congruence | reflexivity
              | let ct := fresh "ct" in
                let Hx := fresh "Hx" in
                let Hy := fresh "Hy" in
                intros ct Hx Hy ]).
      apply (case_last_other Sessions.declared);
        [assumption || reflexivity | congruence | congruence]. }
    assert (Hd : Sessions.declared c = Sessions.object_).
    { unfold Sessions.declared.
      rewrite !fn_lookup_insert_ne by congruence. reflexivity. }
    split.
    + unfold Protocol.in_registry. rewrite Hc, Hd. cbn [registry Sessions.object_].
      intros H. vm_compute in H. discriminate H.
    + intros [->|Hin]; [congruence|].
      exfalso. revert Hin.
      replace (map snd (nodes (Sessions.classes "SessionCommands")))
        with [PyClass "UpdateTabNavigation"; PyClass "IDAndIndex";
              PyClass "IDAndIndex"; PyClass "IDAndIndex";
              PyClass "IDAndIndex"; PyClass "IDAndIndex";
              PyClass "IDAndIndex"; PyClass "IDAndIndex";
              PyClass "SetWindowBounds3"; PyClass "TabClosed";
              PyClass "WindowClosed"; PyClass "SessionStorageAssociated";
              PyClass "SetActiveWindow"; PyClass "LastActiveTime";
              PyClass "SetWindowWorkspace"]
        by (vm_compute; reflexivity).
      rewrite !elem_of_cons, elem_of_nil.
      intuition congruence.
Qed.
